(** * Irrigation intelligence service: recommendation and anomaly rule engine

    A shallow embedding of [server/services/intelligence.js]
    ([calculateET], [generateRecommendation], [getOptimalIrrigationTime],
    [calculateNextIrrigationTime], [getPriority], [detectAnomalies],
    [calculateWaterSavings], [predictYieldHealth]) together with the
    properties its specification states about them, and of its
    surroundings: [fetchWeatherData] of the same file, the ESP32 service
    [server/services/esp32Service.js] ([setState],
    [determineStateFromAlerts], [updateFromStatus]), and the parts of the
    status and fields routes of [server/index.js] that combine their
    results.

    Numbers.  A JavaScript number is modelled by [num]: a real number, one of
    the two infinities, or NaN.  Finite arithmetic is exact: the rounding and
    the overflow of IEEE-754 doubles are not modelled, and neither is the sign
    of zero (a zero divisor behaves as +0).  The special values propagate as in
    JavaScript: every comparison with NaN is false, [Math.max] and [Math.min]
    return NaN as soon as one argument is NaN, [x / 0] is an infinity or NaN.

    Rounding.  The program computes in binary64, and a result of the model
    can differ from the program's by the rounding of a few operations.  A
    property whose conclusion such a difference could change is stated with
    a margin: inputs within one part in 10^9 of a computed limit are left
    undecided ([slack]), two inputs that are compared lie at least 10^-6
    apart ([resolution]), and the inputs of the evapotranspiration formula
    stay in a range in which nothing overflows ([moderateWeather]).  The
    module [Binary64] evaluates the program's own comparisons on the
    kernel's binary64 numbers; [Binary64Facts] records what they give at
    the limits.

    Optional fields.  A field that may be missing from an object is an
    [option]; [None] is JavaScript's [undefined].

    Clock.  [new Date()] reads the wall clock; the functions that do so take
    the clock as an explicit first argument.

    Environment.  The draws of [Math.random], the API key, the bodies of the
    HTTP responses and the answer of the device are inputs; the requests
    that are sent are outputs. *)

From Stdlib Require Import Reals Lra Lia ZArith List String Bool.
From Stdlib Require Floats.
Import ListNotations.

Local Open Scope R_scope.

(** ** JavaScript numbers *)

Inductive num : Type :=
| NaN
| NInf
| PInf
| Fin (r : R).

Module Num.

Definition isNaN (x : num) : bool :=
  match x with NaN => true | _ => false end.

Definition Rltb (a b : R) : bool := if Rlt_dec a b then true else false.
Definition Rleb (a b : R) : bool := if Rle_dec a b then true else false.
Definition Reqb (a b : R) : bool := if Req_dec_T a b then true else false.

(** [x < y] *)
Definition ltb (x y : num) : bool :=
  match x, y with
  | NaN, _ | _, NaN => false
  | Fin a, Fin b => Rltb a b
  | NInf, NInf => false
  | NInf, _ => true
  | _, NInf => false
  | PInf, _ => false
  | Fin _, PInf => true
  end.

(** [x <= y] *)
Definition leb (x y : num) : bool :=
  match x, y with
  | NaN, _ | _, NaN => false
  | Fin a, Fin b => Rleb a b
  | NInf, _ => true
  | _, NInf => false
  | _, PInf => true
  | PInf, Fin _ => false
  end.

(** [x > y] and [x >= y] *)
Definition gtb (x y : num) : bool := ltb y x.
Definition geb (x y : num) : bool := leb y x.

Definition neg (x : num) : num :=
  match x with
  | NaN => NaN
  | NInf => PInf
  | PInf => NInf
  | Fin a => Fin (- a)
  end.

(** [x + y] *)
Definition add (x y : num) : num :=
  match x, y with
  | NaN, _ | _, NaN => NaN
  | PInf, NInf | NInf, PInf => NaN
  | PInf, _ | _, PInf => PInf
  | NInf, _ | _, NInf => NInf
  | Fin a, Fin b => Fin (a + b)
  end.

(** [x - y] *)
Definition sub (x y : num) : num :=
  match x, y with
  | NaN, _ | _, NaN => NaN
  | PInf, PInf | NInf, NInf => NaN
  | PInf, _ | _, NInf => PInf
  | NInf, _ | _, PInf => NInf
  | Fin a, Fin b => Fin (a - b)
  end.

(** An infinity scaled by a finite factor: NaN for the factor 0, the
    infinity or its opposite according to the factor's sign otherwise. *)
Definition scaleInf (inf : num) (r : R) : num :=
  if Rlt_dec 0 r then inf
  else if Rlt_dec r 0 then neg inf
  else NaN.

(** [x * y] *)
Definition mul (x y : num) : num :=
  match x, y with
  | NaN, _ | _, NaN => NaN
  | Fin a, Fin b => Fin (a * b)
  | Fin a, inf => scaleInf inf a
  | inf, Fin b => scaleInf inf b
  | PInf, PInf | NInf, NInf => PInf
  | PInf, NInf | NInf, PInf => NInf
  end.

(** [x / y]; a zero divisor is +0. *)
Definition div (x y : num) : num :=
  match x, y with
  | NaN, _ | _, NaN => NaN
  | Fin a, Fin b =>
      if Req_dec_T b 0 then scaleInf PInf a else Fin (a / b)
  | Fin _, _ => Fin 0
  | inf, Fin b => if Rlt_dec b 0 then neg inf else inf
  | _, _ => NaN
  end.

(** ToBoolean on a number: false for NaN and for 0. *)
Definition truthy (x : num) : bool :=
  match x with
  | NaN => false
  | Fin a => negb (Reqb a 0)
  | _ => true
  end.

(** ToNumber on an optional numeric field: [undefined] becomes NaN. *)
Definition ofField (o : option num) : num :=
  match o with Some x => x | None => NaN end.

(** [o || d] on an optional numeric field. *)
Definition orElse (o : option num) (d : num) : num :=
  match o with
  | Some x => if truthy x then x else d
  | None => d
  end.

(** ToBoolean on an optional numeric field. *)
Definition truthyField (o : option num) : bool :=
  match o with Some x => truthy x | None => false end.

Definition ofZ (z : Z) : num := Fin (IZR z).
Definition ofNat (n : nat) : num := Fin (INR n).

End Num.

Declare Scope num_scope.
Delimit Scope num_scope with num.
Bind Scope num_scope with num.
Infix "+" := Num.add : num_scope.
Infix "-" := Num.sub : num_scope.
Infix "*" := Num.mul : num_scope.
Infix "/" := Num.div : num_scope.
Infix "<?" := Num.ltb (at level 70) : num_scope.
Infix "<=?" := Num.leb (at level 70) : num_scope.
Infix ">?" := Num.gtb (at level 70) : num_scope.
Infix ">=?" := Num.geb (at level 70) : num_scope.
Coercion Fin : R >-> num.

(** ** The [Math] object *)

Module Math.

Definition max (x y : num) : num :=
  match x, y with
  | NaN, _ | _, NaN => NaN
  | _, _ => if Num.ltb x y then y else x
  end.

Definition min (x y : num) : num :=
  match x, y with
  | NaN, _ | _, NaN => NaN
  | _, _ => if Num.ltb y x then y else x
  end.

Definition abs (x : num) : num :=
  match x with
  | NaN => NaN
  | NInf | PInf => PInf
  | Fin a => Fin (Rabs a)
  end.

Definition ceil (x : num) : num :=
  match x with
  | Fin a => Fin (IZR (Zceil a))
  | _ => x
  end.

(** [Math.round] rounds half-way cases up: floor (x + 1/2). *)
Definition round (x : num) : num :=
  match x with
  | Fin a => Fin (IZR (Zfloor (a + / 2)))
  | _ => x
  end.

Definition sqrt (x : num) : num :=
  match x with
  | NaN | NInf => NaN
  | PInf => PInf
  | Fin a => if Rlt_dec a 0 then NaN else Fin (R_sqrt.sqrt a)
  end.

Definition exp (x : num) : num :=
  match x with
  | NaN => NaN
  | NInf => Fin 0
  | PInf => PInf
  | Fin a => Fin (Rtrigo_def.exp a)
  end.

(** [Math.pow x n] for a natural exponent. *)
Fixpoint pow (x : num) (n : nat) : num :=
  match n with
  | O => Fin 1
  | S k => Num.mul x (pow x k)
  end.

End Math.

(** ** Data model *)

(** The wall clock: the instant [new Date()] returns, in milliseconds since
    the epoch, and the offset of local time (minutes, as
    [getTimezoneOffset] reports it). *)
Module Clock.
Record t := { now : Z; timezoneOffset : Z }.

(** [new Date().getHours()] *)
Definition getHours (c : t) : Z :=
  (((now c - timezoneOffset c * 60000) / 3600000) mod 24)%Z.

(** Milliseconds elapsed since local midnight. *)
Definition timeOfDay (c : t) : Z :=
  ((now c - timezoneOffset c * 60000) mod 86400000)%Z.
End Clock.

Module Soil.
Record t := {
  moisture : option num;
  temp : option num;
  nitrogen : option num;
  phosphorus : option num;
  potassium : option num;
  ph : option num
}.
Definition empty : t := Build_t None None None None None None.
End Soil.

Module Forecast.
Record t := { nextRainHours : option num; nextRainChance : option num }.
End Forecast.

Module Weather.
Record t := {
  temperature : option num;
  humidity : option num;
  chanceOfRain : option num;
  windSpeed : option num;
  solarRadiation : option num;
  forecast : option Forecast.t
}.
(** The object literal [{}]. *)
Definition empty : t := Build_t None None None None None None.
End Weather.

(** A sensor reading.  [timestamp] is a [Date], held as its epoch
    milliseconds. *)
Module Reading.
Record t := {
  soil : option Soil.t;
  weather : option Weather.t;
  cropType : option string;
  timestamp : option Z;
  field : option string
}.
Definition empty : t := Build_t None None None None None.
End Reading.

Module Crop.
Record t := { name : option string }.
End Crop.

(** An entry of the crop table.  No entry of the source has a [kc]
    property. *)
Module Config.
Record t := {
  min : option num;
  max : option num;
  waterPerIrrigation : option num;
  rootDepth : option num;
  kc : option num
}.
Definition make (mn mx w d : R) : t :=
  Build_t (Some (Fin mn)) (Some (Fin mx)) (Some (Fin w)) (Some (Fin d)) None.
(** A value that has none of these properties. *)
Definition empty : t := Build_t None None None None None.
End Config.

(** The [reason] of a recommendation.  The template literals of the source
    are kept as constructors that carry the numbers they interpolate; the
    rendering by [toFixed] is not modelled. *)
Inductive Reason : Type :=
| Text (s : string)
| ExceedsSafeRange (moisture : num)
| RainExpected (rainInNextHours rainChance : num)
| BelowThreshold (moisture : num) (min : option num) (moistureDeficit : num)
| LowerOptimalRange (hours : num).

(** A field that is absent from the returned object literal is [None];
    [hoursUntilNext] may also be present and [null], which is
    [Some None]. *)
Module Recommendation.
Record t := {
  action : string;
  reason : Reason;
  amount : option num;
  duration : option num;
  recommendedTime : option string;
  hoursUntilNext : option (option num);
  priority : option string;
  et : option num
}.
End Recommendation.

(** The [message] of an anomaly, with the interpolated numbers. *)
Inductive Message : Type :=
| LeakMessage (drop timeDiff : num)
| DryStressMessage (moisture : num)
| OverIrrigationMessage (moisture : num)
| AbnormalPatternMessage (stdDev : num).

Module Anomaly.
Record t := {
  type : string;
  severity : string;
  message : Message;
  confidence : num;
  field : string;
  timestamp : Z;
  status : string
}.
End Anomaly.

Module WaterSavings.
Record t := {
  saved : num;
  percentage : num;
  baseline : num;
  optimized : num;
  irrigationEvents : option nat;
  daysAnalyzed : option num
}.
End WaterSavings.

Local Open Scope string_scope.
Local Open Scope num_scope.

(** [a || b] on optional strings: the empty string is falsy. *)
Definition strOr (o : option string) (d : string) : string :=
  match o with
  | Some s => if String.eqb s EmptyString then d else s
  | None => d
  end.

(** ** The service *)

(** Crop-specific moisture thresholds and water requirements. *)
Definition cropConfig : list (string * Config.t) :=
  [ ("Rice",      Config.make 40 70 50 20);
    ("Wheat",     Config.make 30 50 35 30);
    ("Maize",     Config.make 35 60 40 40);
    ("Tomato",    Config.make 35 60 30 30);
    ("Cotton",    Config.make 40 65 45 50);
    ("Sugarcane", Config.make 45 70 55 60);
    ("Tobacco",   Config.make 30 55 32 35);
    ("Default",   Config.make 30 60 40 30) ].

(** Property names every object literal inherits from [Object.prototype];
    looking one of them up in the table yields a truthy value that has no
    [min], [max], [waterPerIrrigation], [rootDepth] or [kc]. *)
Definition objectPrototypeKeys : list string :=
  [ "constructor"; "__proto__"; "hasOwnProperty"; "isPrototypeOf";
    "propertyIsEnumerable"; "toLocaleString"; "toString"; "valueOf";
    "__defineGetter__"; "__defineSetter__"; "__lookupGetter__";
    "__lookupSetter__" ].

(** [this.cropConfig[key]] *)
Definition cropConfigGet (key : string) : option Config.t :=
  match find (fun e => String.eqb (fst e) key) cropConfig with
  | Some e => Some (snd e)
  | None =>
      if existsb (String.eqb key) objectPrototypeKeys
      then Some Config.empty else None
  end.

(** [this.cropConfig[cropType] || this.cropConfig['Default']] *)
Definition resolveConfig (cropType : string) : Config.t :=
  match cropConfigGet cropType with
  | Some c => c
  | None =>
      match cropConfigGet "Default" with
      | Some c => c
      | None => Config.empty
      end
  end.

(** [data.cropType || crop?.name || 'Default'] *)
Definition resolveCropType (data : Reading.t) (crop : option Crop.t) : string :=
  strOr (Reading.cropType data)
        (strOr (match crop with Some c => Crop.name c | None => None end)
               "Default").

(** [data.weather || {}] *)
Definition weatherOf (data : Reading.t) : Weather.t :=
  match Reading.weather data with
  | Some w => w
  | None => Weather.empty
  end.

(** [r.soil?.moisture] *)
Definition soilMoisture (r : Reading.t) : option num :=
  match Reading.soil r with
  | Some s => Soil.moisture s
  | None => None
  end.

(** Evapotranspiration from the weather conditions, in mm/day. *)
Definition calculateET (weather : Weather.t) (cropType : string) : num :=
  let temperature := Num.ofField (Weather.temperature weather) in
  let humidity := Num.ofField (Weather.humidity weather) in
  let windSpeed := Num.ofField (Weather.windSpeed weather) in
  let solarRadiation := Num.ofField (Weather.solarRadiation weather) in
  let cropCoefficient :=
    Num.orElse (match cropConfigGet cropType with
                | Some c => Config.kc c
                | None => None
                end) 0.8 in
  let vaporPressureDeficit :=
    (1 - humidity / 100) * 0.611
    * Math.exp (17.27 * temperature / (237.3 + temperature)) in
  let et0 :=
    (0.408 * solarRadiation * vaporPressureDeficit
     + 0.063 * windSpeed * vaporPressureDeficit)
    / (temperature + 237.3) in
  let etc := et0 * cropCoefficient in
  Math.max 0 (etc * 24).

(** The clock time recommended for irrigation. *)
Definition getOptimalIrrigationTime (clk : Clock.t) (weather : Weather.t) : string :=
  let hour := Clock.getHours clk in
  let temp := Num.orElse (Weather.temperature weather) 28 in
  if ((5 <=? hour) && (hour <? 7))%Z then "06:00 AM"
  else if ((18 <=? hour) && (hour <? 20))%Z then "07:00 PM"
  else if ((hour <? 5) || (20 <=? hour))%Z then "06:00 AM (Tomorrow)"
  else "06:00 AM (Tomorrow)".

(** Hours until the next irrigation is needed. *)
Definition calculateNextIrrigationTime (currentMoisture targetMoisture dailyET : num) : num :=
  let deficit := targetMoisture - currentMoisture in
  if deficit <=? 0 then 24
  else
    let hourlyET := dailyET / 24 in
    let hoursToThreshold := deficit / (hourlyET / 10) in
    Math.max 1 (Math.min 48 hoursToThreshold).

(** Priority level of a recommendation. *)
Definition getPriority (action : string) (moisture min max : num) : string :=
  if String.eqb action "Irrigate" then
    if moisture <? min * 0.7 then "Critical"
    else if moisture <? min then "High"
    else "Medium"
  else if String.eqb action "Stop" then "High"
  else "Low".

(** The placeholder returned while no soil data is available. *)
Definition pendingRecommendation : Recommendation.t :=
  {| Recommendation.action := "Pending";
     Recommendation.reason := Text "Collecting initial data...";
     Recommendation.amount := None;
     Recommendation.duration := None;
     Recommendation.recommendedTime := None;
     Recommendation.hoursUntilNext := None;
     Recommendation.priority := None;
     Recommendation.et := None |}.

(** The locals [action], [amount], [duration], [hoursUntilNext] and [reason]
    that the branches of [generateRecommendation] assign. *)
Record Decision : Type := {
  d_action : string;
  d_amount : num;
  d_duration : num;
  d_hoursUntilNext : option num;
  d_reason : Reason
}.

(** Weather-aware irrigation recommendation.  [historicalData] is accepted
    and not used, as in the source. *)
Definition generateRecommendation (clk : Clock.t) (currentData : option Reading.t)
    (crop : option Crop.t) (historicalData : list Reading.t) : Recommendation.t :=
  match currentData with
  | None => pendingRecommendation
  | Some currentData =>
  match Reading.soil currentData with
  | None => pendingRecommendation
  | Some soil =>
    let moisture := Num.ofField (Soil.moisture soil) in
    let weather := weatherOf currentData in
    let cropType := resolveCropType currentData crop in
    let config := resolveConfig cropType in
    let min := Num.ofField (Config.min config) in
    let max := Num.ofField (Config.max config) in
    let waterPerIrrigation := Num.ofField (Config.waterPerIrrigation config) in
    let dailyET := calculateET weather cropType in
    let moistureDeficit := max - moisture in
    let isBelowThreshold := moisture <? min in
    let isAboveThreshold := moisture >? max * 1.1 in
    let recommendedTime := getOptimalIrrigationTime clk weather in
    if isAboveThreshold then
      {| Recommendation.action := "Stop";
         Recommendation.reason := ExceedsSafeRange moisture;
         Recommendation.amount := Some (Fin 0);
         Recommendation.duration := Some (Fin 0);
         Recommendation.recommendedTime := Some "N/A";
         Recommendation.hoursUntilNext := Some (Some (Fin 24));
         Recommendation.priority := None;
         Recommendation.et := None |}
    else
      let rainInNextHours :=
        match Weather.forecast weather with
        | Some f => Forecast.nextRainHours f
        | None => None
        end in
      let rainChance := Num.orElse (Weather.chanceOfRain weather) 0 in
      let d :=
        if isBelowThreshold then
          if Num.truthyField rainInNextHours
             && (Num.ofField rainInNextHours <? 6)
             && (rainChance >? 50)
          then
            {| d_action := "Delay"; d_amount := 0; d_duration := 0;
               d_hoursUntilNext := Some (Num.ofField rainInNextHours + 2);
               d_reason := RainExpected (Num.ofField rainInNextHours) rainChance |}
          else
            let deficitVolume :=
              (moistureDeficit / 100) * Num.ofField (Config.rootDepth config) * 10 in
            let etCompensation := dailyET * 0.5 in
            let amount :=
              Math.max (waterPerIrrigation * 0.5)
                       (Math.min (waterPerIrrigation * 1.5)
                                 (deficitVolume + etCompensation)) in
            {| d_action := "Irrigate"; d_amount := amount;
               d_duration := Math.ceil (amount / 1.5);
               d_hoursUntilNext :=
                 Some (calculateNextIrrigationTime moisture max dailyET);
               d_reason :=
                 BelowThreshold moisture (Config.min config) moistureDeficit |}
        else if moisture <? (min + max) / 2 then
          let hoursUntilNext := calculateNextIrrigationTime moisture max dailyET in
          {| d_action := "Monitor"; d_amount := 0; d_duration := 0;
             d_hoursUntilNext := Some hoursUntilNext;
             d_reason := LowerOptimalRange (Math.ceil hoursUntilNext) |}
        else
          {| d_action := "Maintain"; d_amount := 0; d_duration := 0;
             d_hoursUntilNext := None;
             d_reason := Text "Moisture levels are optimal." |} in
      {| Recommendation.action := d_action d;
         Recommendation.reason := d_reason d;
         Recommendation.amount := Some (Math.round (d_amount d * 10) / 10);
         Recommendation.duration := Some (d_duration d);
         Recommendation.recommendedTime := Some recommendedTime;
         Recommendation.hoursUntilNext :=
           Some (match d_hoursUntilNext d with
                 | Some h => if Num.truthy h then Some (Math.ceil h) else None
                 | None => None
                 end);
         Recommendation.priority :=
           Some (getPriority (d_action d) moisture min max);
         Recommendation.et := Some (Math.round (dailyET * 10) / 10) |}
  end
  end.

(** [new Date(ts)] as a number: a missing timestamp is an invalid date. *)
Definition dateValue (ts : option Z) : num :=
  match ts with
  | Some ms => Num.ofZ ms
  | None => NaN
  end.

(** [history.slice(-n)] *)
Definition sliceLast {A : Type} (n : nat) (l : list A) : list A :=
  skipn (List.length l - n) l.

(** [values.reduce((a, b) => a + b, 0)] *)
Definition sum (values : list num) : num :=
  fold_left (fun a b => a + b) values (Fin 0).

(** The fields every anomaly shares. *)
Definition mkAnomaly (clk : Clock.t) (latest : Reading.t)
    (type severity : string) (message : Message) (confidence : num) : Anomaly.t :=
  {| Anomaly.type := type;
     Anomaly.severity := severity;
     Anomaly.message := message;
     Anomaly.confidence := confidence;
     Anomaly.field := strOr (Reading.field latest) "Field 1";
     Anomaly.timestamp :=
       match Reading.timestamp latest with
       | Some ts => ts
       | None => Clock.now clk
       end;
     Anomaly.status := "Active" |}.

(** Check 1 of [detectAnomalies], leak detection: a sudden moisture drop
    that the weather does not explain. *)
Definition leakCheck (clk : Clock.t) (history : list Reading.t)
    (latest : Reading.t) (moisture : num) (cropType : string) : list Anomaly.t :=
  if (2 <=? List.length history)%nat then
    let previous := nth (List.length history - 2) history Reading.empty in
    let rateOfChange := moisture - Num.ofField (soilMoisture previous) in
    let timeDiff :=
      (dateValue (Reading.timestamp latest)
       - dateValue (Reading.timestamp previous)) / 3600000 in
    if (rateOfChange <? Fin (-8)) && (timeDiff <? 2) then
      let weatherEvaporation :=
        calculateET (weatherOf latest) cropType * (timeDiff / 24) in
      let expectedDrop := weatherEvaporation / 10 in
      if Math.abs rateOfChange >? Math.abs expectedDrop * 2 then
        [ mkAnomaly clk latest "Leak" "High"
            (LeakMessage (Math.abs rateOfChange) timeDiff)
            (Math.min 95 (70 + Math.abs rateOfChange * 2)) ]
      else []
    else []
  else [].

(** Check 2, dry stress: an extended period below the threshold. *)
Definition dryStressCheck (clk : Clock.t) (recent : list Reading.t)
    (latest : Reading.t) (moisture min : num) : list Anomaly.t :=
  let lowMoistureCount :=
    List.length (filter (fun r => Num.ofField (soilMoisture r) <? min) recent) in
  if (moisture <? min * 0.8) && (5 <=? lowMoistureCount)%nat then
    [ mkAnomaly clk latest "Dry Stress"
        (if moisture <? min * 0.6 then "Critical" else "High")
        (DryStressMessage moisture)
        (Math.min 95 (75 + (min - moisture) * 2)) ]
  else [].

(** Check 3, over-irrigation: moisture consistently above the safe range. *)
Definition overIrrigationCheck (clk : Clock.t) (recent : list Reading.t)
    (latest : Reading.t) (moisture max : num) : list Anomaly.t :=
  let highMoistureCount :=
    List.length (filter (fun r => Num.ofField (soilMoisture r) >? max * 1.1) recent) in
  if (moisture >? max * 1.15) && (3 <=? highMoistureCount)%nat then
    [ mkAnomaly clk latest "Over-Irrigation"
        (if moisture >? max * 1.3 then "High" else "Medium")
        (OverIrrigationMessage moisture)
        (Math.min 90 (60 + (moisture - max) * 1.5)) ]
  else [].

(** Check 4, abnormal pattern: unusual variance.  The values that are
    [null] or [undefined] are filtered out. *)
Definition abnormalPatternCheck (clk : Clock.t) (recent : list Reading.t)
    (latest : Reading.t) : list Anomaly.t :=
  if (5 <=? List.length recent)%nat then
    let moistureValues :=
      flat_map (fun r => match soilMoisture r with
                         | Some v => [v]
                         | None => []
                         end) recent in
    let mean := sum moistureValues / Num.ofNat (List.length moistureValues) in
    let variance :=
      fold_left (fun acc v => acc + Math.pow (v - mean) 2) moistureValues (Fin 0)
      / Num.ofNat (List.length moistureValues) in
    let stdDev := Math.sqrt variance in
    if stdDev >? 15 then
      [ mkAnomaly clk latest "Abnormal Pattern" "Medium"
          (AbnormalPatternMessage stdDev)
          (Math.min 85 (50 + stdDev * 2)) ]
    else []
  else [].

(** Anomaly detection: leaks, over-irrigation, dry stress.  The four checks
    push onto one array, in this order. *)
Definition detectAnomalies (clk : Clock.t) (history : option (list Reading.t))
    (currentData : option Reading.t) (crop : option Crop.t) : list Anomaly.t :=
  match history with
  | None => []
  | Some history =>
  if (List.length history <? 5)%nat then [] else
  let latest :=
    match currentData with
    | Some c => c
    | None => nth (List.length history - 1) history Reading.empty
    end in
  let recent := sliceLast 10 history in
  match Reading.soil latest with
  | None => []
  | Some soil =>
    let moisture := Num.ofField (Soil.moisture soil) in
    let cropType := resolveCropType latest crop in
    let config := resolveConfig cropType in
    let min := Num.ofField (Config.min config) in
    let max := Num.ofField (Config.max config) in
    leakCheck clk history latest moisture cropType
    ++ dryStressCheck clk recent latest moisture min
    ++ overIrrigationCheck clk recent latest moisture max
    ++ abnormalPatternCheck clk recent latest
  end
  end.

(** [l.filter((x, index) => f(x, index))], the index counted from [i]. *)
Fixpoint filterFrom {A : Type} (f : A -> nat -> bool) (i : nat) (l : list A) : list A :=
  match l with
  | [] => []
  | x :: rest =>
      if f x i then x :: filterFrom f (S i) rest else filterFrom f (S i) rest
  end.

Definition filterWithIndex {A : Type} (f : A -> nat -> bool) (l : list A) : list A :=
  filterFrom f 0 l.

(** The result for a history that is too short. *)
Definition zeroSavings : WaterSavings.t :=
  {| WaterSavings.saved := 0;
     WaterSavings.percentage := 0;
     WaterSavings.baseline := 0;
     WaterSavings.optimized := 0;
     WaterSavings.irrigationEvents := None;
     WaterSavings.daysAnalyzed := None |}.

(** [Math.round(x * 10) / 10] *)
Definition round1 (x : num) : num := Math.round (x * 10) / 10.

(** The record [last7Days[index - 1]] is compared with. *)
Definition isIrrigationEvent (last7Days : list Reading.t) (record : Reading.t) (index : nat) : bool :=
  if (index =? 0)%nat then false
  else
    let prev := nth (index - 1) last7Days Reading.empty in
    Num.ofField (soilMoisture record) <? Num.ofField (soilMoisture prev) * 0.95.

(** Water savings compared with a fixed-schedule baseline. *)
Definition calculateWaterSavings (historicalData : option (list Reading.t))
    (currentRecommendation : option Recommendation.t) : WaterSavings.t :=
  match historicalData with
  | None => zeroSavings
  | Some historicalData =>
  if (List.length historicalData <? 7)%nat then zeroSavings else
  let first := nth 0 historicalData Reading.empty in
  let last := nth (List.length historicalData - 1) historicalData Reading.empty in
  let days :=
    Math.ceil ((dateValue (Reading.timestamp first)
                - dateValue (Reading.timestamp last)) / 86400000) in
  let baselineAmount := 40 * days in
  let last7Days :=
    firstn (Nat.min 168 (List.length historicalData)) historicalData in
  let irrigationEvents :=
    List.length (filterWithIndex (isIrrigationEvent last7Days) last7Days) in
  let avgIrrigationAmount :=
    Num.orElse (match currentRecommendation with
                | Some r => Recommendation.amount r
                | None => None
                end) 35 in
  let optimizedAmount := Num.ofNat irrigationEvents * avgIrrigationAmount in
  let saved := Math.max 0 (baselineAmount - optimizedAmount) in
  let percentage :=
    if baselineAmount >? 0 then (saved / baselineAmount) * 100 else 0 in
  {| WaterSavings.saved := round1 saved;
     WaterSavings.percentage := round1 percentage;
     WaterSavings.baseline := round1 baselineAmount;
     WaterSavings.optimized := round1 optimizedAmount;
     WaterSavings.irrigationEvents := Some irrigationEvents;
     WaterSavings.daysAnalyzed := Some (Math.min 7 days) |}
  end.

(** The moisture sub-score of the yield health. *)
Definition moistureScoreOf (moisture min max : num) : num :=
  if (moisture >=? min) && (moisture <=? max) then 1.0
  else if moisture <? min then Math.max 0.2 (moisture / min)
  else Math.max 0.3 (1 - (moisture - max) / (max * 0.5)).

(** Yield health (0-100) from NPK, pH, moisture and the environment. *)
Definition predictYieldHealth (data : option Reading.t) (crop : option Crop.t) : num :=
  match data with
  | None => 0
  | Some data =>
  match Reading.soil data, Reading.weather data with
  | Some soil, Some weather =>
    let nitrogen := Soil.nitrogen soil in
    let phosphorus := Soil.phosphorus soil in
    let potassium := Soil.potassium soil in
    let ph := Soil.ph soil in
    let moisture := Num.ofField (Soil.moisture soil) in
    let temperature := Weather.temperature weather in
    let solarRadiation := Weather.solarRadiation weather in
    let nScore :=
      Math.max 0 (Math.min 1 (1 - Math.abs (80 - Num.orElse nitrogen 0) / 80)) in
    let pScore :=
      Math.max 0 (Math.min 1 (1 - Math.abs (45 - Num.orElse phosphorus 0) / 45)) in
    let kScore :=
      Math.max 0 (Math.min 1 (1 - Math.abs (50 - Num.orElse potassium 0) / 50)) in
    let phScore :=
      if Num.truthyField ph
      then Math.max 0 (Math.min 1 (1 - Math.abs (6.5 - Num.ofField ph) / 3))
      else 0.7 in
    let cropType := resolveCropType data crop in
    let config := resolveConfig cropType in
    let min := Num.ofField (Config.min config) in
    let max := Num.ofField (Config.max config) in
    let moistureScore := moistureScoreOf moisture min max in
    let tempScore :=
      if Num.truthyField temperature
      then Math.max 0 (Math.min 1 (1 - Math.abs (25 - Num.ofField temperature) / 15))
      else 0.7 in
    let sunScore :=
      if Num.truthyField solarRadiation
      then Math.min 1 (Num.ofField solarRadiation / 600)
      else 0.6 in
    let finalScore :=
      (nScore * 0.15 + pScore * 0.1 + kScore * 0.1 + phScore * 0.1
       + moistureScore * 0.35 + tempScore * 0.1 + sunScore * 0.1) * 100 in
    Math.max 0 (Math.min 100 (Math.round finalScore))
  | _, _ => 0
  end
  end.

(** ** Weather service: [fetchWeatherData]

    The two HTTP responses, the API key of the environment, the three draws
    of [Math.random] and the clock are inputs.  A response is [None] when the
    request throws or its body is missing; a property read on [undefined]
    throws as well, and every exception of the [try] block ends in the same
    simulated weather. *)

Module OpenWeather.
Record Main := { temp : option num; humidity : option num }.
Record Wind := { speed : option num }.
Record Clouds := { all : option num }.
(** The body of the current-weather response. *)
Record Current := { main : option Main; wind : option Wind; clouds : option Clouds }.
(** An element of the [weather] array of a forecast entry. *)
Record Condition := { condition : option string }.
(** A forecast entry; [weather] is empty when the array is missing. *)
Record Entry := { weather : list Condition; pop : option num; dt : option num }.
(** The body of the forecast response; [entries] is its [list]. *)
Record Forecast := { entries : option (list Entry) }.
End OpenWeather.

(** [o === s] on an optional string. *)
Definition optionIs (o : option string) (s : string) : bool :=
  match o with
  | Some x => String.eqb x s
  | None => false
  end.

(** The time value of [new Date(x)] for a number [x]: NaN unless [x] is
    finite and within 8.64e15 milliseconds of the epoch, and truncated to a
    whole number of milliseconds otherwise. *)
Definition dateOfNumber (x : num) : num :=
  match x with
  | Fin r =>
      if Rle_dec (Rabs r) 8640000000000000
      then Fin (IZR (if Rlt_dec r 0 then Zceil r else Zfloor r))
      else NaN
  | _ => NaN
  end.

(** [Math.floor] *)
Definition Math_floor (x : num) : num :=
  match x with
  | Fin a => Fin (IZR (Zfloor a))
  | _ => x
  end.

(** The weather returned without an API key and after any failure; [u1],
    [u2], [u3] are the draws of [Math.random], in the order of the
    properties. *)
Definition simulatedWeather (u1 u2 u3 : R) : Weather.t :=
  {| Weather.temperature := Some (Fin 28);
     Weather.humidity := Some (Fin 65);
     Weather.chanceOfRain := Some (Fin u1 * 40);
     Weather.windSpeed := Some (8 + Fin u2 * 10);
     Weather.solarRadiation := Some (400 + Fin u3 * 200);
     Weather.forecast :=
       Some {| Forecast.nextRainHours := None;
               Forecast.nextRainChance := Some (Fin 0) |} |}.

(** [forecast.find(f => f.weather[0].main === 'Rain')]: [None] when an
    entry that is inspected has no [weather[0]], which throws. *)
Fixpoint findRain (forecast : list OpenWeather.Entry) : option (option OpenWeather.Entry) :=
  match forecast with
  | [] => Some None
  | f :: rest =>
      match OpenWeather.weather f with
      | [] => None
      | c :: _ =>
          if optionIs (OpenWeather.condition c) "Rain" then Some (Some f)
          else findRain rest
      end
  end.

(** The [try] block after the two requests; [None] when it throws. *)
Definition parseWeather (clk : Clock.t) (current : OpenWeather.Current)
    (forecastData : OpenWeather.Forecast) : option Weather.t :=
  match OpenWeather.entries forecastData with
  | None => None
  | Some entries =>
  let forecast := firstn 4 entries in
  match findRain forecast with
  | None => None
  | Some rainForecast =>
  let chanceOfRain :=
    match rainForecast with
    | Some f => Math.min 100 (Num.orElse (OpenWeather.pop f) 0 * 100)
    | None => Fin 0
    end in
  let nextRainHours :=
    match rainForecast with
    | Some f =>
        Some (Math_floor
                ((dateOfNumber (Num.ofField (OpenWeather.dt f) * 1000)
                  - Num.ofZ (Clock.now clk)) / 3600000))
    | None => None
    end in
  match OpenWeather.main current with
  | None => None
  | Some main =>
      Some {| Weather.temperature := OpenWeather.temp main;
              Weather.humidity := OpenWeather.humidity main;
              Weather.chanceOfRain := Some (Math.round chanceOfRain);
              Weather.windSpeed :=
                Some (Num.orElse
                        (Some (Num.ofField
                                 (match OpenWeather.wind current with
                                  | Some wind => OpenWeather.speed wind
                                  | None => None
                                  end) * 3.6)) 0);
              Weather.solarRadiation :=
                Some (match OpenWeather.clouds current with
                      | Some clouds => (100 - Num.ofField (OpenWeather.all clouds)) * 5
                      | None => Fin 500
                      end);
              Weather.forecast :=
                Some {| Forecast.nextRainHours := nextRainHours;
                        Forecast.nextRainChance := Some (Math.round chanceOfRain) |} |}
  end
  end
  end.

(** Real-time weather, or the simulated weather when there is no API key or
    anything fails. *)
Definition fetchWeatherData (apiKey : option string) (u1 u2 u3 : R) (clk : Clock.t)
    (response : option OpenWeather.Current)
    (forecastResponse : option OpenWeather.Forecast) : Weather.t :=
  if String.eqb (strOr apiKey "demo_key") "demo_key" then simulatedWeather u1 u2 u3
  else
    match response, forecastResponse with
    | Some current, Some forecastData =>
        match parseWeather clk current forecastData with
        | Some weather => weather
        | None => simulatedWeather u1 u2 u3
        end
    | _, _ => simulatedWeather u1 u2 u3
    end.

(** ** Status route of [index.js] *)

(** The state the status route derives from the moisture of the latest
    reading; [None] is a moisture that is [undefined] or [null]. *)
Definition statusState (moisture : option num) : string :=
  match moisture with
  | None => "normal"
  | Some moisture =>
      if (moisture >=? 40) && (moisture <=? 60) then "normal"
      else if ((moisture >=? 30) && (moisture <? 40))
              || ((moisture >? 60) && (moisture <=? 75)) then "caution"
      else "critical"
  end.

(** The status of a field in the fields route: the priority of the
    recommendation, or else a status from the moisture and the yield
    health. *)
Definition fieldStatus (data : Reading.t) (recommendation : Recommendation.t)
    (yieldHealth : num) : string :=
  let status :=
    if (Num.ofField (soilMoisture data) <? 25) || (yieldHealth <? 50) then "Critical"
    else if (Num.ofField (soilMoisture data) <? 30) || (yieldHealth <? 70) then "High"
    else "Low" in
  strOr (Recommendation.priority recommendation) status.

(** [yieldHealth || 0], the yield health the fields route reports. *)
Definition fieldYieldHealth (yieldHealth : num) : num :=
  Num.orElse (Some yieldHealth) 0.

(** ** ESP32 service *)

(** An alert as the ESP32 service reads it. *)
Module Alert.
Record t := {
  type : option string;
  severity : option string;
  priority : option string
}.
End Alert.

(** An anomaly spread into an alert by the status route. *)
Definition alertOfAnomaly (a : Anomaly.t) : Alert.t :=
  {| Alert.type := Some (Anomaly.type a);
     Alert.severity := Some (Anomaly.severity a);
     Alert.priority := None |}.

(** [recommendation?.priority] *)
Definition priorityOf (recommendation : option Recommendation.t) : option string :=
  match recommendation with
  | Some r => Recommendation.priority r
  | None => None
  end.

(** The ESP32 state for the alerts and the recommendation. *)
Definition determineStateFromAlerts (alerts : list Alert.t)
    (recommendation : option Recommendation.t) : string :=
  let criticalAlerts :=
    filter (fun a =>
              optionIs (Alert.severity a) "Critical"
              || optionIs (Alert.priority a) "Critical"
              || optionIs (Alert.type a) "Leak"
              || (optionIs (Alert.type a) "Dry Stress"
                  && optionIs (Alert.severity a) "Critical")) alerts in
  if (0 <? List.length criticalAlerts)%nat then "critical"
  else
    let highAlerts :=
      filter (fun a =>
                optionIs (Alert.severity a) "High"
                || optionIs (Alert.priority a) "High") alerts in
    if (0 <? List.length highAlerts)%nat || optionIs (priorityOf recommendation) "High"
    then "caution"
    else if optionIs (priorityOf recommendation) "Critical" then "critical"
    else if optionIs (priorityOf recommendation) "Medium"
            || optionIs (match recommendation with
                         | Some r => Some (Recommendation.action r)
                         | None => None
                         end) "Irrigate"
    then "caution"
    else "normal".

(** The service object: its configuration and the last state the device
    acknowledged. *)
Module ESP32.
Record t := {
  esp32IP : string;
  esp32Port : string;
  enabled : bool;
  lastState : option string
}.
End ESP32.

(** The outcome of an HTTP request: a response with its status and body
    (the body as text, when it is text), or an error with its code and
    message. *)
Inductive HttpResult : Type :=
| Response (status : Z) (data : option string)
| RequestError (code : option string) (message : option string).

(** The [message] of a result; the one that interpolates a status code is
    kept as a constructor. *)
Inductive EspMessage : Type :=
| EspText (s : string)
| RespondedWithStatus (status : Z).

Module EspResult.
Record t := {
  success : bool;
  state : option string;
  message : EspMessage;
  skipped : bool;
  error : option string;
  timestamp : option Z
}.
End EspResult.

(** [getESP32URL] *)
Definition getESP32URL (self : ESP32.t) : string :=
  "http://" ++ ESP32.esp32IP self ++ ":" ++ ESP32.esp32Port self.

Definition validStates : list string := ["normal"; "caution"; "critical"].

(** [setState]: the result, the service afterwards, and the URLs that were
    requested.  [http] answers a request. *)
Definition setState (http : string -> HttpResult) (clk : Clock.t) (self : ESP32.t)
    (state : string) : EspResult.t * ESP32.t * list string :=
  if negb (ESP32.enabled self) then
    ({| EspResult.success := false; EspResult.state := None;
        EspResult.message := EspText "ESP32 service is disabled";
        EspResult.skipped := false; EspResult.error := None;
        EspResult.timestamp := None |}, self, [])
  else if negb (existsb (String.eqb state) validStates) then
    ({| EspResult.success := false; EspResult.state := None;
        EspResult.message :=
          EspText "Invalid state. Must be one of: normal, caution, critical";
        EspResult.skipped := false; EspResult.error := None;
        EspResult.timestamp := None |}, self, [])
  else if optionIs (ESP32.lastState self) state then
    ({| EspResult.success := true; EspResult.state := None;
        EspResult.message := EspText ("State already set to " ++ state);
        EspResult.skipped := true; EspResult.error := None;
        EspResult.timestamp := None |}, self, [])
  else
    let url := getESP32URL self ++ "/set?state=" ++ state in
    match http url with
    | Response status data =>
        if (status =? 200)%Z && optionIs data "OK" then
          ({| EspResult.success := true; EspResult.state := Some state;
              EspResult.message := EspText ("ESP32 state set to " ++ state);
              EspResult.skipped := false; EspResult.error := None;
              EspResult.timestamp := Some (Clock.now clk) |},
           {| ESP32.esp32IP := ESP32.esp32IP self;
              ESP32.esp32Port := ESP32.esp32Port self;
              ESP32.enabled := ESP32.enabled self;
              ESP32.lastState := Some state |},
           [url])
        else
          ({| EspResult.success := false; EspResult.state := Some state;
              EspResult.message := RespondedWithStatus status;
              EspResult.skipped := false; EspResult.error := None;
              EspResult.timestamp := Some (Clock.now clk) |}, self, [url])
    | RequestError code message =>
        ({| EspResult.success := false; EspResult.state := Some state;
            EspResult.message :=
              EspText (strOr message "Failed to communicate with ESP32");
            EspResult.skipped := false; EspResult.error := code;
            EspResult.timestamp := Some (Clock.now clk) |}, self, [url])
    end.

(** The system status handed to [updateFromStatus]. *)
Module Status.
Record t := {
  alerts : option (list Alert.t);
  recommendation : option Recommendation.t
}.
End Status.

(** [updateFromStatus] *)
Definition updateFromStatus (http : string -> HttpResult) (clk : Clock.t)
    (self : ESP32.t) (status : option Status.t) : EspResult.t * ESP32.t * list string :=
  match status with
  | None =>
      ({| EspResult.success := false; EspResult.state := None;
          EspResult.message := EspText "No status provided";
          EspResult.skipped := false; EspResult.error := None;
          EspResult.timestamp := None |}, self, [])
  | Some status =>
      let alerts :=
        match Status.alerts status with
        | Some a => a
        | None => []
        end in
      let recommendation := Status.recommendation status in
      let state := determineStateFromAlerts alerts recommendation in
      setState http clk self state
  end.

(** The alerts the status route hands to the ESP32 service: the detected
    anomalies, then the active alerts of the database. *)
Definition statusAlerts (anomalies : list Anomaly.t) (dbAlerts : list Alert.t) : list Alert.t :=
  (map alertOfAnomaly anomalies ++ dbAlerts)%list.

(** ** Binary64 evaluation of the decisions

    The program computes in binary64.  Where a decision compares a moisture
    with a product by a decimal constant, the product as the program
    computes it is the double next to the real product, above or below it.
    The definitions of this module are the program's comparisons on the
    kernel's binary64 numbers.  The quantities that depend on [Math.exp],
    which ECMAScript leaves to the implementation, are not evaluated. *)

Module Binary64.
Import PrimFloat.
Local Open Scope float_scope.

Set Warnings "-inexact-float".

(** ToBoolean of an optional number. *)
Definition truthy (x : option float) : bool :=
  match x with
  | Some v => negb (is_nan v || is_zero v)
  | None => false
  end.

(** [moisture > max * 1.1] *)
Definition isAboveThreshold (moisture max : float) : bool :=
  max * 1.1 <? moisture.

(** The action [generateRecommendation] decides on, for a reading with a
    moisture, the thresholds of the profile, [forecast?.nextRainHours] and
    [weather.chanceOfRain || 0]. *)
Definition action (moisture min max : float) (rainInNextHours : option float)
    (rainChance : float) : string :=
  if isAboveThreshold moisture max then "Stop"
  else if moisture <? min then
    if truthy rainInNextHours
       && match rainInNextHours with
          | Some hours => hours <? 6
          | None => false
          end
       && (50 <? rainChance)
    then "Delay" else "Irrigate"
  else if moisture <? (min + max) / 2 then "Monitor"
  else "Maintain".

(** [moisture > max * 1.15], [r.soil?.moisture > max * 1.1] and
    [moisture > max * 1.3] of the over-irrigation check. *)
Definition isOverIrrigated (moisture max : float) : bool :=
  max * 1.15 <? moisture.

Definition isHighMoisture (moisture max : float) : bool :=
  max * 1.1 <? moisture.

Definition isSevereOverIrrigation (moisture max : float) : bool :=
  max * 1.3 <? moisture.

(** [record.soil?.moisture < prev.soil?.moisture * 0.95] of the count of
    irrigation events. *)
Definition isIrrigationEvent (moisture prev : float) : bool :=
  moisture <? prev * 0.95.

(** [Math.min(95, 70 + Math.abs(rateOfChange) * 2)] of the leak check, for
    a rate of change that is a number. *)
Definition leakConfidence (moisture previous : float) : float :=
  let rateOfChange := moisture - previous in
  let confidence := 70 + abs rateOfChange * 2 in
  if confidence <? 95 then confidence else 95.

(** [8 + Math.random() * 10] and [400 + Math.random() * 200] of the
    simulated weather. *)
Definition simulatedWind (u : float) : float := 8 + u * 10.

Definition simulatedSolar (u : float) : float := 400 + u * 200.

End Binary64.

(** The four derived objects of the status route, computed one after the
    other from the latest reading, the crop and the recent history; the
    recommendation and the anomalies each read the clock at their own
    moment. *)
Module Derived.
Record t := {
  recommendation : Recommendation.t;
  anomalies : list Anomaly.t;
  waterSavings : WaterSavings.t;
  yieldHealth : num
}.
End Derived.

Definition deriveStatus (clk clk' : Clock.t) (latestData : Reading.t)
    (crop : option Crop.t) (recentHistory : list Reading.t) : Derived.t :=
  let recommendation :=
    generateRecommendation clk (Some latestData) crop recentHistory in
  let anomalies := detectAnomalies clk' (Some recentHistory) (Some latestData) crop in
  let waterSavings := calculateWaterSavings (Some recentHistory) (Some recommendation) in
  let yieldHealth := predictYieldHealth (Some latestData) crop in
  {| Derived.recommendation := recommendation;
     Derived.anomalies := anomalies;
     Derived.waterSavings := waterSavings;
     Derived.yieldHealth := yieldHealth |}.

(** * Vocabulary of the properties and sample inputs *)

(** A Wheat reading that holds a soil moisture and nothing else. *)
Definition wheatReading (moisture : R) : Reading.t :=
  {| Reading.soil :=
       Some {| Soil.moisture := Some (Fin moisture); Soil.temp := None;
               Soil.nitrogen := None; Soil.phosphorus := None;
               Soil.potassium := None; Soil.ph := None |};
     Reading.weather := None;
     Reading.cropType := Some "Wheat";
     Reading.timestamp := None;
     Reading.field := None |}.

(** Noon, UTC, on the first day of the epoch. *)
Definition noon : Clock.t := {| Clock.now := 43200000; Clock.timezoneOffset := 0 |}.

(** A Wheat reading whose soil block is the empty object. *)
Definition readingWithoutMoisture : Reading.t :=
  {| Reading.soil := Some Soil.empty;
     Reading.weather := None;
     Reading.cropType := Some "Wheat";
     Reading.timestamp := None;
     Reading.field := None |}.

(** A weather block whose four ET inputs are the given finite numbers. *)
Definition finiteWeather (T H W S : R) (chance : option num)
    (forecast : option Forecast.t) : Weather.t :=
  {| Weather.temperature := Some (Fin T);
     Weather.humidity := Some (Fin H);
     Weather.chanceOfRain := chance;
     Weather.windSpeed := Some (Fin W);
     Weather.solarRadiation := Some (Fin S);
     Weather.forecast := forecast |}.

(** The formula of [calculateET] over the reals, before the clamp. *)
Definition etcDaily (T H W S : R) : R :=
  let vpd := ((1 - H / 100) * 0.611 * exp (17.27 * T / (237.3 + T)))%R in
  ((0.408 * S * vpd + 0.063 * W * vpd) / (T + 237.3) * 0.8 * 24)%R.

(** The temperature factor exp(17.27 T / (237.3 + T)) / (T + 237.3). *)
Definition tempFactor (T : R) : R :=
  (exp (17.27 * T / (237.3 + T)) / (T + 237.3))%R.

(** The specification's condition for delaying: a forecast of rain within
    6 hours with a chance above 50%. *)
Definition rainForecast (weather : Weather.t) : Prop :=
  exists (f : Forecast.t) (hours chance : num),
    Weather.forecast weather = Some f
    /\ Forecast.nextRainHours f = Some hours
    /\ (hours <? 6) = true
    /\ Weather.chanceOfRain weather = Some chance
    /\ (chance >? 50) = true.



(** The list holds an anomaly of the given type. *)
Definition hasType (type : string) (anomalies : list Anomaly.t) : Prop :=
  exists a, In a anomalies /\ Anomaly.type a = type.

(** The current reading: [currentData], or else the last history record. *)
Definition latestReading (history : list Reading.t) (currentData : option Reading.t) : Reading.t :=
  match currentData with
  | Some c => c
  | None => last history Reading.empty
  end.

(** The last [n] records of the history, in order. *)
Definition lastRecords (n : nat) (history : list Reading.t) : list Reading.t :=
  rev (firstn n (rev history)).

(** How many records have a moisture below [min]. *)
Fixpoint countBelow (min : num) (records : list Reading.t) : nat :=
  match records with
  | [] => 0
  | r :: rest =>
      (if Num.ofField (soilMoisture r) <? min then 1 else 0) + countBelow min rest
  end.

(** The records of a history that may be absent. *)
Definition recordsOf (history : option (list Reading.t)) : list Reading.t :=
  match history with
  | Some h => h
  | None => []
  end.

(** [n] Wheat readings at the same moisture. *)
Definition wheatHistory (moisture : R) (n : nat) : list Reading.t :=
  repeat (wheatReading moisture) n.

(** Ten Wheat readings at moisture 70, above 1.15 times the maximum. *)
Definition wheatWetHistory : list Reading.t := wheatHistory 70 10.

(** The clock agrees for the anomalies of a reading: the reading has its
    own timestamp, or the two instants are the same. *)
Definition sameStamp (c1 c2 : Clock.t) (latest : Reading.t) : Prop :=
  Reading.timestamp latest <> None \/ Clock.now c1 = Clock.now c2.

(** Noon of the following day. *)
Definition noonNextDay : Clock.t :=
  {| Clock.now := 129600000; Clock.timezoneOffset := 0 |}.

(** A Wheat reading at moisture 22 that has a timestamp. *)
Definition stampedReading : Reading.t :=
  {| Reading.soil := Reading.soil (wheatReading 22);
     Reading.weather := None;
     Reading.cropType := Some "Wheat";
     Reading.timestamp := Some 1000%Z;
     Reading.field := None |}.

(** The irrigation events the specification counts: the consecutive pairs
    of records in which the moisture of the second is below 0.95 times the
    moisture of the first. *)
Fixpoint countDrops (records : list Reading.t) : nat :=
  match records with
  | prev :: rest =>
      match rest with
      | record :: _ =>
          (if Num.ofField (soilMoisture record)
              <? Num.ofField (soilMoisture prev) * 0.95
           then 1 else 0) + countDrops rest
      | [] => 0
      end
  | [] => 0
  end.

(** A Wheat reading taken [hour] hours after the epoch. *)
Definition stampedWheat (moisture : R) (hour : Z) : Reading.t :=
  {| Reading.soil := Reading.soil (wheatReading moisture);
     Reading.weather := None;
     Reading.cropType := Some "Wheat";
     Reading.timestamp := Some (hour * 3600000)%Z;
     Reading.field := None |}.

(** Seven hourly records, newest first, at a constant moisture. *)
Definition hourlyHistory : list Reading.t :=
  map (stampedWheat 40) [6; 5; 4; 3; 2; 1; 0]%Z.

(** Seven hourly records with one drop of the moisture from 40 to 30. *)
Definition hourlyHistoryWithDrop : list Reading.t :=
  stampedWheat 40 6 :: map (stampedWheat 30) [5; 4; 3; 2; 1; 0]%Z.

(** The days a history covers, from its last record to its first. *)
Definition coveredDays (history : list Reading.t) : num :=
  (dateValue (Reading.timestamp (hd Reading.empty history))
   - dateValue (Reading.timestamp (last history Reading.empty))) / 86400000.

(** A recommendation that is present with an amount of 0. *)
Definition maintainRecommendation : Recommendation.t :=
  {| Recommendation.action := "Maintain";
     Recommendation.reason := Text "Moisture levels are optimal.";
     Recommendation.amount := Some (Fin 0);
     Recommendation.duration := Some (Fin 0);
     Recommendation.recommendedTime := Some "06:00 AM (Tomorrow)";
     Recommendation.hoursUntilNext := Some None;
     Recommendation.priority := Some "Low";
     Recommendation.et := Some (Fin 0) |}.

(** A numeric field that is absent or holds a finite number. *)
Definition finiteField (v : option num) : Prop :=
  v = None \/ exists x : R, v = Some (Fin x).

(** The reading of the specification's example, at a moisture [m]. *)
Definition idealReading (cropType : string) (m : R) : Reading.t :=
  {| Reading.soil :=
       Some {| Soil.moisture := Some (Fin m); Soil.temp := None;
               Soil.nitrogen := Some (Fin 80); Soil.phosphorus := Some (Fin 45);
               Soil.potassium := Some (Fin 50); Soil.ph := Some (Fin 6.5) |};
     Reading.weather := Some (finiteWeather 25 60 5 600 None None);
     Reading.cropType := Some cropType;
     Reading.timestamp := None;
     Reading.field := None |}.

(** The example reading of the yield health, without its moisture. *)
Definition readingNoMoisture : Reading.t :=
  {| Reading.soil :=
       Some {| Soil.moisture := None; Soil.temp := None;
               Soil.nitrogen := Some (Fin 80); Soil.phosphorus := Some (Fin 45);
               Soil.potassium := Some (Fin 50); Soil.ph := Some (Fin 6.5) |};
     Reading.weather := Some (finiteWeather 25 60 5 600 None None);
     Reading.cropType := Some "Wheat";
     Reading.timestamp := None;
     Reading.field := None |}.

(** How many records have a moisture above [limit]. *)
Fixpoint countAbove (limit : num) (records : list Reading.t) : nat :=
  match records with
  | [] => 0
  | r :: rest =>
      (if Num.ofField (soilMoisture r) >? limit then 1 else 0) + countAbove limit rest
  end.

(** The sum of a list of reals. *)
Fixpoint sumR (xs : list R) : R :=
  match xs with
  | [] => 0%R
  | x :: rest => (x + sumR rest)%R
  end.

(** The population variance: the mean of the squared distances to the
    mean. *)
Definition varianceR (xs : list R) : R :=
  let n := INR (List.length xs) in
  let mean := (sumR xs / n)%R in
  (sumR (map (fun x => ((x - mean) * (x - mean))%R) xs) / n)%R.

(** A reading that differs from [wheatReading] by its timestamp and its
    weather block. *)
Definition wheatAt (moisture : R) (ts : Z) (weather : option Weather.t) : Reading.t :=
  {| Reading.soil := Reading.soil (wheatReading moisture);
     Reading.weather := weather;
     Reading.cropType := Some "Wheat";
     Reading.timestamp := Some ts;
     Reading.field := None |}.

(** Five readings, one hour apart, oldest first; the last one lost 15
    points of moisture within the hour, in saturated air. *)
Definition leakHistory : list Reading.t :=
  [ wheatAt 45 0 None; wheatAt 45 3600000 None; wheatAt 45 7200000 None;
    wheatAt 45 10800000 None;
    wheatAt 30 14400000 (Some (finiteWeather 25 100 5 400 None None)) ].


(** Six Wheat readings whose moisture alternates between 10 and 50. *)
Definition swingingHistory : list Reading.t :=
  [ wheatReading 10; wheatReading 50; wheatReading 10;
    wheatReading 50; wheatReading 10; wheatReading 50 ].

(** A weather block that holds a rain forecast and nothing else. *)
Definition rainWeather (hours chance : R) : Weather.t :=
  {| Weather.temperature := None;
     Weather.humidity := None;
     Weather.chanceOfRain := Some (Fin chance);
     Weather.windSpeed := None;
     Weather.solarRadiation := None;
     Weather.forecast :=
       Some {| Forecast.nextRainHours := Some (Fin hours);
               Forecast.nextRainChance := Some (Fin chance) |} |}.

(** Wheat at moisture 18 under a rain forecast. *)
Definition wheatUnderRain (hours chance : R) : Reading.t :=
  {| Reading.soil := Reading.soil (wheatReading 18);
     Reading.weather := Some (rainWeather hours chance);
     Reading.cropType := Some "Wheat";
     Reading.timestamp := None;
     Reading.field := None |}.

(** [currentRecommendation?.amount] *)
Definition recommendedAmount (currentRecommendation : option Recommendation.t) : option num :=
  match currentRecommendation with
  | Some r => Recommendation.amount r
  | None => None
  end.

(** An amount that is absent, NaN or a non-negative number. *)
Definition plausibleAmount (amount : option num) : Prop :=
  forall x, amount = Some x -> x = NaN \/ exists a : R, x = Fin a /\ (0 <= a)%R.

(** Seven hourly records listed oldest first. *)
Definition ascendingHistory : list Reading.t :=
  map (stampedWheat 40) [0; 1; 2; 3; 4; 5; 6]%Z.

(** A numeric field that is absent or holds a non-negative number. *)
Definition nonNegativeField (v : option num) : Prop :=
  v = None \/ exists x : R, v = Some (Fin x) /\ (0 <= x)%R.

(** An alert that alone makes the state critical. *)
Definition criticalAlert (a : Alert.t) : bool :=
  optionIs (Alert.severity a) "Critical"
  || optionIs (Alert.priority a) "Critical"
  || optionIs (Alert.type a) "Leak".

(** An alert of high severity or priority. *)
Definition highAlert (a : Alert.t) : bool :=
  optionIs (Alert.severity a) "High" || optionIs (Alert.priority a) "High".

(** [recommendation?.action] *)
Definition actionOf (recommendation : option Recommendation.t) : option string :=
  match recommendation with
  | Some r => Some (Recommendation.action r)
  | None => None
  end.

(** The request [setState] sends for a state. *)
Definition setRequest (self : ESP32.t) (state : string) : string :=
  getESP32URL self ++ "/set?state=" ++ state.

(** A device that acknowledges every request. *)
Definition acknowledging (url : string) : HttpResult := Response 200 (Some "OK").

(** A device that cannot be reached. *)
Definition unreachable (url : string) : HttpResult :=
  RequestError (Some "ECONNREFUSED") (Some "connect ECONNREFUSED").

(** The service as constructed, with the default address. *)
Definition freshService : ESP32.t :=
  {| ESP32.esp32IP := "192.168.1.100"; ESP32.esp32Port := "80";
     ESP32.enabled := true; ESP32.lastState := None |}.

(** A stored alert of the given type and severity. *)
Definition storedAlert (type severity : string) : Alert.t :=
  {| Alert.type := Some type; Alert.severity := Some severity;
     Alert.priority := None |}.

(** A forecast entry whose first condition is rain. *)
Definition rainy (f : OpenWeather.Entry) : bool :=
  match OpenWeather.weather f with
  | c :: _ => optionIs (OpenWeather.condition c) "Rain"
  | [] => false
  end.

(** A forecast entry of the given condition, chance of precipitation and
    time in seconds. *)
Definition forecastEntry (condition : string) (pop : R) (dt : Z) : OpenWeather.Entry :=
  {| OpenWeather.weather := [ {| OpenWeather.condition := Some condition |} ];
     OpenWeather.pop := Some (Fin pop);
     OpenWeather.dt := Some (Num.ofZ dt) |}.

(** A current-weather body: 30 degrees, 40 % humidity, wind of 5 m/s and a
    cloud cover of 20 %. *)
Definition clearSky : OpenWeather.Current :=
  {| OpenWeather.main :=
       Some {| OpenWeather.temp := Some (Fin 30); OpenWeather.humidity := Some (Fin 40) |};
     OpenWeather.wind := Some {| OpenWeather.speed := Some (Fin 5) |};
     OpenWeather.clouds := Some {| OpenWeather.all := Some (Fin 20) |} |}.

(** A forecast with clouds in one hour and rain, at a chance of 0.8, in
    four hours after noon. *)
Definition rainAtFour : OpenWeather.Forecast :=
  {| OpenWeather.entries :=
       Some [ forecastEntry "Clouds" 0.1 46800; forecastEntry "Rain" 0.8 57600 ] |}.

(** The allowance the properties leave for the rounding of binary64
    arithmetic, which the model does not compute: a relative distance of
    one part in 10^9 around a computed threshold. *)
Definition slack : R := (/ 1000000000)%R.

(** Weather of moderate size: a temperature above the pole of the formula,
    and no value so large that the arithmetic of the program overflows. *)
Definition moderateWeather (T H W S : R) : Prop :=
  (-237.3 < T <= 1000000)%R /\ (Rabs H <= 1000000)%R
  /\ (Rabs W <= 1000000)%R /\ (Rabs S <= 1000000)%R.

(** Weather of the field: the ranges in which the estimate is compared. *)
Definition fieldWeather (T H W S : R) : Prop :=
  (-50 <= T <= 60)%R /\ (0 <= H <= 99)%R /\ (0 <= W <= 500)%R
  /\ (0 <= S <= 2000)%R /\ (1 <= W + S)%R.

(** The least difference of two inputs that the properties compare. *)
Definition resolution : R := (/ 1000000)%R.

(** Two consecutive moistures that are clear of the limit of an irrigation
    event: the second is not within one part in 10^9 of 0.95 times the
    first.  Moistures that are no finite numbers are compared the same way
    by the model and by the program. *)
Definition clearPair (prev record : num) : Prop :=
  match prev, record with
  | Fin p, Fin r =>
      (r <= 0.95 * p - slack * Rabs p)%R \/ (0.95 * p + slack * Rabs p <= r)%R
  | _, _ => True
  end.

(** Every two consecutive records are clear of the limit. *)
Fixpoint clearOfTheLimit (records : list Reading.t) : Prop :=
  match records with
  | prev :: rest =>
      match rest with
      | record :: _ =>
          clearPair (Num.ofField (soilMoisture prev))
                    (Num.ofField (soilMoisture record))
          /\ clearOfTheLimit rest
      | [] => True
      end
  | [] => True
  end.

(** A recommendation without its recommended time. *)
Definition withoutTime (r : Recommendation.t) : Recommendation.t :=
  {| Recommendation.action := Recommendation.action r;
     Recommendation.reason := Recommendation.reason r;
     Recommendation.amount := Recommendation.amount r;
     Recommendation.duration := Recommendation.duration r;
     Recommendation.recommendedTime := None;
     Recommendation.hoursUntilNext := Recommendation.hoursUntilNext r;
     Recommendation.priority := Recommendation.priority r;
     Recommendation.et := Recommendation.et r |}.

(** Seven o'clock in the evening of the first day of the epoch. *)
Definition evening : Clock.t := {| Clock.now := 68400000; Clock.timezoneOffset := 0 |}.

(** * Properties *)

(** ** Comparisons and arithmetic on finite numbers *)

Lemma Rltb_iff (a b : R) : Num.Rltb a b = true <-> (a < b)%R.
Proof. unfold Num.Rltb; destruct (Rlt_dec a b); split; intros; try easy. Qed.

Lemma Rleb_iff (a b : R) : Num.Rleb a b = true <-> (a <= b)%R.
Proof. unfold Num.Rleb; destruct (Rle_dec a b); split; intros; try easy. Qed.

Lemma Rltb_false_iff (a b : R) : Num.Rltb a b = false <-> (b <= a)%R.
Proof.
  unfold Num.Rltb; destruct (Rlt_dec a b); split; intros; try easy; lra.
Qed.

Lemma Rleb_false_iff (a b : R) : Num.Rleb a b = false <-> (b < a)%R.
Proof.
  unfold Num.Rleb; destruct (Rle_dec a b); split; intros; try easy; lra.
Qed.

Lemma ltb_Fin (a b : R) : (Fin a <? Fin b) = true <-> (a < b)%R.
Proof. apply Rltb_iff. Qed.

Lemma gtb_Fin (a b : R) : (Fin a >? Fin b) = true <-> (b < a)%R.
Proof. apply Rltb_iff. Qed.

Lemma leb_Fin (a b : R) : (Fin a <=? Fin b) = true <-> (a <= b)%R.
Proof. apply Rleb_iff. Qed.

Lemma geb_Fin (a b : R) : (Fin a >=? Fin b) = true <-> (b <= a)%R.
Proof. apply Rleb_iff. Qed.

Lemma ltb_Fin_false (a b : R) : (Fin a <? Fin b) = false <-> (b <= a)%R.
Proof. apply Rltb_false_iff. Qed.

Lemma gtb_Fin_false (a b : R) : (Fin a >? Fin b) = false <-> (a <= b)%R.
Proof. apply Rltb_false_iff. Qed.

Lemma leb_Fin_false (a b : R) : (Fin a <=? Fin b) = false <-> (b < a)%R.
Proof. apply Rleb_false_iff. Qed.

Lemma ltb_NaN_l (x : num) : (NaN <? x) = false.
Proof. reflexivity. Qed.

Lemma ltb_NaN_r (x : num) : (x <? NaN) = false.
Proof. destruct x; reflexivity. Qed.

Lemma gtb_NaN_l (x : num) : (NaN >? x) = false.
Proof. destruct x; reflexivity. Qed.

Lemma mul_NaN_l (x : num) : NaN * x = NaN.
Proof. reflexivity. Qed.

Lemma mul_NaN_r (x : num) : x * NaN = NaN.
Proof. destruct x; reflexivity. Qed.

Lemma add_Fin (a b : R) : Fin a + Fin b = Fin (a + b).
Proof. reflexivity. Qed.

Lemma sub_Fin (a b : R) : Fin a - Fin b = Fin (a - b).
Proof. reflexivity. Qed.

Lemma mul_Fin (a b : R) : Fin a * Fin b = Fin (a * b).
Proof. reflexivity. Qed.

Lemma exp_Fin (a : R) : Math.exp (Fin a) = Fin (exp a).
Proof. reflexivity. Qed.

Lemma div_Fin (a b : R) : b <> 0%R -> Fin a / Fin b = Fin (a / b).
Proof.
  intros Hb; unfold Num.div; destruct (Req_dec_T b 0); [contradiction|reflexivity].
Qed.

Lemma max_Fin (a b : R) : Math.max (Fin a) (Fin b) = Fin (Rmax a b).
Proof.
  unfold Math.max, Num.ltb, Num.Rltb, Rmax.
  destruct (Rlt_dec a b), (Rle_dec a b); try reflexivity; try lra.
  f_equal; lra.
Qed.

Lemma min_Fin (a b : R) : Math.min (Fin a) (Fin b) = Fin (Rmin a b).
Proof.
  unfold Math.min, Num.ltb, Num.Rltb, Rmin.
  destruct (Rlt_dec b a), (Rle_dec a b); try reflexivity; try lra.
Qed.

Lemma truthy_Fin (a : R) : Num.truthy (Fin a) = true <-> a <> 0%R.
Proof.
  unfold Num.truthy, Num.Reqb; destruct (Req_dec_T a 0); simpl; split; intros; try easy.
Qed.

(** Arithmetic on finite numbers whose divisors are visibly non-zero. *)
Ltac fin_arith :=
  repeat first
    [ rewrite add_Fin | rewrite sub_Fin | rewrite mul_Fin | rewrite exp_Fin
    | rewrite max_Fin | rewrite min_Fin
    | rewrite div_Fin by (assumption || lra) ].

(** [field] on equations that hold decimal constants. *)
Ltac dec_field :=
  unfold Q2R; cbn [QArith_base.Qnum QArith_base.Qden]; field.

(** Decides the comparisons between closed real expressions left in a
    goal. *)
Ltac decide_cmp :=
  repeat match goal with
  | |- context [Rlt_dec ?a ?b] =>
      destruct (Rlt_dec a b); [ try (exfalso; lra) | try (exfalso; lra) ]
  | |- context [Rle_dec ?a ?b] =>
      destruct (Rle_dec a b); [ try (exfalso; lra) | try (exfalso; lra) ]
  | |- context [Req_dec_T ?a ?b] =>
      destruct (Req_dec_T a b); [ try (exfalso; lra) | try (exfalso; lra) ]
  end.

Lemma truthy_zero : Num.truthy (Fin 0) = false.
Proof. unfold Num.truthy, Num.Reqb. decide_cmp. reflexivity. Qed.

(** ** The crop table *)

Lemma resolveConfig_cases (cropType : string) :
  resolveConfig cropType = Config.empty
  \/ In (resolveConfig cropType) (map snd cropConfig).
Proof.
  unfold resolveConfig, cropConfigGet.
  destruct (find _ cropConfig) as [e|] eqn:Hf.
  - right. apply find_some in Hf. apply in_map. tauto.
  - destruct (existsb _ _); [left; reflexivity|].
    right. simpl. tauto.
Qed.

(** ** Stop on over-irrigation *)

Lemma slack_pos : (0 < slack)%R.
Proof. unfold slack. lra. Qed.

(** Every maximum of the crop table lies within [50, 70]. *)
Lemma resolved_max_bounds (cropType : string) (mx : R) :
  Config.max (resolveConfig cropType) = Some (Fin mx) -> (50 <= mx <= 70)%R.
Proof.
  intros Hmax.
  destruct (resolveConfig_cases cropType) as [He|Hin].
  - rewrite He in Hmax. discriminate.
  - simpl in Hin.
    repeat (destruct Hin as [Hin|Hin];
            [ rewrite <- Hin in Hmax; injection Hmax as <-; lra | ]).
    contradiction.
Qed.

(** C1.  A reading whose soil moisture exceeds 1.1 times the maximum of the
    resolved crop profile by at least one part in 10^9 yields action "Stop",
    amount 0 and hoursUntilNext 24.  The margin covers the rounding of the
    product [max * 1.1], which the program computes in binary64. *)
Theorem stop_above_threshold
    (clk : Clock.t) (currentData : Reading.t) (crop : option Crop.t)
    (historicalData : list Reading.t) (soil : Soil.t) (moisture cropMax : R) :
  Reading.soil currentData = Some soil ->
  Soil.moisture soil = Some (Fin moisture) ->
  Config.max (resolveConfig (resolveCropType currentData crop)) = Some (Fin cropMax) ->
  (1.1 * cropMax * (1 + slack) <= moisture)%R ->
  let r := generateRecommendation clk (Some currentData) crop historicalData in
  Recommendation.action r = "Stop"
  /\ Recommendation.amount r = Some (Fin 0)
  /\ Recommendation.hoursUntilNext r = Some (Some (Fin 24)).
Proof.
  intros Hsoil Hm Hmax Hge.
  pose proof (resolved_max_bounds _ _ Hmax) as Hbounds.
  pose proof slack_pos as Hslack.
  assert (Hgt : (1.1 * cropMax < moisture)%R) by nra.
  unfold generateRecommendation. rewrite Hsoil, Hm, Hmax. simpl Num.ofField.
  assert (Habove : (Fin moisture >? Fin cropMax * 1.1) = true).
  { apply gtb_Fin. lra. }
  rewrite Habove. simpl. auto.
Qed.

(** Moisture 65 for Wheat (max 50): "Stop", hoursUntilNext 24. *)
Lemma stop_above_threshold_wheat :
  let r := generateRecommendation noon (Some (wheatReading 65)) None [] in
  Recommendation.action r = "Stop"
  /\ Recommendation.amount r = Some (Fin 0)
  /\ Recommendation.hoursUntilNext r = Some (Some (Fin 24)).
Proof.
  eapply (stop_above_threshold noon (wheatReading 65) None [] _ 65 50);
    try reflexivity.
  unfold slack. lra.
Defined.

(** ** The placeholder for missing data *)

(** The actions a reading with a soil block can be answered with. *)
Lemma action_with_soil
    (clk : Clock.t) (currentData : Reading.t) (crop : option Crop.t)
    (historicalData : list Reading.t) (soil : Soil.t) :
  Reading.soil currentData = Some soil ->
  In (Recommendation.action
        (generateRecommendation clk (Some currentData) crop historicalData))
     ["Stop"; "Delay"; "Irrigate"; "Monitor"; "Maintain"].
Proof.
  intros Hsoil. unfold generateRecommendation. rewrite Hsoil.
  repeat match goal with
  | |- context [if ?c then _ else _] => destruct c
  end; simpl; tauto.
Qed.

(** C4, as stated, fails: a soil block without a moisture field is
    answered with "Maintain", priority "Low", and not with the
    placeholder. *)
Lemma pending_counterexample :
  soilMoisture readingWithoutMoisture = None
  /\ let r := generateRecommendation noon (Some readingWithoutMoisture) None [] in
     Recommendation.action r = "Maintain"
     /\ Recommendation.reason r = Text "Moisture levels are optimal."
     /\ Recommendation.priority r = Some "Low".
Proof.
  split; [reflexivity|].
  cbv zeta. unfold generateRecommendation. simpl. auto.
Qed.

(** C4, amended.  The placeholder {action: "Pending", reason: "Collecting
    initial data..."} is returned when the current reading is absent or has
    no soil block, and only then: a reading with a soil block is never
    answered with "Pending", whether or not the block has a moisture. *)
Theorem pending_iff_no_soil_block
    (clk : Clock.t) (crop : option Crop.t) (historicalData : list Reading.t) :
  generateRecommendation clk None crop historicalData = pendingRecommendation
  /\ (forall currentData,
        Reading.soil currentData = None ->
        generateRecommendation clk (Some currentData) crop historicalData
        = pendingRecommendation)
  /\ (forall currentData soil,
        Reading.soil currentData = Some soil ->
        Recommendation.action
          (generateRecommendation clk (Some currentData) crop historicalData)
        <> "Pending").
Proof.
  split; [reflexivity|split].
  - intros cd Hsoil. unfold generateRecommendation. now rewrite Hsoil.
  - intros cd soil Hsoil Hact.
    pose proof (action_with_soil clk cd crop historicalData soil Hsoil) as Hin.
    rewrite Hact in Hin. simpl in Hin.
    repeat (destruct Hin as [Hin|Hin]; [discriminate|]). contradiction.
Qed.

Lemma pending_iff_no_soil_block_witness :
  generateRecommendation noon (Some Reading.empty) None [] = pendingRecommendation
  /\ Recommendation.action
       (generateRecommendation noon (Some (wheatReading 40)) None [])
     <> "Pending".
Proof.
  split.
  - apply (pending_iff_no_soil_block noon None []). reflexivity.
  - eapply (pending_iff_no_soil_block noon None []). reflexivity.
Defined.

(** ** Priority *)

(** [getPriority] on its own follows the table of the specification. *)
Lemma getPriority_table (action : string) (moisture min max : num) :
  getPriority action moisture min max =
    if String.eqb action "Irrigate" then
      if moisture <? min * 0.7 then "Critical"
      else if moisture <? min then "High" else "Medium"
    else if String.eqb action "Stop" then "High" else "Low".
Proof. reflexivity. Qed.

Lemma getPriority_Stop (moisture min max : num) :
  getPriority "Stop" moisture min max = "High".
Proof. reflexivity. Qed.

(** On the final return of [generateRecommendation] (actions "Irrigate",
    "Delay", "Monitor", "Maintain") the priority field is present:
    "Critical" or "High" for "Irrigate", "Low" for the others. *)
Lemma priority_on_final_return
    (clk : Clock.t) (currentData : Reading.t) (crop : option Crop.t)
    (historicalData : list Reading.t) (soil : Soil.t) :
  Reading.soil currentData = Some soil ->
  let config := resolveConfig (resolveCropType currentData crop) in
  let moisture := Num.ofField (Soil.moisture soil) in
  let min := Num.ofField (Config.min config) in
  let r := generateRecommendation clk (Some currentData) crop historicalData in
  Recommendation.action r <> "Stop" ->
  Recommendation.priority r =
    Some (if String.eqb (Recommendation.action r) "Irrigate"
          then if moisture <? min * 0.7 then "Critical" else "High"
          else "Low").
Proof.
  intros Hsoil. cbv zeta. unfold generateRecommendation. rewrite Hsoil.
  set (config := resolveConfig (resolveCropType currentData crop)).
  set (moisture := Num.ofField (Soil.moisture soil)).
  destruct (moisture >? Num.ofField (Config.max config) * 1.1) eqn:Habove;
    [simpl; congruence|].
  intros _.
  destruct (moisture <? Num.ofField (Config.min config)) eqn:Hbelow.
  - destruct (_ && _ && _); simpl; [reflexivity|].
    unfold getPriority. simpl. rewrite Hbelow. reflexivity.
  - destruct (moisture <? (_ + _) / 2); reflexivity.
Qed.

(** Moisture 18 for Wheat (min 30, max 50) without a rain forecast:
    "Irrigate" with priority "Critical". *)
Lemma priority_wheat_18 :
  let r := generateRecommendation noon (Some (wheatReading 18)) None [] in
  Recommendation.action r = "Irrigate"
  /\ Recommendation.priority r = Some "Critical".
Proof.
  cbv zeta. unfold generateRecommendation, getPriority. simpl.
  unfold Num.gtb, Num.ltb, Num.Rltb. decide_cmp. simpl.
  decide_cmp. auto.
Qed.

(** C3 at the failing input, moisture 65 for Wheat (max 50): the object
    returned for "Stop" has no priority field, although [getPriority] maps
    "Stop" to "High". *)
Theorem stop_has_no_priority :
  let r := generateRecommendation noon (Some (wheatReading 65)) None [] in
  Recommendation.action r = "Stop"
  /\ Recommendation.priority r = None
  /\ getPriority (Recommendation.action r) 65 30 50 = "High".
Proof.
  cbv zeta. unfold generateRecommendation. simpl.
  unfold Num.gtb, Num.ltb, Num.Rltb. decide_cmp. simpl. auto.
Qed.

(** ** Evapotranspiration *)

(** No value found in the crop table has a [kc], so the crop coefficient is
    always the default 0.8. *)
Lemma cropConfigGet_kc (key : string) (c : Config.t) :
  cropConfigGet key = Some c -> Config.kc c = None.
Proof.
  unfold cropConfigGet.
  destruct (find _ cropConfig) as [e|] eqn:Hf.
  - intros H; injection H as <-. apply find_some in Hf. destruct Hf as [Hin _].
    simpl in Hin.
    repeat (destruct Hin as [<-|Hin]; [reflexivity|]). contradiction.
  - destruct (existsb _ _); [|discriminate].
    intros H; injection H as <-. reflexivity.
Qed.

Lemma cropCoefficient_default (cropType : string) :
  Num.orElse (match cropConfigGet cropType with
              | Some c => Config.kc c
              | None => None
              end) 0.8 = Fin 0.8.
Proof.
  destruct (cropConfigGet cropType) as [c|] eqn:Hc; [|reflexivity].
  now rewrite (cropConfigGet_kc _ _ Hc).
Qed.

Lemma calculateET_finite (T H W S : R) (chance : option num)
    (forecast : option Forecast.t) (cropType : string) :
  T <> (-237.3)%R ->
  calculateET (finiteWeather T H W S chance forecast) cropType
  = Fin (Rmax 0 (etcDaily T H W S)).
Proof.
  intros HT. unfold calculateET. rewrite cropCoefficient_default.
  unfold finiteWeather; simpl Num.ofField.
  assert (H1 : (237.3 + T)%R <> 0%R) by lra.
  assert (H2 : (T + 237.3)%R <> 0%R) by lra.
  assert (H3 : 100%R <> 0%R) by lra.
  fin_arith. reflexivity.
Qed.

Lemma etcDaily_factor (T H W S : R) :
  T <> (-237.3)%R ->
  etcDaily T H W S
  = ((0.408 * S + 0.063 * W) * ((1 - H / 100) * 0.611 * 0.8 * 24) * tempFactor T)%R.
Proof.
  intros HT. unfold etcDaily, tempFactor. cbv zeta. dec_field. lra.
Qed.

Lemma tempFactor_pos (T : R) : (-237.3 < T)%R -> (0 < tempFactor T)%R.
Proof.
  intros HT. unfold tempFactor.
  apply Rdiv_lt_0_compat; [apply exp_pos|lra].
Qed.

(** The exponent is 17.27 - 4098.171 / (T + 237.3). *)
Lemma exponent_shape (T : R) :
  T <> (-237.3)%R ->
  (17.27 * T / (237.3 + T) = 17.27 - 4098.171 / (T + 237.3))%R.
Proof. intros HT. dec_field. lra. Qed.

(** The temperature factor does not decrease up to 3860.871 degrees, where
    T + 237.3 reaches 17.27 * 237.3. *)
Lemma tempFactor_monotone (T1 T2 : R) :
  (-237.3 < T1)%R -> (T1 <= T2)%R -> (T2 <= 3860.871)%R ->
  (tempFactor T1 <= tempFactor T2)%R.
Proof.
  intros H1 H12 H2. unfold tempFactor.
  rewrite !exponent_shape by lra.
  set (u1 := (T1 + 237.3)%R). set (u2 := (T2 + 237.3)%R).
  assert (Hu1 : (0 < u1)%R) by (unfold u1; lra).
  assert (Hu2 : (u1 <= u2)%R) by (unfold u1, u2; lra).
  assert (Hc : (u2 <= 4098.171)%R) by (unfold u2; lra).
  set (x := (4098.171 / u1 - 4098.171 / u2)%R).
  assert (Hx : (17.27 - 4098.171 / u2 = (17.27 - 4098.171 / u1) + x)%R)
    by (unfold x; lra).
  rewrite Hx, exp_plus.
  pose proof (exp_pos (17.27 - 4098.171 / u1)) as Hpos.
  pose proof (exp_ineq1_le x) as Hexp.
  assert (Hkey : (/ u1 <= (1 + x) / u2)%R).
  { unfold x.
    replace ((1 + (4098.171 / u1 - 4098.171 / u2)) / u2)%R
      with (/ u1 + (u2 - u1) * (4098.171 - u2) / (u1 * u2 * u2))%R
      by (dec_field; lra).
    assert (0 <= (u2 - u1) * (4098.171 - u2) / (u1 * u2 * u2))%R; [|lra].
    apply Rmult_le_pos; [nra|].
    apply Rlt_le, Rinv_0_lt_compat. repeat apply Rmult_lt_0_compat; lra. }
  unfold Rdiv at 1 3.
  rewrite Rmult_assoc.
  apply Rmult_le_compat_l; [lra|].
  apply Rle_trans with ((1 + x) / u2)%R; [exact Hkey|].
  unfold Rdiv. apply Rmult_le_compat_r; [|exact Hexp].
  apply Rlt_le, Rinv_0_lt_compat. lra.
Qed.

(** Beyond that point it decreases: 20000 degrees give less than 5000. *)
Lemma tempFactor_decreases : (tempFactor 20000 < tempFactor 5000)%R.
Proof.
  unfold tempFactor. rewrite !exponent_shape by lra.
  set (a := (17.27 - 4098.171 / (5000 + 237.3))%R).
  set (x := (4098.171 / (5000 + 237.3) - 4098.171 / (20000 + 237.3))%R).
  replace (17.27 - 4098.171 / (20000 + 237.3))%R with (a + x)%R
    by (unfold a, x; lra).
  rewrite exp_plus.
  pose proof (exp_pos a) as Hpos.
  assert (Hx1 : (x < 1)%R).
  { unfold x.
    assert (4098.171 / (5000 + 237.3) < 1)%R.
    { apply Rmult_lt_reg_r with (5000 + 237.3)%R; [lra|].
      unfold Rdiv. rewrite Rmult_assoc, Rinv_l by lra. lra. }
    assert (0 < 4098.171 / (20000 + 237.3))%R.
    { apply Rdiv_lt_0_compat; lra. }
    lra. }
  assert (Hx3 : (exp x < 3)%R).
  { apply Rlt_le_trans with (exp 1); [now apply exp_increasing|apply exp_le_3]. }
  apply Rmult_lt_reg_r with ((20000 + 237.3) * (5000 + 237.3))%R; [lra|].
  replace (exp a * exp x / (20000 + 237.3) * ((20000 + 237.3) * (5000 + 237.3)))%R
    with (exp a * exp x * (5000 + 237.3))%R by (dec_field; lra).
  replace (exp a / (5000 + 237.3) * ((20000 + 237.3) * (5000 + 237.3)))%R
    with (exp a * (20000 + 237.3))%R by (dec_field; lra).
  nra.
Qed.

Lemma div_Fin_zero (a b : R) : b = 0%R -> Fin a / Fin b = Num.scaleInf PInf a.
Proof.
  intros Hb; unfold Num.div; destruct (Req_dec_T b 0); [reflexivity|contradiction].
Qed.

Lemma scaleInf_pos (inf : num) (r : R) : (0 < r)%R -> Num.scaleInf inf r = inf.
Proof. intros Hr; unfold Num.scaleInf; decide_cmp; reflexivity. Qed.

Lemma scaleInf_neg (inf : num) (r : R) : (r < 0)%R -> Num.scaleInf inf r = Num.neg inf.
Proof. intros Hr; unfold Num.scaleInf; decide_cmp; reflexivity. Qed.

Lemma scaleInf_zero (inf : num) (r : R) : r = 0%R -> Num.scaleInf inf r = NaN.
Proof. intros Hr; unfold Num.scaleInf; decide_cmp; reflexivity. Qed.

Lemma Rmax_0_monotone (x y : R) : (x <= y)%R -> (Rmax 0 x <= Rmax 0 y)%R.
Proof. intros Hxy. unfold Rmax. destruct (Rle_dec 0 x), (Rle_dec 0 y); lra. Qed.

Lemma Rmax_0_nonneg (x : R) : (0 <= Rmax 0 x)%R.
Proof. apply Rmax_l. Qed.

(** At -237.3 degrees the divisor [temperature + 237.3] is zero and the
    estimate is NaN. *)
Lemma calculateET_NaN (H W S : R) (chance : option num)
    (forecast : option Forecast.t) (cropType : string) :
  calculateET (finiteWeather (-237.3) H W S chance forecast) cropType = NaN.
Proof.
  unfold calculateET. rewrite cropCoefficient_default.
  unfold finiteWeather; simpl Num.ofField.
  rewrite (div_Fin H 100) by lra.
  rewrite !mul_Fin, !add_Fin, !sub_Fin.
  rewrite (div_Fin_zero _ (237.3 + -237.3)) by lra.
  rewrite scaleInf_neg by lra. simpl Num.neg. simpl Math.exp.
  rewrite !mul_Fin, !add_Fin.
  rewrite div_Fin_zero by lra.
  rewrite scaleInf_zero by lra.
  reflexivity.
Qed.

(** C6, as stated, fails at finite inputs: the estimate is NaN at -237.3
    degrees; it decreases from 5000 to 20000 degrees; and with a humidity
    above 100 it decreases when the solar radiation rises from -100 to 0. *)
Lemma calculateET_counterexample :
  calculateET (finiteWeather (-237.3) 50 10 500 None None) "Wheat" = NaN
  /\ (calculateET (finiteWeather (-237.3) 50 10 500 None None) "Wheat" >=? 0) = false
  /\ (calculateET (finiteWeather 20000 50 10 500 None None) "Wheat"
      <? calculateET (finiteWeather 5000 50 10 500 None None) "Wheat") = true
  /\ (calculateET (finiteWeather 25 200 0 0 None None) "Wheat"
      <? calculateET (finiteWeather 25 200 0 (-100) None None) "Wheat") = true.
Proof.
  rewrite calculateET_NaN.
  split; [reflexivity|split; [reflexivity|split]].
  - rewrite !calculateET_finite by lra. apply ltb_Fin.
    rewrite !etcDaily_factor by lra.
    pose proof tempFactor_decreases as Hdec.
    pose proof (tempFactor_pos 20000 ltac:(lra)) as Hpos.
    set (B := ((0.408 * 500 + 0.063 * 10) * ((1 - 50 / 100) * 0.611 * 0.8 * 24))%R).
    assert (HB : (0 < B)%R) by (unfold B; lra).
    rewrite !Rmax_right by (apply Rlt_le, Rmult_lt_0_compat; lra).
    apply Rmult_lt_compat_l; assumption.
  - rewrite !calculateET_finite by lra. apply ltb_Fin.
    rewrite !etcDaily_factor by lra.
    pose proof (tempFactor_pos 25 ltac:(lra)) as Hpos.
    replace ((0.408 * 0 + 0.063 * 0) * ((1 - 200 / 100) * 0.611 * 0.8 * 24)
             * tempFactor 25)%R with 0%R by lra.
    set (B := ((0.408 * -100 + 0.063 * 0) * ((1 - 200 / 100) * 0.611 * 0.8 * 24))%R).
    assert (HB : (0 < B)%R) by (unfold B; lra).
    assert (0 < B * tempFactor 25)%R by (apply Rmult_lt_0_compat; lra).
    rewrite Rmax_left by lra. rewrite Rmax_right by lra. lra.
Qed.

(** Within the field ranges the temperature factor grows by at least 4 % per
    degree. *)
Lemma tempFactor_growth (T1 T2 : R) :
  (-50 <= T1)%R -> (T1 <= T2)%R -> (T2 <= 60)%R ->
  (tempFactor T1 * (1 + 0.04 * (T2 - T1)) <= tempFactor T2)%R.
Proof.
  intros H1 H12 H2. unfold tempFactor.
  rewrite !exponent_shape by lra.
  set (u1 := (T1 + 237.3)%R). set (u2 := (T2 + 237.3)%R).
  assert (Hu1 : (187.3 <= u1)%R) by (unfold u1; lra).
  assert (Hu2 : (u1 <= u2)%R) by (unfold u1, u2; lra).
  assert (Hc : (u2 <= 297.3)%R) by (unfold u2; lra).
  replace (T2 - T1)%R with (u2 - u1)%R by (unfold u1, u2; lra).
  set (x := (4098.171 / u1 - 4098.171 / u2)%R).
  assert (Hx : (17.27 - 4098.171 / u2 = (17.27 - 4098.171 / u1) + x)%R)
    by (unfold x; lra).
  rewrite Hx, exp_plus.
  pose proof (exp_pos (17.27 - 4098.171 / u1)) as Hpos.
  pose proof (exp_ineq1_le x) as Hexp.
  assert (Hkey : ((1 + 0.04 * (u2 - u1)) / u1 <= (1 + x) / u2)%R).
  { unfold x.
    replace ((1 + (4098.171 / u1 - 4098.171 / u2)) / u2)%R
      with (/ u1 + (u2 - u1) * (4098.171 - u2) / (u1 * u2 * u2))%R
      by (dec_field; lra).
    replace ((1 + 0.04 * (u2 - u1)) / u1)%R
      with (/ u1 + (u2 - u1) * (0.04 * (u2 * u2)) / (u1 * u2 * u2))%R
      by (dec_field; lra).
    apply Rplus_le_compat_l.
    unfold Rdiv. apply Rmult_le_compat_r.
    - apply Rlt_le, Rinv_0_lt_compat. repeat apply Rmult_lt_0_compat; lra.
    - apply Rmult_le_compat_l; [lra|].
      assert (Hsq : (u2 * u2 <= 297.3 * 297.3)%R)
        by (apply Rmult_le_compat; lra).
      lra. }
  replace (exp (17.27 - 4098.171 / u1) / u1 * (1 + 0.04 * (u2 - u1)))%R
    with (exp (17.27 - 4098.171 / u1) * ((1 + 0.04 * (u2 - u1)) / u1))%R
    by (dec_field; lra).
  unfold Rdiv at 3. rewrite Rmult_assoc.
  apply Rmult_le_compat_l; [lra|].
  apply Rle_trans with ((1 + x) / u2)%R; [exact Hkey|].
  unfold Rdiv. apply Rmult_le_compat_r; [|exact Hexp].
  apply Rlt_le, Rinv_0_lt_compat. lra.
Qed.

(** Within the field ranges the estimate is the positive product of a
    radiation term, a humidity term and the temperature factor. *)
Lemma calculateET_field (T H W S : R) (chance : option num)
    (forecast : option Forecast.t) (cropType : string) :
  fieldWeather T H W S ->
  let e := ((0.408 * S + 0.063 * W) * ((1 - H / 100) * 0.611 * 0.8 * 24)
            * tempFactor T)%R in
  calculateET (finiteWeather T H W S chance forecast) cropType = Fin e
  /\ (0 < e)%R
  /\ (0.063 <= 0.408 * S + 0.063 * W <= 847.5)%R
  /\ (0 < (1 - H / 100) * 0.611 * 0.8 * 24)%R
  /\ (0 < tempFactor T)%R.
Proof.
  intros (HT & HH & HW & HS & HWS). cbv zeta.
  pose proof (tempFactor_pos T ltac:(lra)) as Hf.
  assert (HB : (0.063 <= 0.408 * S + 0.063 * W <= 847.5)%R) by lra.
  assert (HC : (0 < (1 - H / 100) * 0.611 * 0.8 * 24)%R) by lra.
  assert (He : (0 < (0.408 * S + 0.063 * W) * ((1 - H / 100) * 0.611 * 0.8 * 24)
                    * tempFactor T)%R).
  { apply Rmult_lt_0_compat; [apply Rmult_lt_0_compat; lra|exact Hf]. }
  split; [|auto].
  rewrite calculateET_finite by lra. rewrite etcDaily_factor by lra.
  f_equal. apply Rmax_right. lra.
Qed.

(** C6, amended.  For every weather of moderate size (a temperature above
    -237.3, no value beyond 10^6) the estimate is a finite non-negative
    number.  Within the field ranges (temperature from -50 to 60, humidity
    up to 99, wind up to 500, solar radiation up to 2000, wind and
    radiation not both below 1) the estimate is positive and, with the
    other inputs fixed, strictly increases with the temperature, by at
    least 3 % per degree, and with the solar radiation, by at least 0.04 %
    per unit, for two values at least 10^-6 apart: the rounding of the
    program can reverse the order of values that are closer. *)
Theorem calculateET_nonneg_monotone
    (chance : option num) (forecast : option Forecast.t) (cropType : string) :
  (forall T H W S : R,
      moderateWeather T H W S ->
      exists e : R,
        (0 <= e)%R
        /\ calculateET (finiteWeather T H W S chance forecast) cropType = Fin e)
  /\ (forall T1 T2 H W S : R,
        fieldWeather T1 H W S -> fieldWeather T2 H W S ->
        (T1 + resolution <= T2)%R ->
        exists e1 e2 : R,
          calculateET (finiteWeather T1 H W S chance forecast) cropType = Fin e1
          /\ calculateET (finiteWeather T2 H W S chance forecast) cropType = Fin e2
          /\ (0 < e1 < e2)%R
          /\ (e1 * (1 + 0.03 * (T2 - T1)) <= e2)%R)
  /\ (forall T H W S1 S2 : R,
        fieldWeather T H W S1 -> fieldWeather T H W S2 ->
        (S1 + resolution <= S2)%R ->
        exists e1 e2 : R,
          calculateET (finiteWeather T H W S1 chance forecast) cropType = Fin e1
          /\ calculateET (finiteWeather T H W S2 chance forecast) cropType = Fin e2
          /\ (0 < e1 < e2)%R
          /\ (e1 * (1 + 0.0004 * (S2 - S1)) <= e2)%R).
Proof.
  assert (Hres : (0 < resolution)%R) by (unfold resolution; lra).
  split; [|split].
  - intros T H W S ((HT & _) & _). exists (Rmax 0 (etcDaily T H W S)).
    split; [apply Rmax_0_nonneg|apply calculateET_finite; lra].
  - intros T1 T2 H W S F1 F2 H12.
    destruct (calculateET_field T1 H W S chance forecast cropType F1)
      as (E1 & Hp1 & HB & HC & Hf1).
    destruct (calculateET_field T2 H W S chance forecast cropType F2)
      as (E2 & Hp2 & _ & _ & Hf2).
    cbv zeta in *.
    destruct F1 as ((Hlo & _) & _). destruct F2 as ((_ & Hhi) & _).
    pose proof (tempFactor_growth T1 T2 Hlo ltac:(lra) Hhi) as Hgrow.
    set (K := ((0.408 * S + 0.063 * W) * ((1 - H / 100) * 0.611 * 0.8 * 24))%R) in *.
    assert (HK : (0 < K)%R) by (unfold K; apply Rmult_lt_0_compat; lra).
    do 2 eexists. split; [exact E1|]. split; [exact E2|].
    assert (Hstep : (K * tempFactor T1 * (1 + 0.04 * (T2 - T1))
                     <= K * tempFactor T2)%R).
    { rewrite Rmult_assoc. apply Rmult_le_compat_l; [lra|exact Hgrow]. }
    assert (Hmore : (0 < K * tempFactor T1 * (T2 - T1))%R).
    { apply Rmult_lt_0_compat; lra. }
    split; [split; [exact Hp1|nra]|nra].
  - intros T H W S1 S2 F1 F2 H12.
    destruct (calculateET_field T H W S1 chance forecast cropType F1)
      as (E1 & Hp1 & HB1 & HC & Hf).
    destruct (calculateET_field T H W S2 chance forecast cropType F2)
      as (E2 & Hp2 & HB2 & _ & _).
    cbv zeta in *.
    set (C := ((1 - H / 100) * 0.611 * 0.8 * 24 * tempFactor T)%R).
    assert (HCpos : (0 < C)%R) by (unfold C; apply Rmult_lt_0_compat; lra).
    do 2 eexists. split; [exact E1|]. split; [exact E2|].
    replace ((0.408 * S1 + 0.063 * W) * ((1 - H / 100) * 0.611 * 0.8 * 24)
             * tempFactor T)%R with ((0.408 * S1 + 0.063 * W) * C)%R
      by (unfold C; ring).
    replace ((0.408 * S2 + 0.063 * W) * ((1 - H / 100) * 0.611 * 0.8 * 24)
             * tempFactor T)%R with ((0.408 * S2 + 0.063 * W) * C)%R
      by (unfold C; ring).
    assert (Hd : (0 < (S2 - S1) * C)%R) by (apply Rmult_lt_0_compat; lra).
    assert (Hb : ((0.408 * S1 + 0.063 * W) * (S2 - S1) * C
                  <= 847.5 * ((S2 - S1) * C))%R).
    { rewrite Rmult_assoc. apply Rmult_le_compat_r; lra. }
    split; [split; [apply Rmult_lt_0_compat; lra|nra]|nra].
Qed.

(** Wheat at 50 % humidity, wind 10: 30 degrees give more than 20 degrees,
    and a radiation of 600 more than one of 400. *)
Lemma calculateET_nonneg_monotone_witness :
  (exists e : R,
      (0 <= e)%R
      /\ calculateET (finiteWeather 25 50 10 500 None None) "Wheat" = Fin e)
  /\ (calculateET (finiteWeather 20 50 10 500 None None) "Wheat"
      <? calculateET (finiteWeather 30 50 10 500 None None) "Wheat") = true
  /\ (calculateET (finiteWeather 25 50 10 400 None None) "Wheat"
      <? calculateET (finiteWeather 25 50 10 600 None None) "Wheat") = true.
Proof.
  destruct (calculateET_nonneg_monotone None None "Wheat") as (Hnn & HT & HS).
  split; [|split].
  - apply Hnn. unfold moderateWeather. rewrite !Rabs_pos_eq by lra. lra.
  - destruct (HT 20 30 50 10 500)%R as (e1 & e2 & -> & -> & Hlt & _).
    + unfold fieldWeather. lra.
    + unfold fieldWeather. lra.
    + unfold resolution. lra.
    + apply ltb_Fin. lra.
  - destruct (HS 25 50 10 400 600)%R as (e1 & e2 & -> & -> & Hlt & _).
    + unfold fieldWeather. lra.
    + unfold fieldWeather. lra.
    + unfold resolution. lra.
    + apply ltb_Fin. lra.
Defined.

(** ** Irrigation amount *)

(** Every profile the table resolves to has positive thresholds with
    min <= max, a positive root depth and a whole number of litres per
    irrigation. *)
Lemma resolved_profile (cropType : string) (mn mx w d : R) :
  resolveConfig cropType = Config.make mn mx w d ->
  (0 < mn)%R /\ (mn <= mx)%R /\ (0 < d)%R /\ (0 < w)%R /\ exists z : Z, w = IZR z.
Proof.
  intros Hcfg.
  destruct (resolveConfig_cases cropType) as [He|Hin].
  - rewrite He in Hcfg. discriminate.
  - rewrite Hcfg in Hin. simpl in Hin.
    repeat (destruct Hin as [Hin|Hin];
            [ injection Hin as <- <- <- <-;
              repeat split; try lra; eexists; reflexivity | ]).
    contradiction.
Qed.


Lemma Zceil_IZR (z : Z) : Zceil (IZR z) = z.
Proof. apply Zceil_eq. lra. Qed.


(** For finite arguments the hours until the next irrigation are a finite
    number within [1, 48]. *)
Lemma calculateNextIrrigationTime_range (currentMoisture targetMoisture dailyET : R) :
  exists h : R,
    calculateNextIrrigationTime currentMoisture targetMoisture dailyET = Fin h
    /\ (1 <= h <= 48)%R.
Proof.
  unfold calculateNextIrrigationTime. rewrite sub_Fin.
  destruct (Fin (targetMoisture - currentMoisture) <=? 0) eqn:Hd.
  - exists 24%R. split; [reflexivity|lra].
  - apply leb_Fin_false in Hd.
    rewrite (div_Fin dailyET 24) by lra.
    rewrite (div_Fin (dailyET / 24) 10) by lra.
    destruct (Req_dec_T (dailyET / 24 / 10) 0) as [Hz|Hz].
    + rewrite div_Fin_zero by assumption. rewrite scaleInf_pos by lra.
      exists 48%R. split; [|lra].
      unfold Math.min, Math.max, Num.ltb, Num.Rltb. decide_cmp. reflexivity.
    + rewrite div_Fin by assumption. rewrite min_Fin, max_Fin.
      eexists; split; [reflexivity|].
      split; [apply Rmax_l|].
      apply Rmax_lub; [lra|apply Rmin_l].
Qed.

(** Rounding to one decimal keeps a value within bounds that are whole
    numbers of tenths. *)
Lemma round1_between (x : R) (lo hi : Z) :
  (IZR lo / 10 <= x <= IZR hi / 10)%R ->
  exists y : R,
    round1 (Fin x) = Fin y
    /\ y = (IZR (Zfloor (x * 10 + / 2)) / 10)%R
    /\ (IZR lo / 10 <= y <= IZR hi / 10)%R.
Proof.
  intros [Hlo Hhi]. unfold round1. rewrite mul_Fin. simpl Math.round.
  rewrite div_Fin by lra. eexists; split; [reflexivity|split; [reflexivity|]].
  assert (H1 : (lo <= Zfloor (x * 10 + / 2))%Z) by (apply Zfloor_lub; lra).
  assert (H2 : (Zfloor (x * 10 + / 2) <= hi)%Z).
  { assert (E : Zfloor (IZR hi + / 2) = hi) by (apply Zfloor_eq; lra).
    assert (L : (Zfloor (x * 10 + / 2) <= Zfloor (IZR hi + / 2))%Z)
      by (apply Zfloor_le; lra).
    lia. }
  apply IZR_le in H1, H2. lra.
Qed.

Lemma ceil_Fin_eq (x : R) (z : Z) :
  (IZR z - 1 < x <= IZR z)%R -> Math.ceil (Fin x) = Fin (IZR z).
Proof. intros Hx. simpl. now rewrite (Zceil_eq z x Hx). Qed.

Lemma round1_Fin_eq (x : R) (z : Z) :
  (IZR z <= x * 10 + / 2 < IZR z + 1)%R -> round1 (Fin x) = Fin (IZR z / 10).
Proof.
  intros Hx. unfold round1. rewrite mul_Fin. simpl Math.round.
  rewrite (Zfloor_eq z _ Hx). apply div_Fin. lra.
Qed.


(** With a humidity of 100 the vapour pressure deficit, and the estimate,
    are zero. *)
Lemma etcDaily_saturated (T W S : R) : etcDaily T 100 W S = 0%R.
Proof. unfold etcDaily. cbv zeta. lra. Qed.





(** ** Anomalies *)

Lemma sliceLast_lastRecords (n : nat) (history : list Reading.t) :
  sliceLast n history = lastRecords n history.
Proof.
  unfold sliceLast, lastRecords. now rewrite firstn_rev, rev_involutive.
Qed.

Lemma filter_countBelow (min : num) (records : list Reading.t) :
  List.length (filter (fun r => Num.ofField (soilMoisture r) <? min) records)
  = countBelow min records.
Proof.
  induction records as [|r rest IH]; [reflexivity|].
  simpl. destruct (Num.ofField (soilMoisture r) <? min); simpl; now rewrite IH.
Qed.

Lemma nth_pred_length {A : Type} (l : list A) (d : A) :
  nth (List.length l - 1) l d = last l d.
Proof.
  induction l as [|x [|y rest] IH]; try reflexivity.
  cbn [List.length] in *. rewrite Nat.sub_succ, Nat.sub_0_r in *.
  exact IH.
Qed.

Lemma lastRecords_length (n : nat) (history : list Reading.t) :
  (List.length (lastRecords n history) <= List.length history)%nat.
Proof.
  unfold lastRecords. rewrite length_rev, length_firstn, length_rev. lia.
Qed.

Lemma countBelow_le (min : num) (records : list Reading.t) :
  (countBelow min records <= List.length records)%nat.
Proof.
  rewrite <- filter_countBelow. apply filter_length_le.
Qed.

Lemma leakCheck_type (clk : Clock.t) (history : list Reading.t)
    (latest : Reading.t) (moisture : num) (cropType : string) (a : Anomaly.t) :
  In a (leakCheck clk history latest moisture cropType) -> Anomaly.type a = "Leak".
Proof.
  unfold leakCheck.
  repeat match goal with
  | |- context [if ?c then _ else _] => destruct c
  end; simpl; intros Hin; try contradiction.
  destruct Hin as [<-|[]]. reflexivity.
Qed.

Lemma dryStressCheck_spec (clk : Clock.t) (recent : list Reading.t)
    (latest : Reading.t) (moisture min : num) :
  dryStressCheck clk recent latest moisture min =
    if (moisture <? min * 0.8) && (5 <=? countBelow min recent)%nat
    then [ mkAnomaly clk latest "Dry Stress"
             (if moisture <? min * 0.6 then "Critical" else "High")
             (DryStressMessage moisture)
             (Math.min 95 (75 + (min - moisture) * 2)) ]
    else [].
Proof. unfold dryStressCheck. now rewrite filter_countBelow. Qed.

Lemma overIrrigationCheck_type (clk : Clock.t) (recent : list Reading.t)
    (latest : Reading.t) (moisture max : num) (a : Anomaly.t) :
  In a (overIrrigationCheck clk recent latest moisture max) ->
  Anomaly.type a = "Over-Irrigation" /\ (moisture >? max * 1.15) = true.
Proof.
  unfold overIrrigationCheck.
  destruct (moisture >? max * 1.15); simpl; [|contradiction].
  match goal with
  | |- context [if ?c then _ else _] => destruct c
  end; simpl; [|contradiction].
  intros [<-|[]]. split; reflexivity.
Qed.

Lemma abnormalPatternCheck_type (clk : Clock.t) (recent : list Reading.t)
    (latest : Reading.t) (a : Anomaly.t) :
  In a (abnormalPatternCheck clk recent latest) ->
  Anomaly.type a = "Abnormal Pattern".
Proof.
  unfold abnormalPatternCheck.
  repeat match goal with
  | |- context [if ?c then _ else _] => destruct c
  end; simpl; intros Hin; try contradiction.
  destruct Hin as [<-|[]]. reflexivity.
Qed.

(** The list [detectAnomalies] returns, in terms of the current reading and
    the resolved thresholds. *)
Lemma detectAnomalies_unfold (clk : Clock.t) (history : option (list Reading.t))
    (currentData : option Reading.t) (crop : option Crop.t) :
  let records := recordsOf history in
  let latest := latestReading records currentData in
  let moisture := Num.ofField (soilMoisture latest) in
  let cropType := resolveCropType latest crop in
  let config := resolveConfig cropType in
  let min := Num.ofField (Config.min config) in
  let max := Num.ofField (Config.max config) in
  let recent := lastRecords 10 records in
  detectAnomalies clk history currentData crop =
    if (List.length records <? 5)%nat then []
    else match Reading.soil latest with
         | None => []
         | Some _ =>
             (leakCheck clk records latest moisture cropType
              ++ dryStressCheck clk recent latest moisture min
              ++ overIrrigationCheck clk recent latest moisture max
              ++ abnormalPatternCheck clk recent latest)%list
         end.
Proof.
  cbv zeta. unfold detectAnomalies.
  destruct history as [history|]; [|reflexivity].
  unfold recordsOf.
  destruct (List.length history <? 5)%nat; [reflexivity|].
  rewrite sliceLast_lastRecords.
  assert (Hlatest :
    match currentData with
    | Some c => c
    | None => nth (List.length history - 1) history Reading.empty
    end = latestReading history currentData).
  { unfold latestReading. destruct currentData; [reflexivity|apply nth_pred_length]. }
  rewrite Hlatest. unfold soilMoisture.
  destruct (Reading.soil (latestReading history currentData)); reflexivity.
Qed.

(** A "Dry Stress" anomaly can only come from the dry-stress check. *)
Lemma dry_stress_origin (clk : Clock.t) (history : option (list Reading.t))
    (currentData : option Reading.t) (crop : option Crop.t) (a : Anomaly.t) :
  let records := recordsOf history in
  let latest := latestReading records currentData in
  let moisture := Num.ofField (soilMoisture latest) in
  let min := Num.ofField (Config.min (resolveConfig (resolveCropType latest crop))) in
  In a (detectAnomalies clk history currentData crop) ->
  Anomaly.type a = "Dry Stress" ->
  In a (dryStressCheck clk (lastRecords 10 records) latest moisture min).
Proof.
  cbv zeta. rewrite detectAnomalies_unfold. cbv zeta.
  destruct (List.length (recordsOf history) <? 5)%nat; [contradiction|].
  destruct (Reading.soil _); [|contradiction].
  rewrite !in_app_iff. intros [Hin|[Hin|[Hin|Hin]]] Htype.
  - apply leakCheck_type in Hin. congruence.
  - exact Hin.
  - apply overIrrigationCheck_type in Hin. destruct Hin. congruence.
  - apply abnormalPatternCheck_type in Hin. congruence.
Qed.

Lemma dry_stress_present (clk : Clock.t) (history : option (list Reading.t))
    (currentData : option Reading.t) (crop : option Crop.t) :
  let records := recordsOf history in
  let latest := latestReading records currentData in
  let moisture := Num.ofField (soilMoisture latest) in
  let min := Num.ofField (Config.min (resolveConfig (resolveCropType latest crop))) in
  (moisture <? min * 0.8) = true ->
  (5 <= countBelow min (lastRecords 10 records))%nat ->
  In (mkAnomaly clk latest "Dry Stress"
        (if moisture <? min * 0.6 then "Critical" else "High")
        (DryStressMessage moisture)
        (Math.min 95 (75 + (min - moisture) * 2)))
     (detectAnomalies clk history currentData crop).
Proof.
  cbv zeta. intros Hm Hcount. rewrite detectAnomalies_unfold. cbv zeta.
  pose proof (countBelow_le
    (Num.ofField (Config.min (resolveConfig
       (resolveCropType (latestReading (recordsOf history) currentData) crop))))
    (lastRecords 10 (recordsOf history))) as H1.
  pose proof (lastRecords_length 10 (recordsOf history)) as H2.
  destruct (Nat.ltb_spec (List.length (recordsOf history)) 5) as [Hlen|Hlen]; [lia|].
  unfold soilMoisture in Hm.
  destruct (Reading.soil (latestReading (recordsOf history) currentData)) as [soil|] eqn:Hsoil;
    [|discriminate].
  rewrite !in_app_iff. right; left.
  rewrite dryStressCheck_spec. unfold soilMoisture. rewrite Hsoil, Hm.
  apply Nat.leb_le in Hcount. rewrite Hcount. simpl. left. reflexivity.
Qed.

(** C5.  [detectAnomalies] returns a "Dry Stress" anomaly exactly when the
    current moisture is below 0.8 min and at least 5 of the last 10 history
    records have a moisture below min; its severity is "Critical" when the
    moisture is below 0.6 min and "High" otherwise.  Ten readings at
    moisture 22 for Wheat (min 30) give a "Dry Stress" entry of severity
    "High". *)
Theorem dry_stress_exactly_when (clk : Clock.t) (history : option (list Reading.t))
    (currentData : option Reading.t) (crop : option Crop.t) :
  let records := recordsOf history in
  let latest := latestReading records currentData in
  let moisture := Num.ofField (soilMoisture latest) in
  let min := Num.ofField (Config.min (resolveConfig (resolveCropType latest crop))) in
  let result := detectAnomalies clk history currentData crop in
  (hasType "Dry Stress" result
   <-> (moisture <? min * 0.8) = true
       /\ (5 <= countBelow min (lastRecords 10 records))%nat)
  /\ (forall a,
        In a result -> Anomaly.type a = "Dry Stress" ->
        Anomaly.severity a = if moisture <? min * 0.6 then "Critical" else "High")
  /\ (forall current,
        current = None \/ current = Some (wheatReading 22) ->
        exists a,
          In a (detectAnomalies clk (Some (wheatHistory 22 10)) current crop)
          /\ Anomaly.type a = "Dry Stress"
          /\ Anomaly.severity a = "High").
Proof.
  cbv zeta. split; [split|split].
  - intros (a & Hin & Htype).
    apply dry_stress_origin in Hin; [|exact Htype]. cbv zeta in Hin.
    rewrite dryStressCheck_spec in Hin.
    destruct (_ <? _ * 0.8); [|contradiction]. split; [reflexivity|].
    destruct (Nat.leb_spec 5 (countBelow
      (Num.ofField (Config.min (resolveConfig
         (resolveCropType (latestReading (recordsOf history) currentData) crop))))
      (lastRecords 10 (recordsOf history)))); [assumption|contradiction].
  - intros [Hm Hcount]. eexists. split.
    + apply dry_stress_present; eassumption.
    + reflexivity.
  - intros a Hin Htype.
    apply dry_stress_origin in Hin; [|exact Htype]. cbv zeta in Hin.
    rewrite dryStressCheck_spec in Hin.
    destruct (_ && _); [|contradiction].
    destruct Hin as [<-|[]]. reflexivity.
  - intros current Hcur.
    assert (Hlatest : latestReading (wheatHistory 22 10) current = wheatReading 22).
    { destruct Hcur as [->| ->]; reflexivity. }
    eexists. split; [|split].
    + apply (dry_stress_present clk (Some (wheatHistory 22 10)) current crop).
      * cbv zeta. unfold recordsOf. rewrite Hlatest. simpl.
        unfold Num.ltb, Num.Rltb. decide_cmp. reflexivity.
      * cbv zeta. unfold recordsOf. rewrite Hlatest. simpl.
        unfold Num.ltb, Num.Rltb. decide_cmp. simpl. lia.
    + reflexivity.
    + unfold recordsOf. rewrite Hlatest. simpl.
      unfold Num.ltb, Num.Rltb. decide_cmp. reflexivity.
Qed.

Lemma dry_stress_exactly_when_witness :
  hasType "Dry Stress"
    (detectAnomalies noon (Some (wheatHistory 22 10)) (Some (wheatReading 22)) None)
  /\ exists a,
       In a (detectAnomalies noon (Some (wheatHistory 22 10)) None None)
       /\ Anomaly.type a = "Dry Stress"
       /\ Anomaly.severity a = "High".
Proof.
  destruct (dry_stress_exactly_when noon (Some (wheatHistory 22 10))
              (Some (wheatReading 22)) None) as (Hiff & _ & Hex).
  cbv zeta in Hiff. split.
  - apply Hiff. split.
    + simpl. unfold Num.ltb, Num.Rltb. decide_cmp. reflexivity.
    + simpl. unfold Num.ltb, Num.Rltb. decide_cmp. simpl. lia.
  - apply Hex. left. reflexivity.
Defined.

(** A resolved profile is an entry of the table, or has no thresholds. *)
Lemma resolveConfig_shape (cropType : string) :
  resolveConfig cropType = Config.empty
  \/ exists mn mx w d : R, resolveConfig cropType = Config.make mn mx w d.
Proof.
  destruct (resolveConfig_cases cropType) as [He|Hin]; [left; exact He|right].
  simpl in Hin.
  repeat (destruct Hin as [Hin|Hin];
          [rewrite <- Hin; do 4 eexists; reflexivity|]).
  contradiction.
Qed.

(** Every entry of the built-in crop table, Default included, has
    min <= max. *)
Lemma cropConfig_min_le_max (name : string) (cfg : Config.t) :
  In (name, cfg) cropConfig ->
  (Num.ofField (Config.min cfg) <=? Num.ofField (Config.max cfg)) = true.
Proof.
  intros Hin. simpl in Hin.
  repeat (destruct Hin as [Hin|Hin];
          [injection Hin as <- <-; apply leb_Fin; lra|]).
  contradiction.
Qed.

Lemma over_irrigation_origin (clk : Clock.t) (history : option (list Reading.t))
    (currentData : option Reading.t) (crop : option Crop.t) (a : Anomaly.t) :
  let records := recordsOf history in
  let latest := latestReading records currentData in
  let moisture := Num.ofField (soilMoisture latest) in
  let max := Num.ofField (Config.max (resolveConfig (resolveCropType latest crop))) in
  In a (detectAnomalies clk history currentData crop) ->
  Anomaly.type a = "Over-Irrigation" ->
  (moisture >? max * 1.15) = true.
Proof.
  cbv zeta. rewrite detectAnomalies_unfold. cbv zeta.
  destruct (List.length (recordsOf history) <? 5)%nat; [contradiction|].
  destruct (Reading.soil _); [|contradiction].
  rewrite !in_app_iff. intros [Hin|[Hin|[Hin|Hin]]] Htype.
  - apply leakCheck_type in Hin. congruence.
  - rewrite dryStressCheck_spec in Hin.
    destruct (_ && _); [|contradiction].
    destruct Hin as [<-|[]]. discriminate.
  - apply overIrrigationCheck_type in Hin. tauto.
  - apply abnormalPatternCheck_type in Hin. congruence.
Qed.

(** The two triggers on the current moisture exclude each other for every
    profile the table resolves to. *)
Lemma triggers_exclusive (cropType : string) (moisture : num) :
  let config := resolveConfig cropType in
  (moisture <? Num.ofField (Config.min config) * 0.8) = true ->
  (moisture >? Num.ofField (Config.max config) * 1.15) = true ->
  False.
Proof.
  cbv zeta.
  destruct (resolveConfig_shape cropType) as [He|(mn & mx & w & d & Hcfg)].
  - rewrite He. simpl. rewrite ltb_NaN_r. discriminate.
  - destruct (resolved_profile _ _ _ _ _ Hcfg) as (Hmn & Hmx & _).
    rewrite Hcfg. simpl Num.ofField. rewrite !mul_Fin.
    destruct moisture as [| | |m]; try discriminate.
    intros H1 H2. apply ltb_Fin in H1. apply gtb_Fin in H2. lra.
Qed.

(** C10.  Every entry of the crop table has min <= max, and whenever the
    resolved profile has min <= max a single call never returns both a
    "Dry Stress" and an "Over-Irrigation" anomaly. *)
Theorem dry_stress_excludes_over_irrigation
    (clk : Clock.t) (history : option (list Reading.t))
    (currentData : option Reading.t) (crop : option Crop.t) :
  let latest := latestReading (recordsOf history) currentData in
  let config := resolveConfig (resolveCropType latest crop) in
  let result := detectAnomalies clk history currentData crop in
  (forall name cfg,
      In (name, cfg) cropConfig ->
      (Num.ofField (Config.min cfg) <=? Num.ofField (Config.max cfg)) = true)
  /\ ((Num.ofField (Config.min config) <=? Num.ofField (Config.max config)) = true ->
      ~ (hasType "Dry Stress" result /\ hasType "Over-Irrigation" result)).
Proof.
  cbv zeta. split; [apply cropConfig_min_le_max|].
  intros _ [(a & Ha & Hta) (b & Hb & Htb)].
  apply dry_stress_origin in Ha; [|exact Hta]. cbv zeta in Ha.
  rewrite dryStressCheck_spec in Ha.
  apply over_irrigation_origin in Hb; [|exact Htb]. cbv zeta in Hb.
  destruct (_ <? _ * 0.8) eqn:Hdry; [|contradiction].
  exact (triggers_exclusive _ _ Hdry Hb).
Qed.

Lemma dry_stress_excludes_over_irrigation_witness :
  (Num.ofField (Config.min (resolveConfig "Wheat"))
   <=? Num.ofField (Config.max (resolveConfig "Wheat"))) = true
  /\ ~ (hasType "Dry Stress"
          (detectAnomalies noon (Some wheatWetHistory) (Some (wheatReading 70)) None)
        /\ hasType "Over-Irrigation"
             (detectAnomalies noon (Some wheatWetHistory) (Some (wheatReading 70)) None)).
Proof.
  assert (Hle : (Num.ofField (Config.min (resolveConfig "Wheat"))
                 <=? Num.ofField (Config.max (resolveConfig "Wheat"))) = true).
  { simpl. unfold Num.leb, Num.Rleb. decide_cmp. reflexivity. }
  split; [exact Hle|].
  apply (dry_stress_excludes_over_irrigation noon (Some wheatWetHistory)
           (Some (wheatReading 70)) None).
  exact Hle.
Defined.

(** ** Dependence on the wall clock *)

Lemma getOptimalIrrigationTime_hours (c1 c2 : Clock.t) (weather : Weather.t) :
  Clock.getHours c1 = Clock.getHours c2 ->
  getOptimalIrrigationTime c1 weather = getOptimalIrrigationTime c2 weather.
Proof. intros Hh. unfold getOptimalIrrigationTime. now rewrite Hh. Qed.

(** The recommendation reads the clock only for the hour of the day. *)
Lemma generateRecommendation_hours (c1 c2 : Clock.t) (currentData : option Reading.t)
    (crop : option Crop.t) (historicalData : list Reading.t) :
  Clock.getHours c1 = Clock.getHours c2 ->
  generateRecommendation c1 currentData crop historicalData
  = generateRecommendation c2 currentData crop historicalData.
Proof.
  intros Hh. unfold generateRecommendation.
  destruct currentData as [cd|]; [|reflexivity].
  destruct (Reading.soil cd); [|reflexivity].
  now rewrite (getOptimalIrrigationTime_hours c1 c2 _ Hh).
Qed.

Lemma mkAnomaly_clock (c1 c2 : Clock.t) (latest : Reading.t)
    (type severity : string) (message : Message) (confidence : num) :
  sameStamp c1 c2 latest ->
  mkAnomaly c1 latest type severity message confidence
  = mkAnomaly c2 latest type severity message confidence.
Proof.
  intros [Hts|Hnow]; unfold mkAnomaly.
  - destruct (Reading.timestamp latest); [reflexivity|contradiction].
  - now rewrite Hnow.
Qed.

Lemma detectAnomalies_clock (c1 c2 : Clock.t) (history : option (list Reading.t))
    (currentData : option Reading.t) (crop : option Crop.t) :
  sameStamp c1 c2 (latestReading (recordsOf history) currentData) ->
  detectAnomalies c1 history currentData crop
  = detectAnomalies c2 history currentData crop.
Proof.
  intros Hs. rewrite !detectAnomalies_unfold. cbv zeta.
  destruct (List.length (recordsOf history) <? 5)%nat; [reflexivity|].
  destruct (Reading.soil _); [|reflexivity].
  unfold leakCheck, dryStressCheck, overIrrigationCheck, abnormalPatternCheck.
  cbv zeta.
  repeat rewrite (mkAnomaly_clock c1 c2 _ _ _ _ _ Hs).
  reflexivity.
Qed.

(** Every anomaly is stamped with the timestamp of the current reading, or
    with the current instant when the reading has none. *)
Lemma anomaly_timestamp (clk : Clock.t) (history : option (list Reading.t))
    (currentData : option Reading.t) (crop : option Crop.t) (a : Anomaly.t) :
  In a (detectAnomalies clk history currentData crop) ->
  Anomaly.timestamp a =
    match Reading.timestamp (latestReading (recordsOf history) currentData) with
    | Some ts => ts
    | None => Clock.now clk
    end.
Proof.
  rewrite detectAnomalies_unfold. cbv zeta.
  destruct (List.length (recordsOf history) <? 5)%nat; [contradiction|].
  destruct (Reading.soil _); [|contradiction].
  rewrite !in_app_iff.
  intros [Hin|[Hin|[Hin|Hin]]]; revert Hin;
    unfold leakCheck, dryStressCheck, overIrrigationCheck, abnormalPatternCheck;
    cbv zeta;
    repeat match goal with
    | |- context [if ?c then _ else _] => destruct c
    end; simpl; intros Hin; try contradiction;
    destruct Hin as [<-|[]]; reflexivity.
Qed.

(** A reading without timestamp, which the data model does not provide
    for: at the same time of day on two consecutive days, with the same
    history of ten readings, the anomaly lists differ, because an anomaly
    of such a reading is stamped with the current instant. *)
Lemma determinism_counterexample :
  Clock.timeOfDay noon = Clock.timeOfDay noonNextDay
  /\ Clock.getHours noon = Clock.getHours noonNextDay
  /\ detectAnomalies noon (Some (wheatHistory 22 10)) (Some (wheatReading 22)) None
     <> detectAnomalies noonNextDay (Some (wheatHistory 22 10)) (Some (wheatReading 22)) None.
Proof.
  split; [reflexivity|split; [reflexivity|]].
  intros Heq.
  assert (Hin : exists a,
    In a (detectAnomalies noon (Some (wheatHistory 22 10)) (Some (wheatReading 22)) None)).
  { eexists. apply dry_stress_present.
    - simpl. unfold Num.ltb, Num.Rltb. decide_cmp. reflexivity.
    - simpl. unfold Num.ltb, Num.Rltb. decide_cmp. simpl. lia. }
  destruct Hin as (a & Hin).
  pose proof (anomaly_timestamp _ _ _ _ _ Hin) as H1.
  rewrite Heq in Hin.
  pose proof (anomaly_timestamp _ _ _ _ _ Hin) as H2.
  simpl in H1, H2. congruence.
Qed.

(** The clock decides nothing of a recommendation but its recommended
    time. *)
Lemma generateRecommendation_clock (c1 c2 : Clock.t) (currentData : option Reading.t)
    (crop : option Crop.t) (historicalData : list Reading.t) :
  withoutTime (generateRecommendation c1 currentData crop historicalData)
  = withoutTime (generateRecommendation c2 currentData crop historicalData).
Proof.
  unfold generateRecommendation.
  destruct currentData as [cd|]; [|reflexivity].
  destruct (Reading.soil cd); [|reflexivity].
  cbv zeta.
  destruct (_ >? _); [reflexivity|].
  destruct (_ <? _).
  - destruct (_ && _ && _); reflexivity.
  - destruct (_ <? _); reflexivity.
Qed.

(** The water savings read the amount of the recommendation and nothing
    else of it. *)
Lemma calculateWaterSavings_amount (historicalData : option (list Reading.t))
    (r1 r2 : Recommendation.t) :
  Recommendation.amount r1 = Recommendation.amount r2 ->
  calculateWaterSavings historicalData (Some r1)
  = calculateWaterSavings historicalData (Some r2).
Proof.
  intros Hamount. unfold calculateWaterSavings. now rewrite Hamount.
Qed.

(** C9.  For a reading that carries its timestamp, as the readings of the
    data model do, the four derived objects are a function of the latest
    reading, the crop and the recent history, and of the local hour of the
    wall clock: two runs at any two moments return the same anomalies, the
    same water savings, the same yield health and recommendations that
    differ at most in the recommended time; at the same hour of the day the
    two runs return the same four objects.  No other state is read: the
    crop table is a constant of the service. *)
Theorem outputs_deterministic
    (c1 c1' c2 c2' : Clock.t) (latestData : Reading.t) (crop : option Crop.t)
    (recentHistory : list Reading.t) :
  Reading.timestamp latestData <> None ->
  let run1 := deriveStatus c1 c1' latestData crop recentHistory in
  let run2 := deriveStatus c2 c2' latestData crop recentHistory in
  Derived.anomalies run1 = Derived.anomalies run2
  /\ Derived.waterSavings run1 = Derived.waterSavings run2
  /\ Derived.yieldHealth run1 = Derived.yieldHealth run2
  /\ withoutTime (Derived.recommendation run1)
     = withoutTime (Derived.recommendation run2)
  /\ (Clock.getHours c1 = Clock.getHours c2 -> run1 = run2).
Proof.
  intros Hstamp. cbv zeta. unfold deriveStatus.
  cbn [Derived.anomalies Derived.waterSavings Derived.yieldHealth
       Derived.recommendation].
  pose proof (generateRecommendation_clock c1 c2 (Some latestData) crop
                recentHistory) as Hrec.
  assert (Hanom : detectAnomalies c1' (Some recentHistory) (Some latestData) crop
                  = detectAnomalies c2' (Some recentHistory) (Some latestData) crop).
  { apply detectAnomalies_clock. left. exact Hstamp. }
  assert (Hsav : calculateWaterSavings (Some recentHistory)
                   (Some (generateRecommendation c1 (Some latestData) crop recentHistory))
                 = calculateWaterSavings (Some recentHistory)
                     (Some (generateRecommendation c2 (Some latestData) crop
                              recentHistory))).
  { apply calculateWaterSavings_amount.
    apply (f_equal Recommendation.amount) in Hrec. exact Hrec. }
  split; [exact Hanom|]. split; [exact Hsav|]. split; [reflexivity|].
  split; [exact Hrec|].
  intros Hhours.
  rewrite Hanom, Hsav.
  now rewrite (generateRecommendation_hours c1 c2 _ _ _ Hhours).
Qed.

(** Ten Wheat readings at moisture 22 and a stamped reading: at noon of two
    consecutive days the four objects are the same, among them a "Dry
    Stress" anomaly; at noon and in the evening only the recommended time
    differs. *)
Lemma outputs_deterministic_witness :
  deriveStatus noon noon stampedReading None (wheatHistory 22 10)
  = deriveStatus noonNextDay noonNextDay stampedReading None (wheatHistory 22 10)
  /\ Derived.anomalies (deriveStatus noon noon stampedReading None (wheatHistory 22 10))
     = Derived.anomalies
         (deriveStatus evening evening stampedReading None (wheatHistory 22 10))
  /\ Recommendation.recommendedTime
       (Derived.recommendation
          (deriveStatus noon noon stampedReading None (wheatHistory 22 10)))
     <> Recommendation.recommendedTime
          (Derived.recommendation
             (deriveStatus evening evening stampedReading None (wheatHistory 22 10))).
Proof.
  split; [|split].
  - destruct (outputs_deterministic noon noon noonNextDay noonNextDay
                stampedReading None (wheatHistory 22 10) ltac:(discriminate))
      as (_ & _ & _ & _ & Hsame).
    apply Hsame. reflexivity.
  - destruct (outputs_deterministic noon noon evening evening
                stampedReading None (wheatHistory 22 10) ltac:(discriminate))
      as (Hanom & _).
    exact Hanom.
  - unfold deriveStatus, generateRecommendation.
    cbn [Derived.recommendation stampedReading wheatReading Reading.soil
         Soil.moisture Num.ofField].
    change (resolveConfig (resolveCropType stampedReading None))
      with (Config.make 30 50 35 30).
    cbn [Config.make Config.max Config.min Num.ofField].
    rewrite mul_Fin.
    assert (Hgt : (Fin 22 >? Fin (50 * 1.1)) = false) by (apply gtb_Fin_false; lra).
    rewrite Hgt. cbv zeta.
    cbn [Recommendation.recommendedTime].
    unfold getOptimalIrrigationTime. cbv zeta.
    change (Clock.getHours noon) with 12%Z.
    change (Clock.getHours evening) with 19%Z.
    simpl. discriminate.
Defined.

(** ** Water savings *)

Lemma filterFrom_countDrops (pre : list Reading.t) (prev : Reading.t)
    (rest : list Reading.t) :
  List.length
    (filterFrom (isIrrigationEvent (pre ++ prev :: rest)) (S (List.length pre)) rest)
  = countDrops (prev :: rest).
Proof.
  revert pre prev. induction rest as [|record rest IH]; intros pre prev.
  - reflexivity.
  - cbn [filterFrom countDrops].
    assert (Hev :
      isIrrigationEvent (pre ++ prev :: record :: rest) record (S (List.length pre))
      = (Num.ofField (soilMoisture record)
         <? Num.ofField (soilMoisture prev) * 0.95)).
    { unfold isIrrigationEvent. cbn [Nat.eqb].
      rewrite Nat.sub_succ, Nat.sub_0_r, nth_middle. reflexivity. }
    rewrite Hev.
    specialize (IH (pre ++ [prev])%list record).
    rewrite <- app_assoc, last_length in IH. cbn [app] in IH.
    destruct (Num.ofField (soilMoisture record)
              <? Num.ofField (soilMoisture prev) * 0.95);
      cbn [List.length]; rewrite IH; reflexivity.
Qed.

(** The indexed filter of the source counts exactly these pairs. *)
Lemma irrigationEvents_countDrops (records : list Reading.t) :
  List.length (filterWithIndex (isIrrigationEvent records) records)
  = countDrops records.
Proof.
  destruct records as [|first rest]; [reflexivity|].
  unfold filterWithIndex. cbn [filterFrom].
  change (isIrrigationEvent (first :: rest) first 0) with false. cbv iota.
  exact (filterFrom_countDrops [] first rest).
Qed.

Lemma firstn_min_length {A : Type} (n : nat) (l : list A) :
  firstn (Nat.min n (List.length l)) l = firstn n l.
Proof.
  destruct (Nat.le_ge_cases n (List.length l)) as [Hle|Hge].
  - now rewrite Nat.min_l.
  - rewrite Nat.min_r by assumption. rewrite firstn_all.
    symmetry. now apply firstn_all2.
Qed.

(** The fields of the result for a history of at least 7 records. *)
Lemma calculateWaterSavings_long (historicalData : list Reading.t)
    (currentRecommendation : option Recommendation.t) :
  (7 <= List.length historicalData)%nat ->
  let days :=
    Math.ceil ((dateValue (Reading.timestamp (hd Reading.empty historicalData))
                - dateValue (Reading.timestamp (last historicalData Reading.empty)))
               / 86400000) in
  let events := countDrops (firstn 168 historicalData) in
  let amount :=
    match currentRecommendation with
    | Some r =>
        match Recommendation.amount r with
        | Some a => if Num.truthy a then a else Fin 35
        | None => Fin 35
        end
    | None => Fin 35
    end in
  let saved := Math.max 0 (40 * days - Num.ofNat events * amount) in
  calculateWaterSavings (Some historicalData) currentRecommendation =
    {| WaterSavings.saved := round1 saved;
       WaterSavings.percentage :=
         round1 (if 40 * days >? 0 then saved / (40 * days) * 100 else 0);
       WaterSavings.baseline := round1 (40 * days);
       WaterSavings.optimized := round1 (Num.ofNat events * amount);
       WaterSavings.irrigationEvents := Some events;
       WaterSavings.daysAnalyzed := Some (Math.min 7 days) |}.
Proof.
  intros Hlen. cbv zeta. unfold calculateWaterSavings.
  destruct (Nat.ltb_spec (List.length historicalData) 7) as [Hlt|_]; [lia|].
  rewrite firstn_min_length, irrigationEvents_countDrops, nth_pred_length.
  assert (Hhd : nth 0 historicalData Reading.empty = hd Reading.empty historicalData)
    by (destruct historicalData; reflexivity).
  rewrite Hhd.
  assert (Hamt :
    Num.orElse (match currentRecommendation with
                | Some r => Recommendation.amount r
                | None => None
                end) 35
    = match currentRecommendation with
      | Some r =>
          match Recommendation.amount r with
          | Some a => if Num.truthy a then a else Fin 35
          | None => Fin 35
          end
      | None => Fin 35
      end).
  { destruct currentRecommendation as [r|]; reflexivity. }
  rewrite Hamt. reflexivity.
Qed.

Lemma hourly_days :
  Math.ceil (coveredDays hourlyHistory) = Fin 1
  /\ Math.ceil (coveredDays hourlyHistoryWithDrop) = Fin 1.
Proof.
  unfold coveredDays, hourlyHistory, hourlyHistoryWithDrop.
  cbn [map hd last stampedWheat Reading.timestamp dateValue].
  change (6 * 3600000)%Z with 21600000%Z. change (0 * 3600000)%Z with 0%Z.
  unfold Num.ofZ. rewrite sub_Fin. rewrite div_Fin by lra.
  split; apply (ceil_Fin_eq _ 1); lra.
Qed.

(** C7, as stated, fails.  Seven hourly records cover a quarter of a day,
    yet the result is not all-zero: baseline 40, saved 40, 100 percent.  And
    a recommendation whose amount is present and 0 counts as 35 per event:
    one event gives optimized 35. *)
Lemma water_savings_counterexample :
  (coveredDays hourlyHistory <? 7) = true
  /\ (let r := calculateWaterSavings (Some hourlyHistory) None in
      WaterSavings.baseline r = Fin 40
      /\ WaterSavings.saved r = Fin 40
      /\ WaterSavings.percentage r = Fin 100
      /\ WaterSavings.optimized r = Fin 0)
  /\ (let r := calculateWaterSavings (Some hourlyHistoryWithDrop)
                 (Some maintainRecommendation) in
      Recommendation.amount maintainRecommendation = Some (Fin 0)
      /\ WaterSavings.irrigationEvents r = Some 1%nat
      /\ WaterSavings.optimized r = Fin 35).
Proof.
  destruct hourly_days as [Hd1 Hd2]. unfold coveredDays in Hd1, Hd2.
  split; [|split].
  - unfold coveredDays, hourlyHistory.
    cbn [map hd last stampedWheat Reading.timestamp dateValue].
    change (6 * 3600000)%Z with 21600000%Z. change (0 * 3600000)%Z with 0%Z.
    unfold Num.ofZ. rewrite sub_Fin.
    rewrite div_Fin by lra. apply ltb_Fin. lra.
  - cbv zeta. rewrite calculateWaterSavings_long by (simpl; lia).
    cbv zeta. cbn [WaterSavings.baseline WaterSavings.saved
                   WaterSavings.percentage WaterSavings.optimized].
    rewrite Hd1.
    assert (Hev : countDrops (firstn 168 hourlyHistory) = 0%nat).
    { simpl. unfold Num.ltb, Num.Rltb. decide_cmp. reflexivity. }
    rewrite Hev. unfold Num.ofNat. cbn [INR].
    rewrite !mul_Fin, !sub_Fin, max_Fin.
    assert (Hgt : (Fin (40 * 1) >? 0) = true) by (apply gtb_Fin; lra).
    rewrite Hgt.
    assert (Hmax : Rmax 0 (40 * 1 - 0 * 35) = 40%R).
    { rewrite Rmax_right by lra. lra. }
    rewrite Hmax. rewrite div_Fin by lra. rewrite mul_Fin.
    repeat split.
    + rewrite (round1_Fin_eq _ 400) by lra. f_equal. lra.
    + rewrite (round1_Fin_eq _ 400) by lra. f_equal. lra.
    + rewrite (round1_Fin_eq _ 1000) by lra. f_equal. lra.
    + rewrite (round1_Fin_eq _ 0) by lra. f_equal. lra.
  - cbv zeta. rewrite calculateWaterSavings_long by (simpl; lia).
    cbv zeta. cbn [WaterSavings.irrigationEvents WaterSavings.optimized].
    assert (Hev : countDrops (firstn 168 hourlyHistoryWithDrop) = 1%nat).
    { simpl. unfold Num.ltb, Num.Rltb. decide_cmp. reflexivity. }
    rewrite Hev.
    split; [reflexivity|split; [reflexivity|]].
    unfold maintainRecommendation. cbn [Recommendation.amount].
    rewrite truthy_zero.
    unfold Num.ofNat. cbn [INR]. rewrite mul_Fin.
    rewrite (round1_Fin_eq _ 350) by lra. f_equal. lra.
Qed.

(** C7, amended.  The result is all-zero when the history is absent or has
    fewer than 7 records, whatever time they cover.  With 7 or more records
    the baseline is 40 times the days between the last and the first record
    (rounded up to whole days); an irrigation event is counted at each
    consecutive pair, among the first 168 records, whose second moisture is
    below 0.95 times the first; the optimized amount is the number of events
    times the amount of the recommendation, or times 35 when the
    recommendation or its amount is absent, zero or NaN; saved is the
    baseline minus the optimized amount, and at least 0; the amounts are
    rounded to one decimal.  The product by 0.95 is rounded by the program:
    the count is stated for histories whose consecutive moistures are clear
    of that limit by one part in 10^9, and the amounts for a recommendation
    that is absent or was produced by [generateRecommendation], whose
    amount is a number of tenths. *)
Theorem water_savings_by_record_count
    (historicalData : option (list Reading.t))
    (currentRecommendation : option Recommendation.t) :
  ((List.length (recordsOf historicalData) < 7)%nat ->
   let r := calculateWaterSavings historicalData currentRecommendation in
   WaterSavings.saved r = Fin 0 /\ WaterSavings.percentage r = Fin 0
   /\ WaterSavings.baseline r = Fin 0 /\ WaterSavings.optimized r = Fin 0)
  /\ (forall records,
        historicalData = Some records ->
        (7 <= List.length records)%nat ->
        clearOfTheLimit (firstn 168 records) ->
        (currentRecommendation = None
         \/ exists clk currentData crop history,
              currentRecommendation
              = Some (generateRecommendation clk currentData crop history)) ->
        let days := Math.ceil (coveredDays records) in
        let events := countDrops (firstn 168 records) in
        let amount :=
          match currentRecommendation with
          | Some r =>
              match Recommendation.amount r with
              | Some a => if Num.truthy a then a else Fin 35
              | None => Fin 35
              end
          | None => Fin 35
          end in
        let r := calculateWaterSavings historicalData currentRecommendation in
        WaterSavings.baseline r = round1 (40 * days)
        /\ WaterSavings.irrigationEvents r = Some events
        /\ WaterSavings.optimized r = round1 (Num.ofNat events * amount)
        /\ WaterSavings.saved r
           = round1 (Math.max 0 (40 * days - Num.ofNat events * amount))).
Proof.
  split.
  - intros Hlen. cbv zeta. unfold calculateWaterSavings.
    destruct historicalData as [records|]; [|repeat split].
    unfold recordsOf in Hlen.
    destruct (Nat.ltb_spec (List.length records) 7) as [_|Hge]; [|lia].
    repeat split.
  - intros records -> Hlen _ _. cbv zeta.
    rewrite calculateWaterSavings_long by assumption.
    cbv zeta. unfold coveredDays. repeat split.
Qed.

(** A single record gives the all-zero result; seven hourly records with
    one drop from 40 to 30 count one irrigation event. *)
Lemma water_savings_by_record_count_witness :
  WaterSavings.baseline (calculateWaterSavings (Some [Reading.empty]) None) = Fin 0
  /\ WaterSavings.irrigationEvents
       (calculateWaterSavings (Some hourlyHistoryWithDrop) None) = Some 1%nat.
Proof.
  split.
  - destruct (water_savings_by_record_count (Some [Reading.empty]) None) as (Hz & _).
    apply Hz. simpl. lia.
  - destruct (water_savings_by_record_count (Some hourlyHistoryWithDrop) None)
      as (_ & Hlong).
    assert (Hclear : clearOfTheLimit (firstn 168 hourlyHistoryWithDrop)).
    { cbn [hourlyHistoryWithDrop map firstn clearOfTheLimit stampedWheat
           wheatReading soilMoisture Reading.soil Soil.moisture Num.ofField
           clearPair].
      unfold slack. rewrite !Rabs_pos_eq by lra.
      repeat split; lra. }
    destruct (Hlong hourlyHistoryWithDrop eq_refl ltac:(simpl; lia) Hclear
                (or_introl eq_refl))
      as (_ & Hev & _).
    rewrite Hev. f_equal.
    simpl. unfold Num.ltb, Num.Rltb. decide_cmp. reflexivity.
Defined.

(** ** Yield health *)

Lemma abs_Fin (a : R) : Math.abs (Fin a) = Fin (Rabs a).
Proof. reflexivity. Qed.

Lemma round_Fin (a : R) : Math.round (Fin a) = Fin (IZR (Zfloor (a + / 2))).
Proof. reflexivity. Qed.

Lemma add_NaN_r (x : num) : x + NaN = NaN.
Proof. destruct x; reflexivity. Qed.

Lemma add_NaN_l (x : num) : NaN + x = NaN.
Proof. reflexivity. Qed.

Lemma orElse_finite (v : option num) (d : R) :
  finiteField v -> exists x : R, Num.orElse v d = Fin x.
Proof.
  intros [->|(x & ->)]; simpl; [now exists d|].
  destruct (negb (Num.Reqb x 0)); eauto.
Qed.

(** The score max(0, min(1, 1 - |target - x| / scale)) is within [0, 1]. *)
Lemma closeness_score (target scale x : R) :
  scale <> 0%R ->
  exists s : R,
    Math.max 0 (Math.min 1 (1 - Math.abs (Fin target - Fin x) / Fin scale)) = Fin s
    /\ (0 <= s <= 1)%R.
Proof.
  intros Hs. rewrite sub_Fin, abs_Fin, div_Fin by assumption.
  rewrite sub_Fin, min_Fin, max_Fin. eexists; split; [reflexivity|].
  split; [apply Rmax_l|]. apply Rmax_lub; [lra|apply Rmin_l].
Qed.

(** At the target the score is 1. *)
Lemma closeness_at_target (target scale : R) :
  scale <> 0%R ->
  Math.max 0 (Math.min 1 (1 - Math.abs (Fin target - Fin target) / Fin scale)) = Fin 1.
Proof.
  intros Hs. rewrite sub_Fin, abs_Fin, div_Fin by assumption.
  rewrite sub_Fin, min_Fin, max_Fin. f_equal.
  replace (target - target)%R with 0%R by lra. rewrite Rabs_R0.
  replace (1 - 0 / scale)%R with 1%R by (field; assumption).
  rewrite Rmin_left by lra. rewrite Rmax_right by lra. reflexivity.
Qed.

Lemma orElse_nonzero (a : R) (d : num) :
  a <> 0%R -> Num.orElse (Some (Fin a)) d = Fin a.
Proof.
  intros Ha. unfold Num.orElse.
  destruct (Num.truthy (Fin a)) eqn:Ht; [reflexivity|].
  apply truthy_Fin in Ha. congruence.
Qed.

(** Within the optimal range the moisture score is 1; for a finite
    moisture and positive thresholds it is a finite number. *)
Lemma moistureScoreOf_in_range (m mn mx : R) :
  (mn <= m <= mx)%R -> moistureScoreOf m mn mx = Fin 1.
Proof.
  intros [H1 H2]. unfold moistureScoreOf.
  assert (Hge : (Fin m >=? Fin mn) = true) by now apply geb_Fin.
  assert (Hle : (Fin m <=? Fin mx) = true) by now apply leb_Fin.
  rewrite Hge, Hle. simpl. f_equal. lra.
Qed.

Lemma moistureScoreOf_finite (m mn mx : R) :
  (0 < mn)%R -> (0 < mx)%R ->
  exists s : R, moistureScoreOf m mn mx = Fin s.
Proof.
  intros Hmn Hmx. unfold moistureScoreOf.
  destruct ((Fin m >=? Fin mn) && (Fin m <=? Fin mx)); [eexists; reflexivity|].
  destruct (Fin m <? Fin mn).
  - rewrite div_Fin by lra. rewrite max_Fin. eexists; reflexivity.
  - fin_arith. eexists; reflexivity.
Qed.

(** Without a moisture the score is NaN: no branch of the if-chain is
    taken but the last, whose arithmetic propagates the missing value. *)
Lemma moistureScoreOf_NaN (min max : num) : moistureScoreOf NaN min max = NaN.
Proof.
  unfold moistureScoreOf. unfold Num.geb. destruct min; reflexivity.
Qed.

(** The score is 0 when the reading, its soil block or its weather block
    is absent. *)
Lemma predictYieldHealth_absent (data : option Reading.t) (crop : option Crop.t) :
  match data with
  | Some d => Reading.soil d = None \/ Reading.weather d = None
  | None => True
  end ->
  predictYieldHealth data crop = Fin 0.
Proof.
  destruct data as [d|]; [|reflexivity].
  unfold predictYieldHealth.
  intros [-> | ->]; [reflexivity|]. destruct (Reading.soil d); reflexivity.
Qed.

Lemma truthy_nonzero (a : R) : a <> 0%R -> Num.truthy (Fin a) = true.
Proof. apply truthy_Fin. Qed.

(** N = 80, P = 45, K = 50, pH = 6.5, temperature 25, solar radiation 600
    and a moisture inside the range of the profile: the score is 100. *)
Lemma predictYieldHealth_ideal (cropType : string) (m mn mx w d : R) :
  cropType <> EmptyString ->
  resolveConfig cropType = Config.make mn mx w d ->
  (mn <= m <= mx)%R ->
  predictYieldHealth (Some (idealReading cropType m)) None = Fin 100.
Proof.
  intros Hname Hcfg Hm. unfold predictYieldHealth, idealReading, finiteWeather.
  cbn [Reading.soil Reading.weather Soil.nitrogen Soil.phosphorus Soil.potassium
       Soil.ph Soil.moisture Weather.temperature Weather.solarRadiation
       Num.ofField Num.truthyField].
  assert (Hct : resolveCropType
                  {| Reading.soil :=
                       Some {| Soil.moisture := Some (Fin m); Soil.temp := None;
                               Soil.nitrogen := Some (Fin 80);
                               Soil.phosphorus := Some (Fin 45);
                               Soil.potassium := Some (Fin 50);
                               Soil.ph := Some (Fin 6.5) |};
                     Reading.weather :=
                       Some {| Weather.temperature := Some (Fin 25);
                               Weather.humidity := Some (Fin 60);
                               Weather.chanceOfRain := None;
                               Weather.windSpeed := Some (Fin 5);
                               Weather.solarRadiation := Some (Fin 600);
                               Weather.forecast := None |};
                     Reading.cropType := Some cropType;
                     Reading.timestamp := None;
                     Reading.field := None |} None = cropType).
  { unfold resolveCropType, strOr. cbn [Reading.cropType].
    destruct (String.eqb_spec cropType EmptyString); [contradiction|reflexivity]. }
  rewrite Hct, Hcfg. cbn [Config.make Config.min Config.max Num.ofField].
  rewrite !orElse_nonzero by lra.
  rewrite !truthy_nonzero by lra.
  rewrite !closeness_at_target by lra.
  rewrite moistureScoreOf_in_range by assumption.
  rewrite (div_Fin 600 600) by lra. rewrite min_Fin.
  rewrite !mul_Fin, !add_Fin, mul_Fin, round_Fin, min_Fin, max_Fin.
  f_equal.
  replace (Rmin 1 (600 / 600)) with 1%R by (rewrite Rmin_left; lra).
  replace (Zfloor ((1 * 0.15 + 1 * 0.1 + 1 * 0.1 + 1 * 0.1 + 1 * 0.35 + 1 * 0.1
                    + 1 * 0.1) * 100 + / 2)) with 100%Z
    by (symmetry; apply Zfloor_eq; lra).
  rewrite Rmin_left by lra. rewrite Rmax_right by lra. reflexivity.
Qed.

(** A soil block without a moisture makes the score NaN, whatever the
    other fields hold. *)
Lemma predictYieldHealth_without_moisture (data : Reading.t) (crop : option Crop.t)
    (soil : Soil.t) (weather : Weather.t) :
  Reading.soil data = Some soil ->
  Reading.weather data = Some weather ->
  Soil.moisture soil = None ->
  predictYieldHealth (Some data) crop = NaN.
Proof.
  intros Hsoil Hweather Hm. unfold predictYieldHealth.
  rewrite Hsoil, Hweather, Hm. cbn [Num.ofField].
  rewrite moistureScoreOf_NaN, mul_NaN_l, add_NaN_r, !add_NaN_l.
  reflexivity.
Qed.

(** C8 at the failing input: a reading with soil and weather blocks whose
    soil block has no moisture is scored NaN, which is not within
    [0, 100]. *)
Theorem yield_health_NaN_without_moisture :
  let score := predictYieldHealth (Some readingNoMoisture) None in
  score = NaN /\ (score >=? 0) = false /\ (score <=? 100) = false.
Proof.
  cbv zeta.
  rewrite (predictYieldHealth_without_moisture readingNoMoisture None _ _
             eq_refl eq_refl eq_refl).
  repeat split.
Qed.

(** With a finite moisture, the other inputs finite or absent, and a
    profile of the crop table, the score is a number within [0, 100]. *)
Lemma predictYieldHealth_range (data : Reading.t) (crop : option Crop.t)
    (soil : Soil.t) (weather : Weather.t) (m mn mx w d : R) :
  Reading.soil data = Some soil ->
  Reading.weather data = Some weather ->
  Soil.moisture soil = Some (Fin m) ->
  finiteField (Soil.nitrogen soil) ->
  finiteField (Soil.phosphorus soil) ->
  finiteField (Soil.potassium soil) ->
  finiteField (Soil.ph soil) ->
  finiteField (Weather.temperature weather) ->
  finiteField (Weather.solarRadiation weather) ->
  resolveConfig (resolveCropType data crop) = Config.make mn mx w d ->
  exists score : R,
    predictYieldHealth (Some data) crop = Fin score /\ (0 <= score <= 100)%R.
Proof.
  intros Hsoil Hweather Hm HN HP HK Hph HT HS Hcfg.
  destruct (resolved_profile _ _ _ _ _ Hcfg) as (Hmn & Hmx & _).
  unfold predictYieldHealth. rewrite Hsoil, Hweather, Hm, Hcfg.
  cbn [Config.make Config.min Config.max Num.ofField].
  destruct (orElse_finite _ 0 HN) as (n & ->).
  destruct (orElse_finite _ 0 HP) as (p & ->).
  destruct (orElse_finite _ 0 HK) as (k & ->).
  destruct (closeness_score 80 80 n ltac:(lra)) as (sn & -> & _).
  destruct (closeness_score 45 45 p ltac:(lra)) as (sp & -> & _).
  destruct (closeness_score 50 50 k ltac:(lra)) as (sk & -> & _).
  destruct (moistureScoreOf_finite m mn mx Hmn ltac:(lra)) as (sm & ->).
  assert (Hphs : exists s : R,
    (if Num.truthyField (Soil.ph soil)
     then Math.max 0 (Math.min 1 (1 - Math.abs (6.5 - Num.ofField (Soil.ph soil)) / 3))
     else Fin 0.7) = Fin s).
  { destruct Hph as [->|(x & ->)]; [now exists 0.7%R|].
    cbn [Num.truthyField Num.ofField].
    destruct (Num.truthy (Fin x)); [|now exists 0.7%R].
    destruct (closeness_score 6.5 3 x ltac:(lra)) as (s & -> & _). now exists s. }
  destruct Hphs as (sph & ->).
  assert (Hts : exists s : R,
    (if Num.truthyField (Weather.temperature weather)
     then Math.max 0
            (Math.min 1
               (1 - Math.abs (25 - Num.ofField (Weather.temperature weather)) / 15))
     else Fin 0.7) = Fin s).
  { destruct HT as [->|(x & ->)]; [now exists 0.7%R|].
    cbn [Num.truthyField Num.ofField].
    destruct (Num.truthy (Fin x)); [|now exists 0.7%R].
    destruct (closeness_score 25 15 x ltac:(lra)) as (s & -> & _). now exists s. }
  destruct Hts as (st & ->).
  assert (Hss : exists s : R,
    (if Num.truthyField (Weather.solarRadiation weather)
     then Math.min 1 (Num.ofField (Weather.solarRadiation weather) / 600)
     else Fin 0.6) = Fin s).
  { destruct HS as [->|(x & ->)]; [now exists 0.6%R|].
    cbn [Num.truthyField Num.ofField].
    destruct (Num.truthy (Fin x)); [|now exists 0.6%R].
    rewrite div_Fin by lra. rewrite min_Fin. eexists; reflexivity. }
  destruct Hss as (ss & ->).
  rewrite !mul_Fin, !add_Fin, mul_Fin, round_Fin, min_Fin, max_Fin.
  eexists; split; [reflexivity|].
  split; [apply Rmax_l|]. apply Rmax_lub; [lra|apply Rmin_l].
Qed.

(** * Further properties of the engine *)

(** ** Anomaly detection: edge cases and the shape of the result *)

(** X1.  Without enough history nothing is reported: the result is empty
    when the history is absent or has fewer than 5 records, whatever the
    current reading shows, and when the current reading has no soil
    block. *)
Theorem detectAnomalies_needs_history
    (clk : Clock.t) (history : option (list Reading.t))
    (currentData : option Reading.t) (crop : option Crop.t) :
  ((List.length (recordsOf history) < 5)%nat ->
   detectAnomalies clk history currentData crop = [])
  /\ (Reading.soil (latestReading (recordsOf history) currentData) = None ->
      detectAnomalies clk history currentData crop = []).
Proof.
  rewrite detectAnomalies_unfold. cbv zeta. split.
  - intros Hlen. apply Nat.ltb_lt in Hlen. now rewrite Hlen.
  - intros Hsoil. rewrite Hsoil. now destruct (_ <? _)%nat.
Qed.

Lemma detectAnomalies_needs_history_witness :
  detectAnomalies noon (Some (wheatHistory 5 4)) (Some (wheatReading 5)) None = []
  /\ detectAnomalies noon (Some (wheatHistory 5 10)) (Some Reading.empty) None = [].
Proof.
  split.
  - destruct (detectAnomalies_needs_history noon (Some (wheatHistory 5 4))
                (Some (wheatReading 5)) None) as [Hshort _].
    apply Hshort.
    change (List.length (repeat (wheatReading 5) 4) < 5)%nat.
    rewrite repeat_length. lia.
  - destruct (detectAnomalies_needs_history noon (Some (wheatHistory 5 10))
                (Some Reading.empty) None) as [_ Hsoil].
    apply Hsoil. reflexivity.
Defined.

Lemma filter_countAbove (limit : num) (records : list Reading.t) :
  List.length (filter (fun r => Num.ofField (soilMoisture r) >? limit) records)
  = countAbove limit records.
Proof.
  induction records as [|r rest IH]; [reflexivity|].
  simpl. destruct (Num.ofField (soilMoisture r) >? limit); simpl; now rewrite IH.
Qed.

Lemma countAbove_le (limit : num) (records : list Reading.t) :
  (countAbove limit records <= List.length records)%nat.
Proof.
  rewrite <- filter_countAbove. apply filter_length_le.
Qed.

Lemma overIrrigationCheck_spec (clk : Clock.t) (recent : list Reading.t)
    (latest : Reading.t) (moisture max : num) :
  overIrrigationCheck clk recent latest moisture max =
    if (moisture >? max * 1.15) && (3 <=? countAbove (max * 1.1%R)%num recent)%nat
    then [ mkAnomaly clk latest "Over-Irrigation"
             (if moisture >? max * 1.3 then "High" else "Medium")
             (OverIrrigationMessage moisture)
             (Math.min 90 (60 + (moisture - max) * 1.5)) ]
    else [].
Proof. unfold overIrrigationCheck. now rewrite filter_countAbove. Qed.

(** An "Over-Irrigation" anomaly can only come from its own check. *)
Lemma over_irrigation_from_check (clk : Clock.t) (history : option (list Reading.t))
    (currentData : option Reading.t) (crop : option Crop.t) (a : Anomaly.t) :
  let records := recordsOf history in
  let latest := latestReading records currentData in
  let moisture := Num.ofField (soilMoisture latest) in
  let max := Num.ofField (Config.max (resolveConfig (resolveCropType latest crop))) in
  In a (detectAnomalies clk history currentData crop) ->
  Anomaly.type a = "Over-Irrigation" ->
  In a (overIrrigationCheck clk (lastRecords 10 records) latest moisture max).
Proof.
  cbv zeta. rewrite detectAnomalies_unfold. cbv zeta.
  destruct (List.length (recordsOf history) <? 5)%nat; [contradiction|].
  destruct (Reading.soil _); [|contradiction].
  rewrite !in_app_iff. intros [Hin|[Hin|[Hin|Hin]]] Htype.
  - apply leakCheck_type in Hin. congruence.
  - rewrite dryStressCheck_spec in Hin.
    destruct (_ && _); [|contradiction].
    destruct Hin as [<-|[]]. discriminate.
  - exact Hin.
  - apply abnormalPatternCheck_type in Hin. congruence.
Qed.

(** In the model, whose products are exact: an "Over-Irrigation" anomaly is
    returned exactly when the current moisture is above 1.15 max and at
    least 3 of the last 10 history records are above 1.1 max. *)
Lemma over_irrigation_model
    (clk : Clock.t) (history : option (list Reading.t))
    (currentData : option Reading.t) (crop : option Crop.t) :
  let records := recordsOf history in
  let latest := latestReading records currentData in
  let moisture := Num.ofField (soilMoisture latest) in
  let max := Num.ofField (Config.max (resolveConfig (resolveCropType latest crop))) in
  let result := detectAnomalies clk history currentData crop in
  (hasType "Over-Irrigation" result
   <-> (moisture >? max * 1.15) = true
       /\ (3 <= countAbove (max * 1.1%R)%num (lastRecords 10 records))%nat
       /\ (5 <= List.length records)%nat)
  /\ (forall a,
        In a result -> Anomaly.type a = "Over-Irrigation" ->
        Anomaly.severity a = (if moisture >? max * 1.3 then "High" else "Medium")
        /\ (Anomaly.confidence a <=? 90) = true).
Proof.
  cbv zeta.
  set (records := recordsOf history).
  set (latest := latestReading records currentData).
  set (moisture := Num.ofField (soilMoisture latest)).
  set (max := Num.ofField (Config.max (resolveConfig (resolveCropType latest crop)))).
  split; [split|].
  - intros (a & Hin & Htype).
    pose proof Hin as Hin0.
    apply over_irrigation_from_check in Hin; [|exact Htype]. cbv zeta in Hin.
    fold records latest moisture max in Hin.
    rewrite overIrrigationCheck_spec in Hin.
    destruct (moisture >? max * 1.15); [|contradiction]. split; [reflexivity|].
    destruct (Nat.leb_spec 3 (countAbove (max * 1.1%R)%num (lastRecords 10 records)));
      [|contradiction].
    split; [assumption|].
    rewrite detectAnomalies_unfold in Hin0. cbv zeta in Hin0. fold records in Hin0.
    destruct (Nat.ltb_spec (List.length records) 5); [contradiction|assumption].
  - intros (Hm & Hcount & Hlen).
    exists (mkAnomaly clk latest "Over-Irrigation"
              (if moisture >? max * 1.3 then "High" else "Medium")
              (OverIrrigationMessage moisture)
              (Math.min 90 (60 + (moisture - max) * 1.5))).
    split; [|reflexivity].
    rewrite detectAnomalies_unfold. cbv zeta. fold records latest moisture max.
    destruct (Nat.ltb_spec (List.length records) 5) as [Hlt|_]; [lia|].
    unfold moisture, soilMoisture in Hm.
    destruct (Reading.soil latest) as [soil|] eqn:Hsoil;
      [|rewrite gtb_NaN_l in Hm; discriminate].
    rewrite !in_app_iff. right; right; left.
    rewrite overIrrigationCheck_spec.
    unfold moisture, soilMoisture. rewrite Hsoil, Hm.
    apply Nat.leb_le in Hcount. rewrite Hcount. simpl. left. reflexivity.
  - intros a Hin Htype.
    apply over_irrigation_from_check in Hin; [|exact Htype]. cbv zeta in Hin.
    fold records latest moisture max in Hin.
    rewrite overIrrigationCheck_spec in Hin.
    destruct (moisture >? max * 1.15) eqn:Hm; [|contradiction].
    destruct (3 <=? _)%nat; [|contradiction].
    destruct Hin as [<-|[]].
    unfold mkAnomaly. cbn [Anomaly.severity Anomaly.confidence].
    split; [reflexivity|].
    revert Hm. unfold max.
    destruct (resolveConfig_shape (resolveCropType latest crop))
      as [->|(mn & mx & w & d & ->)]; simpl Num.ofField.
    + rewrite mul_NaN_l. unfold Num.gtb. rewrite ltb_NaN_l. discriminate.
    + destruct moisture as [| | |m]; try discriminate; intros _.
      * change (PInf - Fin mx) with PInf. change (PInf * 1.5) with (Num.scaleInf PInf 1.5).
        rewrite (scaleInf_pos PInf 1.5) by lra.
        change (Math.min 90 (60 + PInf)) with (Fin 90). apply leb_Fin. lra.
      * rewrite sub_Fin, mul_Fin, add_Fin, min_Fin. apply leb_Fin, Rmin_l.
Qed.

Lemma countAbove_antitone (l1 l2 : R) (records : list Reading.t) :
  (l1 <= l2)%R ->
  (countAbove (Fin l2) records <= countAbove (Fin l1) records)%nat.
Proof.
  intros Hle. induction records as [|r rest IH]; [apply Nat.le_refl|].
  cbn [countAbove].
  assert (Hstep : ((if Num.ofField (soilMoisture r) >? Fin l2 then 1 else 0)
                   <= (if Num.ofField (soilMoisture r) >? Fin l1 then 1 else 0))%nat).
  { destruct (Num.ofField (soilMoisture r)) as [| | |a].
    - apply Nat.le_refl.
    - apply Nat.le_refl.
    - apply Nat.le_refl.
    - destruct (Fin a >? Fin l2) eqn:H2; [|apply Nat.le_0_l].
      apply gtb_Fin in H2.
      assert (H1 : (Fin a >? Fin l1) = true) by (apply gtb_Fin; lra).
      rewrite H1. apply Nat.le_refl. }
  lia.
Qed.

(** X2.  For a numeric moisture and a profile of the crop table: an
    "Over-Irrigation" anomaly is returned when the history has at least 5
    records, the current moisture is above 1.15 max and at least 3 of the
    last 10 history records are above 1.1 max, and only then; it is "High"
    above 1.3 max and "Medium" below; its confidence never exceeds 90.  The
    three limits are products the program rounds: each condition is stated
    with a margin of one part in 10^9 on the side it is used, so a moisture
    within that distance of a limit is left undecided. *)
Theorem over_irrigation_exactly_when
    (clk : Clock.t) (history : option (list Reading.t))
    (currentData : option Reading.t) (crop : option Crop.t) (m mn mx w d : R) :
  let records := recordsOf history in
  let latest := latestReading records currentData in
  soilMoisture latest = Some (Fin m) ->
  resolveConfig (resolveCropType latest crop) = Config.make mn mx w d ->
  let result := detectAnomalies clk history currentData crop in
  ((1.15 * mx * (1 + slack) <= m)%R ->
   (3 <= countAbove (Fin (1.1 * mx * (1 + slack))) (lastRecords 10 records))%nat ->
   (5 <= List.length records)%nat ->
   hasType "Over-Irrigation" result)
  /\ (hasType "Over-Irrigation" result ->
      (1.15 * mx * (1 - slack) < m)%R
      /\ (3 <= countAbove (Fin (1.1 * mx * (1 - slack))) (lastRecords 10 records))%nat
      /\ (5 <= List.length records)%nat)
  /\ (forall a,
        In a result -> Anomaly.type a = "Over-Irrigation" ->
        ((1.3 * mx * (1 + slack) <= m)%R -> Anomaly.severity a = "High")
        /\ ((m <= 1.3 * mx * (1 - slack))%R -> Anomaly.severity a = "Medium")
        /\ (Anomaly.confidence a <=? 90) = true).
Proof.
  cbv zeta. intros Hm Hcfg.
  destruct (resolved_profile _ _ _ _ _ Hcfg) as (Hmn & Hmx & _).
  pose proof slack_pos as Hslack.
  assert (Hs1 : (slack < 1)%R) by (unfold slack; lra).
  destruct (over_irrigation_model clk history currentData crop) as (Hiff & Hsev).
  cbv zeta in Hiff, Hsev.
  rewrite Hm, Hcfg in Hiff, Hsev.
  cbn [Num.ofField Config.make Config.max] in Hiff, Hsev.
  rewrite !mul_Fin in Hiff, Hsev.
  split; [|split].
  - intros Hhigh Hcount Hlen. apply Hiff. split; [apply gtb_Fin; nra|].
    split; [|exact Hlen].
    eapply Nat.le_trans; [exact Hcount|].
    apply countAbove_antitone. nra.
  - intros Hex. apply Hiff in Hex. destruct Hex as (Hgt & Hcount & Hlen).
    apply gtb_Fin in Hgt.
    split; [nra|]. split; [|exact Hlen].
    eapply Nat.le_trans; [exact Hcount|].
    apply countAbove_antitone. nra.
  - intros a Hin Htype. destruct (Hsev a Hin Htype) as (Hs & Hc).
    split; [|split; [|exact Hc]].
    + intros Hhigh.
      assert (Hgt : (Fin m >? Fin (mx * 1.3)) = true) by (apply gtb_Fin; nra).
      now rewrite Hgt in Hs.
    + intros Hlow.
      assert (Hgt : (Fin m >? Fin (mx * 1.3)) = false) by (apply gtb_Fin_false; nra).
      now rewrite Hgt in Hs.
Qed.

Lemma over_irrigation_exactly_when_witness :
  hasType "Over-Irrigation"
    (detectAnomalies noon (Some wheatWetHistory) (Some (wheatReading 70)) None).
Proof.
  destruct (over_irrigation_exactly_when noon (Some wheatWetHistory)
              (Some (wheatReading 70)) None 70 30 50 35 30 eq_refl eq_refl)
    as (Hpresent & _).
  cbv zeta in Hpresent. apply Hpresent.
  - unfold slack. lra.
  - change (lastRecords 10 (recordsOf (Some wheatWetHistory)))
      with (repeat (wheatReading 70) 10).
    assert (Hgt : (Fin 70 >? Fin (1.1 * 50 * (1 + slack))) = true)
      by (apply gtb_Fin; unfold slack; lra).
    cbn [repeat countAbove wheatReading soilMoisture Reading.soil Soil.moisture
         Num.ofField].
    rewrite Hgt. simpl. lia.
  - change (5 <= List.length (repeat (wheatReading 70) 10))%nat.
    rewrite repeat_length. lia.
Defined.

Lemma sub_NaN_l (x : num) : NaN - x = NaN.
Proof. reflexivity. Qed.

Lemma sub_NaN_r (x : num) : x - NaN = NaN.
Proof. destruct x; reflexivity. Qed.

Lemma div_NaN_l (x : num) : NaN / x = NaN.
Proof. reflexivity. Qed.

Lemma div_NaN_r (x : num) : x / NaN = NaN.
Proof. destruct x; reflexivity. Qed.

Lemma ltb_not_NaN_l (x y : num) : (x <? y) = true -> x <> NaN.
Proof. intros H ->. discriminate. Qed.

Lemma ltb_not_NaN_r (x y : num) : (x <? y) = true -> y <> NaN.
Proof. intros H ->. rewrite ltb_NaN_r in H. discriminate. Qed.

(** A "Leak" anomaly can only come from the leak check. *)
Lemma leak_from_check (clk : Clock.t) (history : option (list Reading.t))
    (currentData : option Reading.t) (crop : option Crop.t) (a : Anomaly.t) :
  let records := recordsOf history in
  let latest := latestReading records currentData in
  In a (detectAnomalies clk history currentData crop) ->
  Anomaly.type a = "Leak" ->
  In a (leakCheck clk records latest (Num.ofField (soilMoisture latest))
          (resolveCropType latest crop)).
Proof.
  cbv zeta. rewrite detectAnomalies_unfold. cbv zeta.
  destruct (List.length (recordsOf history) <? 5)%nat; [contradiction|].
  destruct (Reading.soil _); [|contradiction].
  rewrite !in_app_iff. intros [Hin|[Hin|[Hin|Hin]]] Htype.
  - exact Hin.
  - rewrite dryStressCheck_spec in Hin.
    destruct (_ && _); [|contradiction].
    destruct Hin as [<-|[]]. discriminate.
  - apply overIrrigationCheck_type in Hin. destruct Hin. congruence.
  - apply abnormalPatternCheck_type in Hin. congruence.
Qed.

(** The confidence min(95, 70 + 2 |drop|) of a drop of more than 8. *)
Lemma leak_confidence (rate : num) :
  (rate <? Fin (-8)) = true ->
  let c := Math.min 95 (70 + Math.abs rate * 2) in
  (c >? 86) = true /\ (c <=? 95) = true.
Proof.
  destruct rate as [| | |r]; try discriminate; intros Hr; cbv zeta.
  - change (Math.abs NInf * 2) with (Num.scaleInf PInf 2).
    rewrite (scaleInf_pos PInf 2) by lra.
    change (Math.min 95 (70 + PInf)) with (Fin 95).
    split; [apply gtb_Fin|apply leb_Fin]; lra.
  - apply ltb_Fin in Hr.
    rewrite abs_Fin, mul_Fin, add_Fin, min_Fin.
    assert (Habs : Rabs r = (- r)%R) by (apply Rabs_left; lra).
    rewrite Habs. split; [apply gtb_Fin|apply leb_Fin].
    + apply Rmin_glb_lt; lra.
    + apply Rmin_l.
Qed.

Lemma gtb_geb (x : num) (b : R) : (x >? Fin b) = true -> (x >=? Fin b) = true.
Proof.
  destruct x as [| | |a]; try discriminate; try reflexivity.
  intros H. apply gtb_Fin in H. apply geb_Fin. lra.
Qed.

(** X3.  A "Leak" anomaly is reported only when the current reading and
    the second-to-last history record both have a timestamp, the
    evapotranspiration estimate of the current weather is a number, and the
    moisture dropped by more than 8 between the two records; its severity
    is "High" and its confidence lies within [86, 95].  The lower end is
    reached: the program rounds the sum of 70 and twice the drop, which for
    a drop just above 8 is 86. *)
Theorem leak_only_when
    (clk : Clock.t) (history : option (list Reading.t))
    (currentData : option Reading.t) (crop : option Crop.t) (a : Anomaly.t) :
  let records := recordsOf history in
  let latest := latestReading records currentData in
  let previous := nth (List.length records - 2) records Reading.empty in
  In a (detectAnomalies clk history currentData crop) ->
  Anomaly.type a = "Leak" ->
  Reading.timestamp latest <> None
  /\ Reading.timestamp previous <> None
  /\ calculateET (weatherOf latest) (resolveCropType latest crop) <> NaN
  /\ (Num.ofField (soilMoisture latest) - Num.ofField (soilMoisture previous)
      <? Fin (-8)) = true
  /\ Anomaly.severity a = "High"
  /\ (Anomaly.confidence a >=? 86) = true
  /\ (Anomaly.confidence a <=? 95) = true.
Proof.
  cbv zeta. intros Hin Htype.
  apply leak_from_check in Hin; [|exact Htype]. cbv zeta in Hin.
  unfold leakCheck in Hin. cbv zeta in Hin.
  set (records := recordsOf history) in *.
  set (latest := latestReading records currentData) in *.
  set (previous := nth (List.length records - 2) records Reading.empty) in *.
  set (rate := Num.ofField (soilMoisture latest) - Num.ofField (soilMoisture previous)) in *.
  set (timeDiff := (dateValue (Reading.timestamp latest)
                    - dateValue (Reading.timestamp previous)) / 3600000) in *.
  destruct (2 <=? List.length records)%nat; [|contradiction].
  destruct (rate <? Fin (-8)) eqn:Hrate; [|contradiction].
  destruct (timeDiff <? 2) eqn:Htime; [|contradiction].
  cbn [andb] in Hin.
  destruct (Math.abs rate >? _) eqn:Hexp; [|contradiction].
  destruct Hin as [<-|[]].
  unfold mkAnomaly. cbn [Anomaly.severity Anomaly.confidence].
  destruct (leak_confidence rate Hrate) as [Hc1 Hc2]. cbv zeta in Hc1, Hc2.
  apply gtb_geb in Hc1.
  repeat split; try assumption.
  - intros Hts. unfold timeDiff in Htime. rewrite Hts in Htime.
    cbn [dateValue] in Htime. rewrite sub_NaN_l, div_NaN_l in Htime. discriminate.
  - intros Hts. unfold timeDiff in Htime. rewrite Hts in Htime.
    cbn [dateValue] in Htime. rewrite sub_NaN_r, div_NaN_l in Htime. discriminate.
  - intros Het. rewrite Het in Hexp.
    change (Math.abs (NaN * (timeDiff / 24) / 10) * 2) with NaN in Hexp.
    unfold Num.gtb in Hexp. rewrite ltb_NaN_l in Hexp. discriminate.
Qed.

Lemma leak_only_when_witness :
  exists a,
    In a (detectAnomalies noon (Some leakHistory) None None)
    /\ Anomaly.type a = "Leak"
    /\ Anomaly.severity a = "High"
    /\ (Anomaly.confidence a <=? 95) = true.
Proof.
  assert (Hin : exists a,
    In a (detectAnomalies noon (Some leakHistory) None None)
    /\ Anomaly.type a = "Leak").
  { rewrite detectAnomalies_unfold. cbv zeta.
    change (List.length (recordsOf (Some leakHistory)) <? 5)%nat with false.
    cbv iota.
    change (latestReading (recordsOf (Some leakHistory)) None)
      with (wheatAt 30 14400000 (Some (finiteWeather 25 100 5 400 None None))).
    cbn [Reading.soil wheatAt wheatReading].
    eexists. rewrite in_app_iff. split.
    - left. unfold leakCheck. cbv zeta.
      change (2 <=? List.length (recordsOf (Some leakHistory)))%nat with true.
      cbv iota.
      change (nth (List.length (recordsOf (Some leakHistory)) - 2)
                (recordsOf (Some leakHistory)) Reading.empty)
        with (wheatAt 45 10800000 None).
      cbn [soilMoisture Reading.soil Reading.timestamp wheatAt wheatReading
           Soil.moisture Num.ofField dateValue weatherOf Reading.weather].
      unfold Num.ofZ. rewrite calculateET_finite by lra.
      rewrite etcDaily_saturated, (Rmax_left 0 0) by lra.
      rewrite !sub_Fin, div_Fin by lra.
      assert (H1 : (Fin (30 - 45) <? Fin (-8)) = true) by (apply ltb_Fin; lra).
      assert (H2 : (Fin ((14400000 - 10800000) / 3600000) <? 2) = true)
        by (apply ltb_Fin; lra).
      rewrite H1, H2. cbn [andb].
      rewrite (div_Fin _ 24) by lra. rewrite mul_Fin, (div_Fin _ 10) by lra.
      rewrite !abs_Fin, mul_Fin.
      assert (H3 : (Fin (Rabs (30 - 45))
                    >? Fin (Rabs (0 * ((14400000 - 10800000) / 3600000 / 24) / 10) * 2))
                   = true).
      { apply gtb_Fin.
        replace (0 * ((14400000 - 10800000) / 3600000 / 24) / 10)%R with 0%R by lra.
        rewrite Rabs_R0. rewrite Rabs_left by lra. lra. }
      rewrite H3. left. reflexivity.
    - reflexivity. }
  destruct Hin as (a & Hin & Htype).
  destruct (leak_only_when noon (Some leakHistory) None None a Hin Htype)
    as (_ & _ & _ & _ & Hsev & _ & Hconf).
  exists a. auto.
Defined.

(** Each check pushes nothing, or one anomaly of its own type. *)
Lemma leakCheck_shape (clk : Clock.t) (history : list Reading.t)
    (latest : Reading.t) (moisture : num) (cropType : string) :
  leakCheck clk history latest moisture cropType = []
  \/ exists severity message confidence,
       leakCheck clk history latest moisture cropType
       = [mkAnomaly clk latest "Leak" severity message confidence].
Proof.
  unfold leakCheck. cbv zeta.
  repeat match goal with
  | |- context [if ?c then _ else _] => destruct c
  end; try (now left); right; do 3 eexists; reflexivity.
Qed.

Lemma dryStressCheck_shape (clk : Clock.t) (recent : list Reading.t)
    (latest : Reading.t) (moisture min : num) :
  dryStressCheck clk recent latest moisture min = []
  \/ (moisture <? min * 0.8) = true
     /\ exists severity message confidence,
          dryStressCheck clk recent latest moisture min
          = [mkAnomaly clk latest "Dry Stress" severity message confidence].
Proof.
  rewrite dryStressCheck_spec.
  destruct (moisture <? min * 0.8); [|now left].
  destruct (5 <=? _)%nat; [|now left].
  right. split; [reflexivity|do 3 eexists; reflexivity].
Qed.

Lemma overIrrigationCheck_shape (clk : Clock.t) (recent : list Reading.t)
    (latest : Reading.t) (moisture max : num) :
  overIrrigationCheck clk recent latest moisture max = []
  \/ (moisture >? max * 1.15) = true
     /\ exists severity message confidence,
          overIrrigationCheck clk recent latest moisture max
          = [mkAnomaly clk latest "Over-Irrigation" severity message confidence].
Proof.
  rewrite overIrrigationCheck_spec.
  destruct (moisture >? max * 1.15); [|now left].
  destruct (3 <=? _)%nat; [|now left].
  right. split; [reflexivity|do 3 eexists; reflexivity].
Qed.

Lemma abnormalPatternCheck_shape (clk : Clock.t) (recent : list Reading.t)
    (latest : Reading.t) :
  abnormalPatternCheck clk recent latest = []
  \/ exists severity message confidence,
       abnormalPatternCheck clk recent latest
       = [mkAnomaly clk latest "Abnormal Pattern" severity message confidence].
Proof.
  unfold abnormalPatternCheck. cbv zeta.
  repeat match goal with
  | |- context [if ?c then _ else _] => destruct c
  end; try (now left); right; do 3 eexists; reflexivity.
Qed.

(** X4.  A call returns at most three anomalies, no two of the same type;
    each is of type "Leak", "Dry Stress", "Over-Irrigation" or "Abnormal
    Pattern", has the status "Active" and names the field of the current
    reading, "Field 1" when the reading names none. *)
Theorem anomalies_shape
    (clk : Clock.t) (history : option (list Reading.t))
    (currentData : option Reading.t) (crop : option Crop.t) :
  let latest := latestReading (recordsOf history) currentData in
  let result := detectAnomalies clk history currentData crop in
  (List.length result <= 3)%nat
  /\ NoDup (map Anomaly.type result)
  /\ Forall (fun a =>
               In (Anomaly.type a)
                  ["Leak"; "Dry Stress"; "Over-Irrigation"; "Abnormal Pattern"]
               /\ Anomaly.status a = "Active"
               /\ Anomaly.field a = strOr (Reading.field latest) "Field 1")
            result.
Proof.
  cbv zeta. rewrite detectAnomalies_unfold. cbv zeta.
  set (records := recordsOf history).
  set (latest := latestReading records currentData).
  set (cropType := resolveCropType latest crop).
  set (moisture := Num.ofField (soilMoisture latest)).
  destruct (List.length records <? 5)%nat;
    [split; [simpl; lia|split; constructor]|].
  destruct (Reading.soil latest);
    [|split; [simpl; lia|split; constructor]].
  destruct (leakCheck_shape clk records latest moisture cropType)
    as [->|(s1 & m1 & c1 & ->)];
  destruct (dryStressCheck_shape clk (lastRecords 10 records) latest moisture
              (Num.ofField (Config.min (resolveConfig cropType))))
    as [->|(Hdry & s2 & m2 & c2 & ->)];
  destruct (overIrrigationCheck_shape clk (lastRecords 10 records) latest moisture
              (Num.ofField (Config.max (resolveConfig cropType))))
    as [->|(Hover & s3 & m3 & c3 & ->)];
  destruct (abnormalPatternCheck_shape clk (lastRecords 10 records) latest)
    as [->|(s4 & m4 & c4 & ->)];
  try (exfalso; exact (triggers_exclusive cropType moisture Hdry Hover));
  (split; [simpl; lia|split;
     [simpl; repeat constructor; simpl; intuition discriminate
     |simpl; repeat constructor; simpl; tauto]]).
Qed.

(** ** Abnormal pattern: the variance threshold *)

Lemma fold_left_add_Fin (xs : list R) (a : R) :
  fold_left (fun x y => x + y) (map Fin xs) (Fin a) = Fin (a + sumR xs).
Proof.
  revert a. induction xs as [|x rest IH]; intros a; simpl.
  - f_equal. lra.
  - change (Fin a + Fin x) with (Fin (a + x)). rewrite IH. f_equal. lra.
Qed.

Lemma fold_left_squares_Fin (xs : list R) (mean a : R) :
  fold_left (fun acc v => acc + Math.pow (v - Fin mean) 2) (map Fin xs) (Fin a)
  = Fin (a + sumR (map (fun x => ((x - mean) * (x - mean))%R) xs)).
Proof.
  revert a. induction xs as [|x rest IH]; intros a; simpl.
  - f_equal. lra.
  - change (Fin a + Fin (x - mean) * (Fin (x - mean) * Fin 1))
      with (Fin (a + (x - mean) * ((x - mean) * 1))).
    rewrite IH. f_equal. lra.
Qed.

Lemma sumR_squares_nonneg (xs : list R) (mean : R) :
  (0 <= sumR (map (fun x => ((x - mean) * (x - mean))%R) xs))%R.
Proof.
  induction xs as [|x rest IH]; simpl; [lra|].
  pose proof (Rle_0_sqr (x - mean)) as Hsq. unfold Rsqr in Hsq. lra.
Qed.

Lemma varianceR_nonneg (xs : list R) : xs <> [] -> (0 <= varianceR xs)%R.
Proof.
  intros Hne. unfold varianceR. cbv zeta.
  apply Rmult_le_pos; [apply sumR_squares_nonneg|].
  apply Rlt_le, Rinv_0_lt_compat, lt_0_INR.
  destruct xs; [contradiction|simpl; lia].
Qed.

(** The moisture values that survive the [!= null] filter. *)
Lemma moistureValues_finite (records : list Reading.t) (xs : list R) :
  map soilMoisture records = map (fun x => Some (Fin x)) xs ->
  flat_map (fun r => match soilMoisture r with
                     | Some v => [v]
                     | None => []
                     end) records
  = map Fin xs.
Proof.
  revert xs. induction records as [|r rest IH]; intros [|x xs] Hmap;
    try discriminate; [reflexivity|].
  simpl in Hmap. injection Hmap as Hr Hrest.
  simpl. rewrite Hr. simpl. f_equal. now apply IH.
Qed.

(** The standard deviation exceeds 15 exactly when the variance exceeds
    225. *)
Lemma sqrt_gt_15 (v : R) : (0 <= v)%R -> (15 < sqrt v <-> 225 < v)%R.
Proof.
  intros Hv.
  assert (H15 : sqrt 225 = 15%R).
  { replace 225%R with (15 * 15)%R by lra. apply sqrt_square. lra. }
  rewrite <- H15. split.
  - apply sqrt_lt_0_alt.
  - intros Hlt. apply sqrt_lt_1_alt. lra.
Qed.

(** Over finite values the check computes the population variance. *)
Lemma abnormalPatternCheck_variance (clk : Clock.t) (recent : list Reading.t)
    (latest : Reading.t) (xs : list R) :
  (5 <= List.length recent)%nat ->
  map soilMoisture recent = map (fun x => Some (Fin x)) xs ->
  abnormalPatternCheck clk recent latest =
    if Fin (sqrt (varianceR xs)) >? 15
    then [ mkAnomaly clk latest "Abnormal Pattern" "Medium"
             (AbnormalPatternMessage (Fin (sqrt (varianceR xs))))
             (Math.min 85 (50 + Fin (sqrt (varianceR xs)) * 2)) ]
    else [].
Proof.
  intros Hlen Hmap. unfold abnormalPatternCheck. cbv zeta.
  apply Nat.leb_le in Hlen. rewrite Hlen.
  rewrite (moistureValues_finite recent xs Hmap).
  assert (Hn : List.length xs = List.length recent).
  { rewrite <- (length_map (fun x => Some (Fin x)) xs), <- Hmap. apply length_map. }
  apply Nat.leb_le in Hlen.
  assert (Hne : xs <> []) by (intros ->; simpl in Hn; lia).
  assert (HnR : INR (List.length xs) <> 0%R).
  { apply not_0_INR. lia. }
  unfold sum. rewrite fold_left_add_Fin, length_map. unfold Num.ofNat.
  rewrite div_Fin by assumption.
  rewrite fold_left_squares_Fin, div_Fin by assumption.
  assert (Hvar :
    ((0 + sumR (map (fun x => (x - (0 + sumR xs) / INR (List.length xs))
                              * (x - (0 + sumR xs) / INR (List.length xs))) xs))
     / INR (List.length xs))%R = varianceR xs).
  { unfold varianceR. cbv zeta. rewrite !Rplus_0_l. reflexivity. }
  rewrite Hvar.
  pose proof (varianceR_nonneg xs Hne) as Hpos.
  unfold Math.sqrt. destruct (Rlt_dec (varianceR xs) 0) as [Hneg|_]; [lra|].
  reflexivity.
Qed.

(** In the model, whose arithmetic is exact: when the last 10 history
    records all hold a finite moisture, an "Abnormal Pattern" anomaly is
    returned exactly when the population variance of these moistures
    exceeds 225. *)
Lemma abnormal_pattern_model
    (clk : Clock.t) (history : option (list Reading.t))
    (currentData : option Reading.t) (crop : option Crop.t) (xs : list R) :
  let records := recordsOf history in
  (5 <= List.length records)%nat ->
  Reading.soil (latestReading records currentData) <> None ->
  map soilMoisture (lastRecords 10 records) = map (fun x => Some (Fin x)) xs ->
  (hasType "Abnormal Pattern" (detectAnomalies clk history currentData crop)
   <-> (varianceR xs > 225)%R).
Proof.
  cbv zeta. intros Hlen Hsoil Hmap.
  set (records := recordsOf history) in *.
  set (latest := latestReading records currentData) in *.
  assert (Hrecent : (5 <= List.length (lastRecords 10 records))%nat).
  { unfold lastRecords. rewrite length_rev, length_firstn, length_rev. lia. }
  assert (Hne : xs <> []).
  { intros ->. destruct (lastRecords 10 records); [simpl in Hrecent; lia|discriminate]. }
  pose proof (varianceR_nonneg xs Hne) as Hpos.
  rewrite detectAnomalies_unfold. cbv zeta. fold records latest.
  destruct (Nat.ltb_spec (List.length records) 5) as [Hlt|_]; [lia|].
  destruct (Reading.soil latest) as [soil|]; [|contradiction].
  rewrite (abnormalPatternCheck_variance clk _ latest xs Hrecent Hmap).
  split.
  - intros (a & Hin & Htype).
    rewrite !in_app_iff in Hin. destruct Hin as [Hin|[Hin|[Hin|Hin]]].
    + apply leakCheck_type in Hin. congruence.
    + rewrite dryStressCheck_spec in Hin.
      destruct (_ && _); [|contradiction].
      destruct Hin as [<-|[]]. discriminate.
    + apply overIrrigationCheck_type in Hin. destruct Hin. congruence.
    + destruct (Fin (sqrt (varianceR xs)) >? 15) eqn:Hgt; [|contradiction].
      apply gtb_Fin in Hgt. now apply sqrt_gt_15.
  - intros Hvar.
    assert (Hgt : (Fin (sqrt (varianceR xs)) >? 15) = true).
    { apply gtb_Fin. apply sqrt_gt_15; lra. }
    rewrite Hgt. eexists. split.
    + rewrite !in_app_iff. right; right; right. left. reflexivity.
    + reflexivity.
Qed.

(** X5.  When the last 10 history records all hold a moisture within
    [0, 100], an "Abnormal Pattern" anomaly is returned when the population
    variance of these moistures is above 225, that is when their standard
    deviation is above 15, and only then.  The program rounds the mean, the
    squares and the square root: both directions are stated with a margin
    of one part in 10^9 around 225, and a variance within that distance is
    left undecided. *)
Theorem abnormal_pattern_by_variance
    (clk : Clock.t) (history : option (list Reading.t))
    (currentData : option Reading.t) (crop : option Crop.t) (xs : list R) :
  let records := recordsOf history in
  (5 <= List.length records)%nat ->
  Reading.soil (latestReading records currentData) <> None ->
  map soilMoisture (lastRecords 10 records) = map (fun x => Some (Fin x)) xs ->
  Forall (fun x => (0 <= x <= 100)%R) xs ->
  let result := detectAnomalies clk history currentData crop in
  ((225 * (1 + slack) <= varianceR xs)%R -> hasType "Abnormal Pattern" result)
  /\ (hasType "Abnormal Pattern" result -> (225 * (1 - slack) < varianceR xs)%R).
Proof.
  cbv zeta. intros Hlen Hsoil Hmap _.
  pose proof slack_pos as Hslack.
  pose proof (abnormal_pattern_model clk history currentData crop xs
                Hlen Hsoil Hmap) as Hiff.
  split.
  - intros Hvar. apply Hiff. lra.
  - intros Hex. apply Hiff in Hex. lra.
Qed.

Lemma abnormal_pattern_by_variance_witness :
  hasType "Abnormal Pattern"
    (detectAnomalies noon (Some swingingHistory) (Some (wheatReading 50)) None).
Proof.
  destruct (abnormal_pattern_by_variance noon (Some swingingHistory)
              (Some (wheatReading 50)) None [10; 50; 10; 50; 10; 50]%R)
    as (Hpresent & _).
  - simpl. lia.
  - discriminate.
  - reflexivity.
  - repeat constructor; lra.
  - apply Hpresent. unfold varianceR, slack. simpl. lra.
Defined.

(** ** Recommendation: the decision table *)

Lemma round1_zero : Math.round (Fin 0 * 10) / 10 = Fin 0.
Proof.
  change (Math.round (Fin 0 * 10) / 10) with (round1 (Fin 0)).
  rewrite (round1_Fin_eq 0 0) by lra. f_equal. lra.
Qed.

(** The recommendation for a finite moisture and a profile of the table,
    by the three comparisons the source makes. *)
Lemma generateRecommendation_bands
    (clk : Clock.t) (currentData : Reading.t) (crop : option Crop.t)
    (historicalData : list Reading.t) (soil : Soil.t) (m mn mx w d : R) :
  Reading.soil currentData = Some soil ->
  Soil.moisture soil = Some (Fin m) ->
  resolveConfig (resolveCropType currentData crop) = Config.make mn mx w d ->
  let r := generateRecommendation clk (Some currentData) crop historicalData in
  ((mx * 1.1 < m)%R /\ Recommendation.action r = "Stop"
   /\ Recommendation.amount r = Some (Fin 0)
   /\ Recommendation.duration r = Some (Fin 0))
  \/ ((m < mn)%R /\ Recommendation.action r = "Delay"
      /\ Recommendation.amount r = Some (Fin 0)
      /\ Recommendation.duration r = Some (Fin 0))
  \/ ((m < mn)%R /\ Recommendation.action r = "Irrigate")
  \/ ((mn <= m < (mn + mx) / 2)%R /\ Recommendation.action r = "Monitor"
      /\ Recommendation.amount r = Some (Fin 0)
      /\ Recommendation.duration r = Some (Fin 0))
  \/ (((mn + mx) / 2 <= m <= mx * 1.1)%R /\ Recommendation.action r = "Maintain"
      /\ Recommendation.amount r = Some (Fin 0)
      /\ Recommendation.duration r = Some (Fin 0)).
Proof.
  intros Hsoil Hm Hcfg.
  destruct (resolved_profile _ _ _ _ _ Hcfg) as (Hmn & Hmx & _).
  cbv zeta. unfold generateRecommendation. rewrite Hsoil, Hm, Hcfg.
  cbn [Config.make Config.min Config.max Config.waterPerIrrigation
       Config.rootDepth Num.ofField].
  rewrite !mul_Fin, !add_Fin, (div_Fin (mn + mx) 2) by lra.
  destruct (Fin m >? Fin (mx * 1.1)) eqn:Habove.
  { apply gtb_Fin in Habove. left. repeat split; assumption. }
  apply gtb_Fin_false in Habove.
  destruct (Fin m <? Fin mn) eqn:Hbelow.
  { apply ltb_Fin in Hbelow.
    destruct (_ && _ && _).
    - right; left. cbn [d_action d_amount d_duration Recommendation.action Recommendation.amount
           Recommendation.duration]. rewrite round1_zero. repeat split; assumption.
    - right; right; left. split; [assumption|reflexivity]. }
  apply ltb_Fin_false in Hbelow.
  destruct (Fin m <? Fin ((mn + mx) / 2)) eqn:Hmid.
  - apply ltb_Fin in Hmid. right; right; right; left.
    cbn [d_action d_amount d_duration Recommendation.action Recommendation.amount
           Recommendation.duration]. rewrite round1_zero. repeat split; assumption.
  - apply ltb_Fin_false in Hmid. right; right; right; right.
    cbn [d_action d_amount d_duration Recommendation.action Recommendation.amount
           Recommendation.duration]. rewrite round1_zero. repeat split; assumption.
Qed.

(** X6.  For a numeric moisture and a profile of the crop table the action
    is decided by the moisture band: "Irrigate" or "Delay" below min,
    "Monitor" from min up to the middle of the range, "Maintain" from the
    middle up to 1.1 max and "Stop" above 1.1 max.  The last limit is a
    product the program rounds: the property decides every moisture that is
    not within one part in 10^9 of 1.1 max, and leaves "Maintain" or "Stop"
    to the moistures in between.  Water is recommended only by "Irrigate":
    every other action comes with amount 0 and duration 0. *)
Theorem action_by_moisture_band
    (clk : Clock.t) (currentData : Reading.t) (crop : option Crop.t)
    (historicalData : list Reading.t) (soil : Soil.t) (m mn mx w d : R) :
  Reading.soil currentData = Some soil ->
  Soil.moisture soil = Some (Fin m) ->
  resolveConfig (resolveCropType currentData crop) = Config.make mn mx w d ->
  let r := generateRecommendation clk (Some currentData) crop historicalData in
  let action := Recommendation.action r in
  ((1.1 * mx * (1 + slack) <= m)%R -> action = "Stop")
  /\ (action = "Stop" -> (1.1 * mx * (1 - slack) < m)%R)
  /\ (action = "Irrigate" \/ action = "Delay" <-> (m < mn)%R)
  /\ (action = "Monitor" <-> (mn <= m < (mn + mx) / 2)%R)
  /\ (((mn + mx) / 2 <= m <= 1.1 * mx * (1 - slack))%R -> action = "Maintain")
  /\ (action = "Maintain" -> ((mn + mx) / 2 <= m < 1.1 * mx * (1 + slack))%R)
  /\ (action <> "Irrigate" ->
      Recommendation.amount r = Some (Fin 0)
      /\ Recommendation.duration r = Some (Fin 0)).
Proof.
  intros Hsoil Hm Hcfg.
  destruct (resolved_profile _ _ _ _ _ Hcfg) as (Hmn & Hmx & _).
  pose proof slack_pos as Hslack.
  assert (Hs1 : (slack < 1)%R) by (unfold slack; lra).
  assert (Hlo : (1.1 * mx * (1 - slack) < 1.1 * mx)%R) by nra.
  assert (Hhi : (1.1 * mx < 1.1 * mx * (1 + slack))%R) by nra.
  pose proof (generateRecommendation_bands clk currentData crop historicalData
                soil m mn mx w d Hsoil Hm Hcfg) as Hbands.
  cbv zeta in *.
  destruct Hbands as [(Hb & -> & Ha & Hd)|[(Hb & -> & Ha & Hd)|[(Hb & ->)
                     |[(Hb & -> & Ha & Hd)|(Hb & -> & Ha & Hd)]]]];
    repeat split; intros; try discriminate; try lra; try tauto; try assumption;
    try (exfalso; lra); try congruence;
    try match goal with
        | H : _ \/ _ |- _ => destruct H; discriminate
        end.
Qed.

Lemma action_by_moisture_band_witness :
  Recommendation.action (generateRecommendation noon (Some (wheatReading 35)) None [])
  = "Monitor"
  /\ Recommendation.amount (generateRecommendation noon (Some (wheatReading 35)) None [])
     = Some (Fin 0).
Proof.
  destruct (action_by_moisture_band noon (wheatReading 35) None [] _ 35 30 50 35 30
              eq_refl eq_refl eq_refl) as (_ & _ & _ & Hmon & _ & _ & Hzero).
  cbv zeta in Hmon, Hzero.
  assert (Hact : Recommendation.action
                   (generateRecommendation noon (Some (wheatReading 35)) None [])
                 = "Monitor") by (apply Hmon; lra).
  split; [exact Hact|].
  apply Hzero. rewrite Hact. discriminate.
Defined.

(** ** Recommendation: delaying for rain *)

(** X7.  Below min, with a forecast of rain in [h] hours at a chance [c]:
    the action is "Delay" exactly when h < 6, c > 50 and h is not 0, and
    "Irrigate" otherwise; a forecast of rain within the current hour (h = 0)
    never delays.  A delay recommends no water, has priority "Low" and is
    to be checked again after the ceiling of h + 2 hours (null when
    h = -2). *)
Theorem delay_for_rain
    (clk : Clock.t) (currentData : Reading.t) (crop : option Crop.t)
    (historicalData : list Reading.t) (soil : Soil.t) (weather : Weather.t)
    (f : Forecast.t) (m mn mx w d h c : R) :
  Reading.soil currentData = Some soil ->
  Soil.moisture soil = Some (Fin m) ->
  resolveConfig (resolveCropType currentData crop) = Config.make mn mx w d ->
  (m < mn)%R ->
  Reading.weather currentData = Some weather ->
  Weather.forecast weather = Some f ->
  Forecast.nextRainHours f = Some (Fin h) ->
  Weather.chanceOfRain weather = Some (Fin c) ->
  let r := generateRecommendation clk (Some currentData) crop historicalData in
  (Recommendation.action r = "Delay" <-> (h <> 0 /\ h < 6 /\ c > 50)%R)
  /\ (Recommendation.action r = "Irrigate" <-> ~ (h <> 0 /\ h < 6 /\ c > 50)%R)
  /\ (Recommendation.action r = "Delay" ->
      Recommendation.amount r = Some (Fin 0)
      /\ Recommendation.priority r = Some "Low"
      /\ (h <> (-2)%R ->
          Recommendation.hoursUntilNext r = Some (Some (Fin (IZR (Zceil (h + 2))))))
      /\ (h = (-2)%R -> Recommendation.hoursUntilNext r = Some None)).
Proof.
  intros Hsoil Hm Hcfg Hlt Hweather Hf Hh Hc.
  destruct (resolved_profile _ _ _ _ _ Hcfg) as (Hmn & Hmx & _).
  cbv zeta. unfold generateRecommendation, weatherOf.
  rewrite Hsoil, Hm, Hweather, Hcfg, Hf, Hh, Hc.
  cbn [Config.make Config.min Config.max Config.waterPerIrrigation
       Config.rootDepth Num.ofField Num.truthyField].
  assert (Habove : (Fin m >? Fin mx * 1.1) = false) by (apply gtb_Fin_false; lra).
  assert (Hbelow : (Fin m <? Fin mn) = true) by (apply ltb_Fin; lra).
  rewrite Habove, Hbelow.
  assert (Hchance : (Num.orElse (Some (Fin c)) 0 >? 50) = true <-> (c > 50)%R).
  { unfold Num.orElse. destruct (Num.truthy (Fin c)) eqn:Ht.
    - apply gtb_Fin.
    - assert (c = 0%R).
      { destruct (Req_dec_T c 0) as [E|E]; [exact E|].
        apply truthy_Fin in E. congruence. }
      subst c. split; [intros H0; apply gtb_Fin in H0; lra|lra]. }
  destruct (Num.truthy (Fin h)) eqn:Htruthy.
  - apply truthy_Fin in Htruthy.
    destruct (Fin h <? 6) eqn:H6.
    + apply ltb_Fin in H6.
      destruct (Num.orElse (Some (Fin c)) 0 >? 50) eqn:H50.
      * assert (Hc50 : (c > 50)%R) by (now apply Hchance).
        cbn [andb d_action d_amount d_duration d_hoursUntilNext
             Recommendation.action Recommendation.amount Recommendation.priority
             Recommendation.hoursUntilNext].
        rewrite round1_zero, add_Fin.
        split; [tauto|]. split; [split; [discriminate|tauto]|].
        intros _. split; [reflexivity|]. split; [reflexivity|]. split.
        -- intros Hne. assert (Ht2 : Num.truthy (Fin (h + 2)) = true)
             by (apply truthy_Fin; lra).
           rewrite Ht2. reflexivity.
        -- intros ->. replace (-2 + 2)%R with 0%R by lra.
           rewrite truthy_zero. reflexivity.
      * assert (Hc50 : ~ (c > 50)%R).
        { intros Hgt. apply Hchance in Hgt. congruence. }
        cbn [andb d_action Recommendation.action].
        split; [split; [discriminate|tauto]|].
        split; [tauto|discriminate].
    + apply ltb_Fin_false in H6.
      cbn [andb d_action Recommendation.action].
      split; [split; [discriminate|lra]|].
      split; [split; [lra|reflexivity]|discriminate].
  - assert (h = 0%R).
    { destruct (Req_dec_T h 0) as [E|E]; [exact E|].
      apply truthy_Fin in E. congruence. }
    cbn [andb d_action Recommendation.action].
    split; [split; [discriminate|tauto]|].
    split; [tauto|discriminate].
Qed.

Lemma delay_for_rain_witness :
  Recommendation.action
    (generateRecommendation noon (Some (wheatUnderRain 3 80)) None []) = "Delay"
  /\ Recommendation.hoursUntilNext
       (generateRecommendation noon (Some (wheatUnderRain 3 80)) None [])
     = Some (Some (Fin (IZR (Zceil (3 + 2)))))
  /\ Recommendation.action
       (generateRecommendation noon (Some (wheatUnderRain 0 100)) None [])
     = "Irrigate".
Proof.
  destruct (delay_for_rain noon (wheatUnderRain 3 80) None [] _ _ _
              18 30 50 35 30 3 80
              eq_refl eq_refl eq_refl ltac:(lra) eq_refl eq_refl eq_refl eq_refl)
    as (Hdelay & _ & Hdetails).
  destruct (delay_for_rain noon (wheatUnderRain 0 100) None [] _ _ _
              18 30 50 35 30 0 100
              eq_refl eq_refl eq_refl ltac:(lra) eq_refl eq_refl eq_refl eq_refl)
    as (_ & Hirrigate & _).
  cbv zeta in *.
  assert (Hact : Recommendation.action
                   (generateRecommendation noon (Some (wheatUnderRain 3 80)) None [])
                 = "Delay") by (apply Hdelay; lra).
  split; [exact Hact|]. split.
  - apply (Hdetails Hact). lra.
  - apply Hirrigate. lra.
Defined.

(** ** Evapotranspiration: missing inputs and the crop coefficient *)

(** X8.  The estimate does not depend on the crop: no entry of the crop
    table carries a [kc], so the coefficient is 0.8 for every crop type. *)
Theorem calculateET_ignores_crop (weather : Weather.t) (cropType1 cropType2 : string) :
  calculateET weather cropType1 = calculateET weather cropType2.
Proof.
  unfold calculateET. now rewrite !cropCoefficient_default.
Qed.

Lemma max_NaN_r (x : num) : Math.max x NaN = NaN.
Proof. destruct x; reflexivity. Qed.

Lemma exp_NaN : Math.exp NaN = NaN.
Proof. reflexivity. Qed.

(** Propagates a NaN operand through the arithmetic of a goal. *)
Ltac propagate_NaN :=
  repeat first
    [ rewrite mul_NaN_r | rewrite mul_NaN_l | rewrite add_NaN_r | rewrite add_NaN_l
    | rewrite sub_NaN_r | rewrite sub_NaN_l | rewrite div_NaN_r | rewrite div_NaN_l
    | rewrite exp_NaN | rewrite max_NaN_r ].

(** X9.  When the weather block lacks the temperature, the humidity, the
    wind speed or the solar radiation, the estimate is NaN, whatever the
    other fields hold; and in saturated air (humidity 100) it is 0 for
    every weather of moderate size: a temperature above -237.3 and no value
    beyond 10^6, so that nothing overflows in the program. *)
Theorem calculateET_missing_input (weather : Weather.t) (cropType : string) :
  (Weather.temperature weather = None
   \/ Weather.humidity weather = None
   \/ Weather.windSpeed weather = None
   \/ Weather.solarRadiation weather = None ->
   calculateET weather cropType = NaN)
  /\ (forall (T W S : R) chance forecast,
        moderateWeather T 100 W S ->
        calculateET (finiteWeather T 100 W S chance forecast) cropType = Fin 0).
Proof.
  split.
  - unfold calculateET. rewrite cropCoefficient_default.
    intros [H|[H|[H|H]]]; rewrite H; cbn [Num.ofField]; propagate_NaN; reflexivity.
  - intros T W S chance forecast ((HT & _) & _).
    rewrite calculateET_finite by lra.
    rewrite etcDaily_saturated. f_equal. apply Rmax_left. lra.
Qed.

Lemma calculateET_missing_input_witness :
  calculateET Weather.empty "Wheat" = NaN
  /\ calculateET (finiteWeather 30 100 12 550 None None) "Rice" = Fin 0.
Proof.
  destruct (calculateET_missing_input Weather.empty "Wheat") as [Hnan _].
  destruct (calculateET_missing_input Weather.empty "Rice") as [_ Hzero].
  split.
  - apply Hnan. left. reflexivity.
  - apply Hzero. unfold moderateWeather.
    rewrite !Rabs_pos_eq by lra. lra.
Defined.

(** ** Hours until the next irrigation *)

(** X10.  At or above the target moisture the next irrigation is due in 24
    hours whatever the estimate; below the target it is due in 48 hours when
    nothing evaporates, the result is NaN when the estimate is NaN, it is
    within [1, 48] for every finite estimate, and it never grows when a
    positive estimate grows. *)
Theorem next_irrigation_time (current target : R) :
  ((target <= current)%R ->
   forall dailyET : num,
     calculateNextIrrigationTime current target dailyET = Fin 24)
  /\ ((current < target)%R ->
      calculateNextIrrigationTime current target 0 = Fin 48
      /\ calculateNextIrrigationTime current target NaN = NaN
      /\ forall e1 e2 : R,
           (0 < e1 <= e2)%R ->
           (calculateNextIrrigationTime current target e2
            <=? calculateNextIrrigationTime current target e1) = true)
  /\ (forall dailyET : R,
        exists h : R,
          calculateNextIrrigationTime current target dailyET = Fin h
          /\ (1 <= h <= 48)%R).
Proof.
  split; [|split].
  - intros Hle dailyET. unfold calculateNextIrrigationTime. rewrite sub_Fin.
    assert (H0 : (Fin (target - current) <=? 0) = true) by (apply leb_Fin; lra).
    now rewrite H0.
  - intros Hlt.
    assert (H0 : (Fin (target - current) <=? 0) = false)
      by (apply leb_Fin_false; lra).
    unfold calculateNextIrrigationTime. rewrite sub_Fin, H0.
    split; [|split].
    + rewrite (div_Fin 0 24), (div_Fin (0 / 24) 10) by lra.
      rewrite div_Fin_zero by lra. rewrite scaleInf_pos by lra.
      unfold Math.min, Math.max, Num.ltb, Num.Rltb. decide_cmp. reflexivity.
    + reflexivity.
    + intros e1 e2 [Hpos Hle].
      rewrite (div_Fin e1 24), (div_Fin e2 24) by lra.
      rewrite (div_Fin (e1 / 24) 10), (div_Fin (e2 / 24) 10) by lra.
      rewrite !div_Fin by lra. rewrite !min_Fin, !max_Fin.
      apply leb_Fin.
      assert (Hdiv : ((target - current) / (e2 / 24 / 10)
                      <= (target - current) / (e1 / 24 / 10))%R).
      { unfold Rdiv at 1 4. apply Rmult_le_compat_l; [lra|].
        apply Rinv_le_contravar; lra. }
      apply Rmax_lub; [apply Rmax_l|].
      eapply Rle_trans; [|apply Rmax_r].
      apply Rmin_glb; [apply Rmin_l|].
      eapply Rle_trans; [apply Rmin_r|exact Hdiv].
  - intros dailyET. apply calculateNextIrrigationTime_range.
Qed.

Lemma next_irrigation_time_witness :
  calculateNextIrrigationTime 55 50 NaN = Fin 24
  /\ calculateNextIrrigationTime 30 50 0 = Fin 48
  /\ (calculateNextIrrigationTime 30 50 6 <=? calculateNextIrrigationTime 30 50 3) = true.
Proof.
  destruct (next_irrigation_time 55 50) as (Hfull & _ & _).
  destruct (next_irrigation_time 30 50) as (_ & Hbelow & _).
  destruct (Hbelow ltac:(lra)) as (Hzero & _ & Hmono).
  split; [apply Hfull; lra|].
  split; [exact Hzero|].
  apply Hmono. lra.
Defined.

(** ** Water savings: bounds *)

Lemma round1_nonneg (x : R) :
  (0 <= x)%R -> exists y : R, round1 (Fin x) = Fin y /\ (0 <= y)%R.
Proof.
  intros Hx. unfold round1. rewrite mul_Fin, round_Fin, div_Fin by lra.
  eexists; split; [reflexivity|].
  assert (H0 : (0 <= Zfloor (x * 10 + / 2))%Z) by (apply Zfloor_lub; lra).
  apply IZR_le in H0. lra.
Qed.

(** A whole number of tenths is its own rounding. *)
Lemma round1_tenths (z : Z) : round1 (Fin (IZR z / 10)) = Fin (IZR z / 10).
Proof. apply round1_Fin_eq. lra. Qed.

(** Rounding to one decimal is monotone. *)
Lemma round1_monotone (x y : R) :
  (x <= y)%R ->
  exists x' y' : R, round1 (Fin x) = Fin x' /\ round1 (Fin y) = Fin y' /\ (x' <= y')%R.
Proof.
  intros Hxy. unfold round1. rewrite !mul_Fin, !round_Fin, !div_Fin by lra.
  do 2 eexists; split; [reflexivity|split; [reflexivity|]].
  assert (H0 : (Zfloor (x * 10 + / 2) <= Zfloor (y * 10 + / 2))%Z)
    by (apply Zfloor_le; lra).
  apply IZR_le in H0. lra.
Qed.

(** The amount an irrigation event is counted with: the recommended
    amount, or 35 when there is none or it is falsy. *)
Lemma orElse_35_nonneg (amount : option num) :
  plausibleAmount amount ->
  exists a : R, Num.orElse amount 35 = Fin a /\ (0 <= a)%R.
Proof.
  intros Hok. unfold Num.orElse. destruct amount as [x|]; [|exists 35%R; split; [reflexivity|lra]].
  destruct (Hok x eq_refl) as [->|(a & -> & Ha)].
  - exists 35%R; split; [reflexivity|lra].
  - destruct (Num.truthy (Fin a)); [exists a; auto|exists 35%R; split; [reflexivity|lra]].
Qed.

(** The result for a history whose first and last records are stamped. *)
Lemma calculateWaterSavings_bounds (records : list Reading.t)
    (currentRecommendation : option Recommendation.t) (first last : Z) :
  (7 <= List.length records)%nat ->
  Reading.timestamp (hd Reading.empty records) = Some first ->
  Reading.timestamp (List.last records Reading.empty) = Some last ->
  plausibleAmount (recommendedAmount currentRecommendation) ->
  let r := calculateWaterSavings (Some records) currentRecommendation in
  let days := Zceil ((IZR first - IZR last) / 86400000) in
  exists saved percentage optimized : R,
    WaterSavings.baseline r = Fin (40 * IZR days)
    /\ WaterSavings.saved r = Fin saved
    /\ WaterSavings.percentage r = Fin percentage
    /\ WaterSavings.optimized r = Fin optimized
    /\ (0 <= saved <= Rmax 0 (40 * IZR days))%R
    /\ (0 <= percentage <= 100)%R
    /\ (0 <= optimized)%R
    /\ ((days <= 0)%Z -> saved = 0%R /\ percentage = 0%R).
Proof.
  intros Hlen Hfirst Hlast Hamount. cbv zeta.
  rewrite calculateWaterSavings_long by assumption. cbv zeta.
  rewrite Hfirst, Hlast. cbn [dateValue]. unfold Num.ofZ.
  rewrite sub_Fin, div_Fin by lra. cbn [Math.ceil].
  set (days := Zceil ((IZR first - IZR last) / 86400000)).
  set (events := countDrops (firstn 168 records)).
  destruct (orElse_35_nonneg _ Hamount) as (a & Ha & Hapos).
  assert (Hamt :
    match currentRecommendation with
    | Some r =>
        match Recommendation.amount r with
        | Some x => if Num.truthy x then x else Fin 35
        | None => Fin 35
        end
    | None => Fin 35
    end = Fin a).
  { rewrite <- Ha. unfold recommendedAmount, Num.orElse.
    destruct currentRecommendation; reflexivity. }
  rewrite Hamt.
  unfold Num.ofNat. rewrite !mul_Fin, sub_Fin, max_Fin.
  cbn [WaterSavings.baseline WaterSavings.saved WaterSavings.percentage
       WaterSavings.optimized].
  pose proof (pos_INR events) as Hev.
  assert (Hopt : (0 <= INR events * a)%R) by (apply Rmult_le_pos; assumption).
  set (b := (40 * IZR days)%R).
  set (o := (INR events * a)%R) in *.
  assert (Hb : b = (IZR (400 * days) / 10)%R) by (unfold b; rewrite mult_IZR; lra).
  assert (Hs0 : (0 <= Rmax 0 (b - o) <= Rmax 0 b)%R).
  { unfold Rmax. destruct (Rle_dec 0 (b - o)), (Rle_dec 0 b); lra. }
  (* baseline *)
  assert (Hbase : round1 (Fin b) = Fin b) by (rewrite Hb; apply round1_tenths).
  (* saved *)
  destruct (round1_monotone 0 (Rmax 0 (b - o)) (proj1 Hs0)) as (z0 & s & Hz0 & Hs & Hzs).
  destruct (round1_monotone (Rmax 0 (b - o)) (Rmax 0 b) (proj2 Hs0))
    as (s' & mb & Hs' & Hmb & Hsmb).
  assert (Hzero : round1 (Fin 0) = Fin 0).
  { rewrite (round1_Fin_eq 0 0) by lra. f_equal. lra. }
  rewrite Hzero in Hz0. injection Hz0 as <-.
  rewrite Hs in Hs'. injection Hs' as <-.
  assert (Hmaxb : round1 (Fin (Rmax 0 b)) = Fin (Rmax 0 b)).
  { unfold Rmax. destruct (Rle_dec 0 b); [exact Hbase|exact Hzero]. }
  rewrite Hmaxb in Hmb. injection Hmb as <-.
  (* optimized *)
  destruct (round1_nonneg o Hopt) as (ro & Hro & Hropos).
  (* percentage *)
  assert (Hpct : exists p : R,
    round1 (if Fin b >? 0 then Fin (Rmax 0 (b - o)) / Fin b * 100 else 0) = Fin p
    /\ (0 <= p <= 100)%R /\ ((b <= 0)%R -> p = 0%R)).
  { destruct (Fin b >? 0) eqn:Hbpos.
    - apply gtb_Fin in Hbpos. rewrite div_Fin, mul_Fin by lra.
      assert (Hratio : (0 <= Rmax 0 (b - o) / b * 100 <= 100)%R).
      { rewrite (Rmax_right 0 b) in Hs0 by lra. destruct Hs0 as [H1 H2].
        split.
        - apply Rmult_le_pos; [|lra].
          apply Rmult_le_pos; [assumption|].
          apply Rlt_le, Rinv_0_lt_compat. assumption.
        - assert (Rmax 0 (b - o) / b <= 1)%R; [|lra].
          apply Rmult_le_reg_r with b; [assumption|].
          unfold Rdiv. rewrite Rmult_assoc, Rinv_l by lra. lra. }
      destruct (round1_between (Rmax 0 (b - o) / b * 100) 0 1000 ltac:(lra))
        as (p & Hp & _ & Hpb).
      exists p. split; [exact Hp|]. split; [lra|lra].
    - exists 0%R. split; [exact Hzero|]. split; lra. }
  destruct Hpct as (p & Hp & Hpb & Hpz).
  exists s, p, ro.
  rewrite Hbase, Hs, Hp, Hro.
  assert (Hdays : (days <= 0)%Z -> s = 0%R /\ p = 0%R).
  { intros Hd. assert (Hb0 : (b <= 0)%R).
    { unfold b. apply IZR_le in Hd. lra. }
    rewrite Rmax_left in Hsmb by assumption. split; [lra|now apply Hpz]. }
  repeat (split; [reflexivity || lra || assumption|]).
  exact Hdays.
Qed.

(** The clamp of the irrigation amount is NaN or lies between its
    bounds. *)
Lemma clamp_cases (lo hi : R) (x : num) :
  (0 <= lo <= hi)%R ->
  Math.max (Fin lo) (Math.min (Fin hi) x) = NaN
  \/ exists a : R, Math.max (Fin lo) (Math.min (Fin hi) x) = Fin a /\ (0 <= a)%R.
Proof.
  intros [Hlo Hhi]. destruct x as [| | |x].
  - left. reflexivity.
  - right. exists lo. split; [reflexivity|assumption].
  - right. exists (Rmax lo hi). split.
    + change (Math.min (Fin hi) PInf) with (Fin hi). apply max_Fin.
    + eapply Rle_trans; [exact Hlo|apply Rmax_l].
  - right. rewrite min_Fin, max_Fin. eexists; split; [reflexivity|].
    eapply Rle_trans; [exact Hlo|apply Rmax_l].
Qed.

(** Every recommendation carries no amount, NaN, or a non-negative
    amount. *)
Lemma generateRecommendation_amount
    (clk : Clock.t) (currentData : option Reading.t) (crop : option Crop.t)
    (historicalData : list Reading.t) :
  plausibleAmount
    (Recommendation.amount
       (generateRecommendation clk currentData crop historicalData)).
Proof.
  unfold plausibleAmount, generateRecommendation.
  destruct currentData as [cd|]; [|discriminate].
  destruct (Reading.soil cd) as [soil|]; [|discriminate].
  set (moisture := Num.ofField (Soil.moisture soil)).
  set (config := resolveConfig (resolveCropType cd crop)).
  destruct (moisture >? _).
  { intros x Hx. injection Hx as <-. right. exists 0%R. split; [reflexivity|lra]. }
  destruct (moisture <? Num.ofField (Config.min config)) eqn:Hbelow.
  - destruct (_ && _ && _).
    + cbn [d_amount Recommendation.amount]. rewrite round1_zero.
      intros x Hx. injection Hx as <-. right. exists 0%R. split; [reflexivity|lra].
    + cbn [d_amount Recommendation.amount].
      unfold config in *.
      destruct (resolveConfig_shape (resolveCropType cd crop))
        as [He|(mn & mx & w & d & Hcfg)].
      * rewrite He in Hbelow. simpl in Hbelow. rewrite ltb_NaN_r in Hbelow.
        discriminate.
      * destruct (resolved_profile _ _ _ _ _ Hcfg) as (_ & _ & _ & Hw & _).
        rewrite Hcfg.
        cbn [Config.make Config.waterPerIrrigation Num.ofField].
        rewrite !mul_Fin.
        match goal with
        | |- context [Math.max (Fin ?lo) (Math.min (Fin ?hi) ?x)] =>
            destruct (clamp_cases lo hi x ltac:(lra)) as [->|(a & -> & Ha)]
        end.
        -- intros x Hx. injection Hx as <-. left. reflexivity.
        -- intros x Hx. injection Hx as <-. right.
           destruct (round1_nonneg a Ha) as (y & Hy & Hypos).
           exists y. split; [exact Hy|assumption].
  - assert (Hzero : forall x, Some (Math.round (Fin 0 * 10) / 10) = Some x ->
                              x = NaN \/ exists a : R, x = Fin a /\ (0 <= a)%R).
    { rewrite round1_zero. intros x Hx. injection Hx as <-.
      right. exists 0%R. split; [reflexivity|lra]. }
    destruct (moisture <? (_ + _) / 2); exact Hzero.
Qed.

(** X11.  For a history of at least 7 records whose first and last records
    are stamped, and a recommendation that is absent or was produced by
    [generateRecommendation]: the baseline is 40 times the days from the
    last to the first record, rounded up; saved lies between 0 and the
    baseline (0 when the baseline is negative), the percentage between 0 and
    100, the optimized amount is not negative; and when the history lists
    the records oldest first, nothing is saved. *)
Theorem water_savings_bounds
    (records : list Reading.t) (currentRecommendation : option Recommendation.t)
    (first last : Z) :
  (7 <= List.length records)%nat ->
  Reading.timestamp (hd Reading.empty records) = Some first ->
  Reading.timestamp (List.last records Reading.empty) = Some last ->
  (currentRecommendation = None
   \/ exists clk currentData crop historicalData,
        currentRecommendation
        = Some (generateRecommendation clk currentData crop historicalData)) ->
  let r := calculateWaterSavings (Some records) currentRecommendation in
  let days := Zceil ((IZR first - IZR last) / 86400000) in
  exists saved percentage optimized : R,
    WaterSavings.baseline r = Fin (40 * IZR days)
    /\ WaterSavings.saved r = Fin saved
    /\ WaterSavings.percentage r = Fin percentage
    /\ WaterSavings.optimized r = Fin optimized
    /\ (0 <= saved <= Rmax 0 (40 * IZR days))%R
    /\ (0 <= percentage <= 100)%R
    /\ (0 <= optimized)%R
    /\ ((first <= last)%Z -> saved = 0%R /\ percentage = 0%R).
Proof.
  intros Hlen Hfirst Hlast Hrec.
  assert (Hamount : plausibleAmount (recommendedAmount currentRecommendation)).
  { destruct Hrec as [->|(clk & cd & crop & hist & ->)].
    - intros x Hx. discriminate.
    - apply generateRecommendation_amount. }
  destruct (calculateWaterSavings_bounds records currentRecommendation first last
              Hlen Hfirst Hlast Hamount)
    as (s & p & o & Hb & Hs & Hp & Ho & Hsb & Hpb & Hob & Hdays).
  cbv zeta. exists s, p, o.
  repeat (split; [assumption|]).
  intros Hle. apply Hdays.
  assert (Hz : (Zceil ((IZR first - IZR last) / 86400000) <= Zceil (IZR 0))%Z).
  { apply Zceil_le. apply IZR_le in Hle. simpl.
    assert ((IZR first - IZR last) / 86400000 <= 0)%R; [|lra].
    apply Rmult_le_reg_r with 86400000%R; [lra|].
    unfold Rdiv. rewrite Rmult_assoc, Rinv_l by lra. lra. }
  now rewrite Zceil_IZR in Hz.
Qed.

Lemma water_savings_bounds_witness :
  exists saved percentage : R,
    WaterSavings.saved (calculateWaterSavings (Some ascendingHistory) None) = Fin saved
    /\ WaterSavings.percentage (calculateWaterSavings (Some ascendingHistory) None)
       = Fin percentage
    /\ saved = 0%R /\ percentage = 0%R.
Proof.
  destruct (water_savings_bounds ascendingHistory None 0 21600000
              ltac:(simpl; lia) eq_refl eq_refl (or_introl eq_refl))
    as (s & p & o & _ & Hs & Hp & _ & _ & _ & _ & Hzero).
  exists s, p. cbv zeta in *.
  destruct (Hzero ltac:(lia)) as [-> ->]. auto.
Defined.

(** ** Yield health: a floor for complete readings *)

Lemma moistureScoreOf_bounds (m mn mx : R) :
  (0 < mn)%R -> (mn <= mx)%R ->
  exists s : R, moistureScoreOf m mn mx = Fin s /\ (0.2 <= s <= 1)%R.
Proof.
  intros Hmn Hmx. unfold moistureScoreOf.
  destruct (Fin m >=? Fin mn) eqn:Hge.
  - apply geb_Fin in Hge.
    destruct (Fin m <=? Fin mx) eqn:Hle.
    + exists 1%R. cbn [andb]. split; [f_equal; lra|lra].
    + apply leb_Fin_false in Hle. cbn [andb].
      assert (Hlt : (Fin m <? Fin mn) = false) by (apply ltb_Fin_false; lra).
      rewrite Hlt. fin_arith. eexists; split; [reflexivity|].
      split; [eapply Rle_trans; [|apply Rmax_l]; lra|].
      apply Rmax_lub; [lra|].
      assert (0 <= (m - mx) / (mx * 0.5))%R; [|lra].
      apply Rmult_le_pos; [lra|]. apply Rlt_le, Rinv_0_lt_compat. lra.
  - assert (Hm : (m < mn)%R).
    { unfold Num.geb in Hge. apply leb_Fin_false in Hge. exact Hge. }
    cbn [andb].
    assert (Hlt : (Fin m <? Fin mn) = true) by (apply ltb_Fin; lra).
    rewrite Hlt. rewrite div_Fin by lra. rewrite max_Fin.
    eexists; split; [reflexivity|].
    split; [apply Rmax_l|]. apply Rmax_lub; [lra|].
    apply Rmult_le_reg_r with mn; [assumption|].
    unfold Rdiv. rewrite Rmult_assoc, Rinv_l by lra. lra.
Qed.

(** A guarded closeness score, with its default for a falsy field. *)
Lemma guarded_closeness (target scale default : R) (v : option num) :
  scale <> 0%R -> (0 <= default <= 1)%R -> finiteField v ->
  exists s : R,
    (if Num.truthyField v
     then Math.max 0 (Math.min 1 (1 - Math.abs (Fin target - Num.ofField v) / Fin scale))
     else Fin default) = Fin s
    /\ (0 <= s <= 1)%R.
Proof.
  intros Hs Hd [->|(x & ->)]; [now exists default|].
  cbn [Num.truthyField Num.ofField].
  destruct (Num.truthy (Fin x)); [|now exists default].
  apply closeness_score. assumption.
Qed.

Lemma nutrient_score (target : R) (v : option num) :
  target <> 0%R -> finiteField v ->
  exists s : R,
    Math.max 0 (Math.min 1 (1 - Math.abs (Fin target - Num.orElse v 0) / Fin target))
    = Fin s
    /\ (0 <= s <= 1)%R.
Proof.
  intros Ht Hv. destruct (orElse_finite v 0 Hv) as (x & ->).
  now apply closeness_score.
Qed.

Lemma sun_score (v : option num) :
  nonNegativeField v ->
  exists s : R,
    (if Num.truthyField v then Math.min 1 (Num.ofField v / 600) else Fin 0.6) = Fin s
    /\ (0 <= s <= 1)%R.
Proof.
  intros [->|(x & -> & Hx)]; [exists 0.6%R; split; [reflexivity|lra]|].
  cbn [Num.truthyField Num.ofField].
  destruct (Num.truthy (Fin x)); [|exists 0.6%R; split; [reflexivity|lra]].
  rewrite div_Fin by lra. rewrite min_Fin. eexists; split; [reflexivity|].
  split; [|apply Rmin_l]. apply Rmin_glb; lra.
Qed.

(** X12.  For a reading with both blocks, a finite moisture, the other
    inputs finite or absent, a solar radiation that is not negative and a
    profile of the crop table, the score is a whole number between 7 and
    100: a score of 0 is returned only for a missing block. *)
Theorem yield_health_floor (data : Reading.t) (crop : option Crop.t)
    (soil : Soil.t) (weather : Weather.t) (m mn mx w d : R) :
  Reading.soil data = Some soil ->
  Reading.weather data = Some weather ->
  Soil.moisture soil = Some (Fin m) ->
  finiteField (Soil.nitrogen soil) ->
  finiteField (Soil.phosphorus soil) ->
  finiteField (Soil.potassium soil) ->
  finiteField (Soil.ph soil) ->
  finiteField (Weather.temperature weather) ->
  nonNegativeField (Weather.solarRadiation weather) ->
  resolveConfig (resolveCropType data crop) = Config.make mn mx w d ->
  exists score : Z,
    predictYieldHealth (Some data) crop = Fin (IZR score)
    /\ (7 <= score <= 100)%Z.
Proof.
  intros Hsoil Hweather Hm HN HP HK Hph HT HS Hcfg.
  destruct (resolved_profile _ _ _ _ _ Hcfg) as (Hmn & Hmx & _).
  unfold predictYieldHealth. rewrite Hsoil, Hweather, Hm, Hcfg.
  cbn [Config.make Config.min Config.max Num.ofField].
  destruct (nutrient_score 80 _ ltac:(lra) HN) as (sn & -> & Hsn).
  destruct (nutrient_score 45 _ ltac:(lra) HP) as (sp & -> & Hsp).
  destruct (nutrient_score 50 _ ltac:(lra) HK) as (sk & -> & Hsk).
  destruct (guarded_closeness 6.5 3 0.7 _ ltac:(lra) ltac:(lra) Hph) as (sph & -> & Hsph).
  destruct (guarded_closeness 25 15 0.7 _ ltac:(lra) ltac:(lra) HT) as (st & -> & Hst).
  destruct (moistureScoreOf_bounds m mn mx Hmn Hmx) as (sm & -> & Hsm).
  destruct (sun_score _ HS) as (ss & -> & Hss).
  rewrite !mul_Fin, !add_Fin, mul_Fin, round_Fin.
  set (F := ((sn * 0.15 + sp * 0.1 + sk * 0.1 + sph * 0.1 + sm * 0.35 + st * 0.1
              + ss * 0.1) * 100)%R).
  assert (HF : (7 <= F <= 100)%R) by (unfold F; lra).
  assert (Hlo : (7 <= Zfloor (F + / 2))%Z) by (apply Zfloor_lub; lra).
  assert (Hhi : (Zfloor (F + / 2) <= 100)%Z).
  { assert (E : Zfloor (IZR 100 + / 2) = 100%Z) by (apply Zfloor_eq; lra).
    assert (L : (Zfloor (F + / 2) <= Zfloor (IZR 100 + / 2))%Z)
      by (apply Zfloor_le; lra).
    lia. }
  exists (Zfloor (F + / 2)). split; [|lia].
  rewrite min_Fin, max_Fin. f_equal.
  apply IZR_le in Hlo, Hhi.
  rewrite Rmin_right by lra. rewrite Rmax_right by lra. reflexivity.
Qed.

Lemma yield_health_floor_witness :
  exists score : Z,
    predictYieldHealth (Some (idealReading "Wheat" 5)) None = Fin (IZR score)
    /\ (7 <= score <= 100)%Z.
Proof.
  apply (yield_health_floor (idealReading "Wheat" 5) None _ _ 5 30 50 35 30
           eq_refl eq_refl eq_refl).
  - right. eexists. reflexivity.
  - right. eexists. reflexivity.
  - right. eexists. reflexivity.
  - right. eexists. reflexivity.
  - right. eexists. reflexivity.
  - right. exists 600%R. split; [reflexivity|lra].
  - reflexivity.
Defined.

(** * ESP32 service *)

Lemma optionIs_true (o : option string) (s : string) :
  optionIs o s = true <-> o = Some s.
Proof.
  destruct o as [x|]; simpl.
  - rewrite String.eqb_eq. split; congruence.
  - split; discriminate.
Qed.

Lemma optionIs_false (o : option string) (s : string) :
  optionIs o s = false <-> o <> Some s.
Proof.
  rewrite <- optionIs_true. destruct (optionIs o s); split; congruence.
Qed.

Lemma filter_nonempty_existsb {A : Type} (p : A -> bool) (l : list A) :
  (0 <? List.length (filter p l))%nat = existsb p l.
Proof.
  induction l as [|x l IH]; [reflexivity|].
  simpl. destruct (p x); simpl; [reflexivity|exact IH].
Qed.

(** The fourth alternative of the critical filter asks for a critical
    severity, which the first alternative already accepts. *)
Lemma criticalFilter_criticalAlert (alerts : list Alert.t) :
  filter (fun a =>
            optionIs (Alert.severity a) "Critical"
            || optionIs (Alert.priority a) "Critical"
            || optionIs (Alert.type a) "Leak"
            || (optionIs (Alert.type a) "Dry Stress"
                && optionIs (Alert.severity a) "Critical")) alerts
  = filter criticalAlert alerts.
Proof.
  apply filter_ext. intros a. unfold criticalAlert.
  destruct (optionIs (Alert.severity a) "Critical"),
           (optionIs (Alert.priority a) "Critical"),
           (optionIs (Alert.type a) "Leak"),
           (optionIs (Alert.type a) "Dry Stress"); reflexivity.
Qed.

Lemma determineStateFromAlerts_eq (alerts : list Alert.t)
    (recommendation : option Recommendation.t) :
  determineStateFromAlerts alerts recommendation =
    if existsb criticalAlert alerts then "critical"
    else if existsb highAlert alerts
            || optionIs (priorityOf recommendation) "High" then "caution"
    else if optionIs (priorityOf recommendation) "Critical" then "critical"
    else if optionIs (priorityOf recommendation) "Medium"
            || optionIs (actionOf recommendation) "Irrigate" then "caution"
    else "normal".
Proof.
  unfold determineStateFromAlerts.
  rewrite criticalFilter_criticalAlert, !filter_nonempty_existsb.
  reflexivity.
Qed.

(** X13.  The state is always one of the three the device accepts.  It is
    "critical" exactly when some alert is critical (by severity, by priority
    or as a leak), or when no alert is high and the recommendation has the
    priority "Critical": one alert of high severity lowers a critical
    recommendation to "caution".  It is "normal" exactly when no alert is
    critical or high, the priority is none of "High", "Critical", "Medium",
    and the action is not "Irrigate". *)
Theorem esp32_state_cases (alerts : list Alert.t)
    (recommendation : option Recommendation.t) :
  let state := determineStateFromAlerts alerts recommendation in
  let priority := priorityOf recommendation in
  In state validStates
  /\ (state = "critical"
      <-> existsb criticalAlert alerts = true
          \/ (existsb highAlert alerts = false /\ priority = Some "Critical"))
  /\ (state = "normal"
      <-> existsb criticalAlert alerts = false
          /\ existsb highAlert alerts = false
          /\ priority <> Some "High"
          /\ priority <> Some "Critical"
          /\ priority <> Some "Medium"
          /\ actionOf recommendation <> Some "Irrigate").
Proof.
  cbv zeta. rewrite determineStateFromAlerts_eq.
  rewrite <- !optionIs_false, <- optionIs_true.
  destruct (existsb criticalAlert alerts) eqn:Hc.
  { split; [simpl; auto|]. split; split; intros H; try discriminate; auto.
    destruct H as (H & _); discriminate. }
  destruct (existsb highAlert alerts) eqn:Hh; cbn [orb].
  { split; [simpl; auto|]. split; split; intros H; try discriminate.
    - destruct H as [H|(H & _)]; discriminate.
    - destruct H as (_ & H & _); discriminate. }
  destruct (optionIs (priorityOf recommendation) "High") eqn:Hp.
  { split; [simpl; auto|]. split; split; intros H; try discriminate.
    - destruct H as [H|(_ & H)]; [discriminate|].
      apply optionIs_true in Hp. apply optionIs_true in H. congruence.
    - destruct H as (_ & _ & H & _); discriminate. }
  destruct (optionIs (priorityOf recommendation) "Critical") eqn:Hk.
  { split; [simpl; auto|]. split; split; intros H; try discriminate; auto.
    destruct H as (_ & _ & _ & H & _); discriminate. }
  destruct (optionIs (priorityOf recommendation) "Medium") eqn:Hm; cbn [orb].
  { split; [simpl; auto|]. split; split; intros H; try discriminate.
    - destruct H as [H|(_ & H)]; discriminate.
    - destruct H as (_ & _ & _ & _ & H & _); discriminate. }
  destruct (optionIs (actionOf recommendation) "Irrigate") eqn:Ha.
  { split; [simpl; auto|]. split; split; intros H; try discriminate.
    - destruct H as [H|(_ & H)]; discriminate.
    - destruct H as (_ & _ & _ & _ & _ & H); discriminate. }
  split; [simpl; auto|]. split; split; intros H; try discriminate; auto.
  - destruct H as [H|(_ & H)]; discriminate.
  - repeat split; reflexivity.
Qed.

(** ** The state the status route sends to the device *)

(** The severity each check of [detectAnomalies] assigns. *)
Lemma anomaly_type_severity (clk : Clock.t) (history : option (list Reading.t))
    (currentData : option Reading.t) (crop : option Crop.t) (a : Anomaly.t) :
  In a (detectAnomalies clk history currentData crop) ->
  (Anomaly.type a = "Leak" /\ Anomaly.severity a = "High")
  \/ (Anomaly.type a = "Dry Stress"
      /\ (Anomaly.severity a = "Critical" \/ Anomaly.severity a = "High"))
  \/ (Anomaly.type a = "Over-Irrigation"
      /\ (Anomaly.severity a = "High" \/ Anomaly.severity a = "Medium"))
  \/ (Anomaly.type a = "Abnormal Pattern" /\ Anomaly.severity a = "Medium").
Proof.
  rewrite detectAnomalies_unfold. cbv zeta.
  destruct (_ <? 5)%nat; [intros []|].
  destruct (Reading.soil _); [|intros []].
  rewrite !in_app_iff. intros [H|[H|[H|H]]].
  - left. unfold leakCheck in H.
    destruct (2 <=? _)%nat; [|destruct H]. cbv zeta in H.
    destruct (_ && _); [|destruct H].
    destruct (_ >? _); [|destruct H].
    destruct H as [<-|[]]. split; reflexivity.
  - right; left. rewrite dryStressCheck_spec in H.
    destruct (_ && _); [|destruct H].
    destruct H as [<-|[]]. cbn [mkAnomaly Anomaly.type Anomaly.severity].
    split; [reflexivity|]. destruct (_ <? _); auto.
  - right; right; left. unfold overIrrigationCheck in H. cbv zeta in H.
    destruct (_ && _); [|destruct H].
    destruct H as [<-|[]]. cbn [mkAnomaly Anomaly.type Anomaly.severity].
    split; [reflexivity|]. destruct (_ >? _); auto.
  - right; right; right. unfold abnormalPatternCheck in H.
    destruct (5 <=? _)%nat; [|destruct H]. cbv zeta in H.
    destruct (_ >? 15); [|destruct H].
    destruct H as [<-|[]]. split; reflexivity.
Qed.

(** The priority of a recommendation: "Critical" or "High" for "Irrigate",
    "Low" or none for every other action. *)
Lemma recommendation_priority
    (clk : Clock.t) (currentData : option Reading.t) (crop : option Crop.t)
    (historicalData : list Reading.t) :
  let r := generateRecommendation clk currentData crop historicalData in
  (Recommendation.action r = "Irrigate"
   /\ (Recommendation.priority r = Some "Critical"
       \/ Recommendation.priority r = Some "High"))
  \/ (Recommendation.action r <> "Irrigate"
      /\ (Recommendation.priority r = None
          \/ Recommendation.priority r = Some "Low")).
Proof.
  cbv zeta.
  destruct currentData as [currentData|];
    [|right; split; [discriminate|left; reflexivity]].
  destruct (Reading.soil currentData) as [soil|] eqn:Hsoil.
  2:{ right. unfold generateRecommendation. rewrite Hsoil.
      split; [discriminate|left; reflexivity]. }
  destruct (String.eqb_spec
              (Recommendation.action
                 (generateRecommendation clk (Some currentData) crop historicalData))
              "Stop") as [Hstop|Hstop].
  - right. split; [rewrite Hstop; discriminate|].
    left. revert Hstop. unfold generateRecommendation. rewrite Hsoil.
    destruct (_ >? _); [reflexivity|].
    destruct (_ <? _).
    + destruct (_ && _ && _); simpl; discriminate.
    + destruct (_ <? _); simpl; discriminate.
  - pose proof (priority_on_final_return clk currentData crop historicalData soil
                  Hsoil Hstop) as Hp.
    cbv zeta in Hp.
    destruct (String.eqb_spec
                (Recommendation.action
                   (generateRecommendation clk (Some currentData) crop historicalData))
                "Irrigate") as [Hi|Hi].
    + left. split; [exact Hi|]. rewrite Hp.
      destruct (_ <? _); auto.
    + right. split; [exact Hi|]. right. exact Hp.
Qed.

Lemma existsb_statusAlerts (p : Alert.t -> bool) (anomalies : list Anomaly.t) :
  existsb p (statusAlerts anomalies [])
  = existsb (fun a => p (alertOfAnomaly a)) anomalies.
Proof.
  unfold statusAlerts. rewrite app_nil_r.
  induction anomalies as [|a l IH]; [reflexivity|].
  simpl. now rewrite IH.
Qed.

Lemma existsb_statusAlerts_intro (p : Alert.t -> bool) (anomalies : list Anomaly.t)
    (dbAlerts : list Alert.t) (a : Anomaly.t) :
  In a anomalies -> p (alertOfAnomaly a) = true ->
  existsb p (statusAlerts anomalies dbAlerts) = true.
Proof.
  intros Hin Hp. apply existsb_exists. exists (alertOfAnomaly a).
  split; [|exact Hp]. unfold statusAlerts. apply in_or_app. left.
  now apply in_map.
Qed.

(** Without stored alerts the state is "normal" exactly when the action is
    not "Irrigate" and every anomaly is of medium severity. *)
Lemma normal_without_stored_alerts
    (clk clk' : Clock.t) (latestData : Reading.t) (crop : option Crop.t)
    (recentHistory : list Reading.t) :
  let recommendation :=
    generateRecommendation clk (Some latestData) crop recentHistory in
  let anomalies := detectAnomalies clk' (Some recentHistory) (Some latestData) crop in
  determineStateFromAlerts (statusAlerts anomalies []) (Some recommendation) = "normal"
  <-> Recommendation.action recommendation <> "Irrigate"
      /\ Forall (fun a => Anomaly.severity a = "Medium") anomalies.
Proof.
  cbv zeta.
  set (r := generateRecommendation clk (Some latestData) crop recentHistory).
  set (anomalies := detectAnomalies clk' (Some recentHistory) (Some latestData) crop).
  rewrite determineStateFromAlerts_eq.
  rewrite !existsb_statusAlerts.
  cbn [priorityOf actionOf].
  assert (Hall : Forall (fun a => Anomaly.severity a = "Medium") anomalies
                 <-> existsb (fun a => criticalAlert (alertOfAnomaly a)) anomalies = false
                     /\ existsb (fun a => highAlert (alertOfAnomaly a)) anomalies = false).
  { rewrite Forall_forall.
    split.
    - intros Hmed. split; apply not_true_is_false; intros Hex;
        apply existsb_exists in Hex; destruct Hex as (a & Hin & Hp);
        pose proof (Hmed a Hin) as Hsev;
        destruct (anomaly_type_severity _ _ _ _ _ Hin)
          as [(Ht & Hs)|[(Ht & Hs)|[(Ht & Hs)|(Ht & Hs)]]];
        unfold criticalAlert, highAlert, alertOfAnomaly in Hp;
        cbn [Alert.type Alert.severity Alert.priority] in Hp;
        rewrite Hsev in Hp; try rewrite Ht in Hp; rewrite Hsev in Hs;
        try discriminate Hp; try discriminate Hs;
        destruct Hs; discriminate.
    - intros (Hc & Hh) a Hin.
      assert (Hca : criticalAlert (alertOfAnomaly a) = false).
      { apply not_true_is_false. intros Hp.
        assert (existsb (fun a => criticalAlert (alertOfAnomaly a)) anomalies = true)
          by (apply existsb_exists; eauto).
        congruence. }
      assert (Hha : highAlert (alertOfAnomaly a) = false).
      { apply not_true_is_false. intros Hp.
        assert (existsb (fun a => highAlert (alertOfAnomaly a)) anomalies = true)
          by (apply existsb_exists; eauto).
        congruence. }
      unfold criticalAlert, highAlert, alertOfAnomaly in Hca, Hha.
      cbn [Alert.type Alert.severity Alert.priority] in Hca, Hha.
      destruct (anomaly_type_severity _ _ _ _ _ Hin)
        as [(Ht & Hs)|[(Ht & [Hs|Hs])|[(Ht & [Hs|Hs])|(Ht & Hs)]]];
        try exact Hs; rewrite Hs in Hca, Hha; discriminate. }
  rewrite Hall.
  destruct (existsb (fun a => criticalAlert (alertOfAnomaly a)) anomalies).
  { split; [discriminate|]. intros (_ & H & _). discriminate. }
  destruct (existsb (fun a => highAlert (alertOfAnomaly a)) anomalies); cbn [orb].
  { split; [discriminate|]. intros (_ & _ & H). discriminate. }
  destruct (recommendation_priority clk (Some latestData) crop recentHistory)
    as [(Ha & [Hp|Hp])|(Ha & [Hp|Hp])]; fold r in Ha, Hp; rewrite Hp.
  + simpl. split; [discriminate|]. intros (H & _). contradiction.
  + simpl. split; [discriminate|]. intros (H & _). contradiction.
  + cbn [optionIs orb].
    assert (Hi : String.eqb (Recommendation.action r) "Irrigate" = false)
      by (apply String.eqb_neq; exact Ha).
    rewrite Hi. split; [auto|reflexivity].
  + assert (Hi : String.eqb (Recommendation.action r) "Irrigate" = false)
      by (apply String.eqb_neq; exact Ha).
    cbn [optionIs]. rewrite Hi. simpl. split; [auto|reflexivity].
Qed.

(** X14.  The state the status route sends to the device, from the
    anomalies of [detectAnomalies], the stored alerts and the
    recommendation of [generateRecommendation] for the same reading: a leak
    makes it "critical" and a dry stress keeps it from "normal", whatever
    the rest; without stored alerts it is "normal" exactly when the action
    is not "Irrigate" and every anomaly is of medium severity, so neither
    an abnormal pattern, nor a medium over-irrigation, nor the action
    "Stop" raises it. *)
Theorem status_route_state
    (clk clk' : Clock.t) (latestData : Reading.t) (crop : option Crop.t)
    (recentHistory : list Reading.t) (dbAlerts : list Alert.t) :
  let recommendation :=
    generateRecommendation clk (Some latestData) crop recentHistory in
  let anomalies := detectAnomalies clk' (Some recentHistory) (Some latestData) crop in
  let state :=
    determineStateFromAlerts (statusAlerts anomalies dbAlerts) (Some recommendation) in
  (hasType "Leak" anomalies -> state = "critical")
  /\ (hasType "Dry Stress" anomalies -> state <> "normal")
  /\ (dbAlerts = [] ->
      (state = "normal"
       <-> Recommendation.action recommendation <> "Irrigate"
           /\ Forall (fun a => Anomaly.severity a = "Medium") anomalies)).
Proof.
  cbv zeta.
  set (r := generateRecommendation clk (Some latestData) crop recentHistory).
  set (anomalies := detectAnomalies clk' (Some recentHistory) (Some latestData) crop).
  split; [|split].
  - rewrite determineStateFromAlerts_eq. intros (a & Hin & Hty).
    rewrite (existsb_statusAlerts_intro criticalAlert anomalies dbAlerts a Hin);
      [reflexivity|].
    unfold criticalAlert, alertOfAnomaly. cbn [Alert.type Alert.severity Alert.priority].
    rewrite Hty. simpl. apply orb_true_r.
  - rewrite determineStateFromAlerts_eq. intros (a & Hin & Hty).
    destruct (anomaly_type_severity _ _ _ _ _ Hin)
      as [(Ht & _)|[(_ & Hsev)|[(Ht & _)|(Ht & _)]]];
      try (rewrite Hty in Ht; discriminate).
    destruct Hsev as [Hsev|Hsev].
    + rewrite (existsb_statusAlerts_intro criticalAlert anomalies dbAlerts a Hin);
        [discriminate|].
      unfold criticalAlert, alertOfAnomaly. cbn [Alert.type Alert.severity Alert.priority].
      rewrite Hsev. reflexivity.
    + destruct (existsb criticalAlert _); [discriminate|].
      rewrite (existsb_statusAlerts_intro highAlert anomalies dbAlerts a Hin);
        [discriminate|].
      unfold highAlert, alertOfAnomaly. cbn [Alert.type Alert.severity Alert.priority].
      rewrite Hsev. reflexivity.
  - intros ->.
    apply (normal_without_stored_alerts clk clk' latestData crop recentHistory).
Qed.

(** Wheat at moisture 65 with no history and no stored alert: the action is
    "Stop" and the device is set to "normal". *)
Lemma status_route_state_witness :
  determineStateFromAlerts
    (statusAlerts (detectAnomalies noon (Some []) (Some (wheatReading 65)) None) [])
    (Some (generateRecommendation noon (Some (wheatReading 65)) None []))
  = "normal".
Proof.
  destruct (status_route_state noon noon (wheatReading 65) None [] []) as (_ & _ & H).
  apply (H eq_refl). split.
  - assert (Hstop : Recommendation.action
                      (generateRecommendation noon (Some (wheatReading 65)) None [])
                    = "Stop").
    { unfold generateRecommendation.
      cbn [wheatReading Reading.soil Soil.moisture Num.ofField].
      change (resolveConfig (resolveCropType (wheatReading 65) None))
        with (Config.make 30 50 35 30).
      cbn [Config.make Config.max Config.min Num.ofField].
      rewrite mul_Fin.
      assert (Hgt : (Fin 65 >? Fin (50 * 1.1)) = true) by (apply gtb_Fin; lra).
      rewrite Hgt. reflexivity. }
    rewrite Hstop. discriminate.
  - constructor.
Defined.

(** ** Requests to the device *)

Lemma validStates_existsb (state : string) :
  existsb (String.eqb state) validStates = true <-> In state validStates.
Proof.
  rewrite existsb_exists. split.
  - intros (s & Hin & Heq). apply String.eqb_eq in Heq. now subst.
  - intros Hin. exists state. split; [exact Hin|apply String.eqb_refl].
Qed.

Lemma determineStateFromAlerts_valid (alerts : list Alert.t)
    (recommendation : option Recommendation.t) :
  In (determineStateFromAlerts alerts recommendation) validStates.
Proof.
  rewrite determineStateFromAlerts_eq.
  destruct (existsb criticalAlert alerts); [simpl; auto|].
  destruct (_ || _); [simpl; auto|].
  destruct (optionIs _ "Critical"); [simpl; auto|].
  destruct (_ || _); simpl; auto.
Qed.

(** The three outcomes of [setState] that send nothing, and the one that
    sends a request. *)
Lemma setState_cases (http : string -> HttpResult) (clk : Clock.t)
    (self : ESP32.t) (state : string) :
  let out := setState http clk self state in
  (ESP32.enabled self = false
   /\ out = ({| EspResult.success := false; EspResult.state := None;
                EspResult.message := EspText "ESP32 service is disabled";
                EspResult.skipped := false; EspResult.error := None;
                EspResult.timestamp := None |}, self, []))
  \/ (ESP32.enabled self = true /\ ~ In state validStates
      /\ snd (fst out) = self /\ snd out = []
      /\ EspResult.success (fst (fst out)) = false)
  \/ (ESP32.enabled self = true /\ In state validStates
      /\ ESP32.lastState self = Some state
      /\ snd (fst out) = self /\ snd out = []
      /\ EspResult.success (fst (fst out)) = true
      /\ EspResult.skipped (fst (fst out)) = true)
  \/ (ESP32.enabled self = true /\ In state validStates
      /\ ESP32.lastState self <> Some state
      /\ snd out = [setRequest self state]
      /\ EspResult.skipped (fst (fst out)) = false
      /\ ((http (setRequest self state) = Response 200 (Some "OK")
           /\ EspResult.success (fst (fst out)) = true
           /\ ESP32.lastState (snd (fst out)) = Some state
           /\ ESP32.enabled (snd (fst out)) = ESP32.enabled self
           /\ ESP32.esp32IP (snd (fst out)) = ESP32.esp32IP self
           /\ ESP32.esp32Port (snd (fst out)) = ESP32.esp32Port self)
          \/ (http (setRequest self state) <> Response 200 (Some "OK")
              /\ EspResult.success (fst (fst out)) = false
              /\ snd (fst out) = self))).
Proof.
  cbv zeta. unfold setState.
  destruct (ESP32.enabled self) eqn:Hen; cbn [negb]; [|left; auto].
  right.
  destruct (existsb (String.eqb state) validStates) eqn:Hvalid; cbn [negb].
  2:{ left. split; [reflexivity|]. split; [|auto].
      intros Hin. apply validStates_existsb in Hin. congruence. }
  apply validStates_existsb in Hvalid.
  right.
  destruct (optionIs (ESP32.lastState self) state) eqn:Hlast.
  { left. apply optionIs_true in Hlast. cbn. auto 10. }
  right. apply optionIs_false in Hlast.
  fold (setRequest self state).
  split; [reflexivity|]. split; [exact Hvalid|]. split; [exact Hlast|].
  destruct (http (setRequest self state)) as [status data|code message] eqn:Hhttp.
  - destruct ((status =? 200)%Z && optionIs data "OK") eqn:Hok.
    + apply andb_true_iff in Hok. destruct Hok as (Hs & Hd).
      apply Z.eqb_eq in Hs. apply optionIs_true in Hd. subst.
      cbn. split; [reflexivity|]. split; [reflexivity|]. left. auto 10.
    + cbn. split; [reflexivity|]. split; [reflexivity|]. right.
      split; [|auto]. intros Heq. injection Heq as Hs Hd. subst.
      simpl in Hok. discriminate.
  - cbn. split; [reflexivity|]. split; [reflexivity|]. right.
    split; [discriminate|auto].
Qed.

(** X15.  [setState] never changes the address or the switch of the
    service and sends at most one request, to the [set] path of the device
    with the state as given; it sends one exactly when the service is
    enabled, the state is one of the three valid ones and differs from the
    last acknowledged state.  The last acknowledged state changes exactly
    when a request was sent and answered with status 200 and body "OK";
    whenever the call reports success, the last acknowledged state is the
    requested one; and a state that is not valid is never stored. *)
Theorem setState_effects (http : string -> HttpResult) (clk : Clock.t)
    (self : ESP32.t) (state : string) :
  let out := setState http clk self state in
  let result := fst (fst out) in
  let self' := snd (fst out) in
  let requests := snd out in
  ESP32.enabled self' = ESP32.enabled self
  /\ ESP32.esp32IP self' = ESP32.esp32IP self
  /\ ESP32.esp32Port self' = ESP32.esp32Port self
  /\ (requests = [] \/ requests = [setRequest self state])
  /\ (requests <> []
      <-> ESP32.enabled self = true /\ In state validStates
          /\ ESP32.lastState self <> Some state)
  /\ (ESP32.lastState self' <> ESP32.lastState self
      <-> requests <> []
          /\ http (setRequest self state) = Response 200 (Some "OK"))
  /\ (EspResult.success result = true ->
      ESP32.lastState self' = Some state /\ In state validStates)
  /\ (forall s, ESP32.lastState self' = Some s ->
      In s validStates \/ ESP32.lastState self = Some s).
Proof.
  cbv zeta.
  destruct (setState_cases http clk self state)
    as [(Hen & Hout)
       |[(Hen & Hinv & Hself & Hreq & Hsucc)
        |[(Hen & Hval & Hlast & Hself & Hreq & Hsucc & Hskip)
         |(Hen & Hval & Hlast & Hreq & Hskip & Hsent)]]];
    cbv zeta in *.
  - rewrite Hout. cbn [fst snd EspResult.success].
    repeat split; intros; try solve [auto | discriminate | intuition congruence].
  - rewrite Hself, Hreq, Hsucc.
    repeat split; intros; try solve [auto | discriminate | intuition congruence].
  - rewrite Hself, Hreq, Hsucc.
    repeat split; intros; try solve [auto | discriminate | intuition congruence].
  - rewrite Hreq.
    destruct Hsent as [(Hhttp & Hsucc & Hnew & He & Hi & Hp)|(Hhttp & Hsucc & Hself)].
    + rewrite Hnew, Hsucc, He, Hi, Hp.
      repeat split; intros;
        try solve [auto | discriminate | congruence | intuition congruence].
    + rewrite Hself, Hsucc.
      repeat split; intros;
        try solve [auto | discriminate | congruence | intuition congruence].
Qed.

(** X16.  After a call that reported success, a second call for the same
    state is skipped: it reports success, sends nothing and leaves the
    service as it is, whatever the device would answer. *)
Theorem setState_dedupe (http http' : string -> HttpResult) (clk clk' : Clock.t)
    (self : ESP32.t) (state : string) :
  let first := setState http clk self state in
  EspResult.success (fst (fst first)) = true ->
  let second := setState http' clk' (snd (fst first)) state in
  EspResult.success (fst (fst second)) = true
  /\ EspResult.skipped (fst (fst second)) = true
  /\ EspResult.message (fst (fst second)) = EspText ("State already set to " ++ state)
  /\ snd second = []
  /\ snd (fst second) = snd (fst first).
Proof.
  cbv zeta. intros Hsucc.
  assert (Hstate : ESP32.enabled (snd (fst (setState http clk self state))) = true
                   /\ In state validStates
                   /\ ESP32.lastState (snd (fst (setState http clk self state)))
                      = Some state).
  { destruct (setState_cases http clk self state)
      as [(Hen & Hout)
         |[(Hen & Hinv & Hself & Hreq & Hs)
          |[(Hen & Hval & Hlast & Hself & Hreq & Hs & Hskip)
           |(Hen & Hval & Hlast & Hreq & Hskip & Hsent)]]];
      cbv zeta in *.
    - rewrite Hout in Hsucc. discriminate.
    - congruence.
    - rewrite Hself. auto.
    - destruct Hsent as [(Hhttp & Hs & Hnew & He & Hi & Hp)|(Hhttp & Hs & Hself)];
        [|congruence].
      rewrite He. auto. }
  destruct Hstate as (Hen & Hval & Hlast).
  set (self' := snd (fst (setState http clk self state))) in *.
  unfold setState at 1 2 3 4 5.
  rewrite Hen. cbn [negb].
  apply validStates_existsb in Hval. rewrite Hval. cbn [negb].
  apply optionIs_true in Hlast. rewrite Hlast.
  cbn. auto.
Qed.

(** A fresh service and a device that acknowledges: the second "critical"
    is not sent. *)
Lemma setState_dedupe_witness :
  EspResult.success (fst (fst (setState acknowledging noon freshService "critical")))
  = true
  /\ snd (setState unreachable noonNextDay
            (snd (fst (setState acknowledging noon freshService "critical")))
            "critical") = [].
Proof.
  assert (H : EspResult.success
                (fst (fst (setState acknowledging noon freshService "critical")))
              = true) by reflexivity.
  split; [exact H|].
  destruct (setState_dedupe acknowledging unreachable noon noonNextDay
              freshService "critical" H) as (_ & _ & _ & Hreq & _).
  exact Hreq.
Defined.

(** X17.  [updateFromStatus] never asks for a state the device rejects: for
    an enabled service it either skips the call, when the state computed
    from the alerts and the recommendation is the last acknowledged one, or
    sends exactly one request for that state, and it reports success
    exactly when the device answers 200 "OK".  Without a status nothing is
    sent. *)
Theorem updateFromStatus_request (http : string -> HttpResult) (clk : Clock.t)
    (self : ESP32.t) (status : Status.t) :
  ESP32.enabled self = true ->
  let state :=
    determineStateFromAlerts
      (match Status.alerts status with Some a => a | None => [] end)
      (Status.recommendation status) in
  let out := updateFromStatus http clk self (Some status) in
  In state validStates
  /\ (ESP32.lastState self = Some state ->
      EspResult.skipped (fst (fst out)) = true
      /\ snd out = [] /\ snd (fst out) = self)
  /\ (ESP32.lastState self <> Some state ->
      snd out = [setRequest self state]
      /\ (EspResult.success (fst (fst out)) = true
          <-> http (setRequest self state) = Response 200 (Some "OK"))
      /\ (EspResult.success (fst (fst out)) = true ->
          ESP32.lastState (snd (fst out)) = Some state))
  /\ snd (updateFromStatus http clk self None) = []
  /\ snd (fst (updateFromStatus http clk self None)) = self.
Proof.
  intros Hen. cbv zeta.
  set (state := determineStateFromAlerts _ _).
  pose proof (determineStateFromAlerts_valid
                (match Status.alerts status with Some a => a | None => [] end)
                (Status.recommendation status)) as Hvalid.
  fold state in Hvalid.
  change (updateFromStatus http clk self (Some status))
    with (setState http clk self state).
  split; [exact Hvalid|].
  destruct (setState_cases http clk self state)
    as [(Hd & _)
       |[(_ & Hinv & _)
        |[(_ & _ & Hlast & Hself & Hreq & Hsucc & Hskip)
         |(_ & _ & Hlast & Hreq & Hskip & Hsent)]]];
    cbv zeta in *; try congruence; try contradiction.
  - split; [auto|]. split; [intros H; contradiction|]. split; reflexivity.
  - split; [intros H; contradiction|]. split; [|split; reflexivity].
    intros _. split; [exact Hreq|].
    destruct Hsent as [(Hhttp & Hs & Hnew & _)|(Hhttp & Hs & Hself)].
    + split; [tauto|auto].
    + split; [split; intros H; congruence|intros H; congruence].
Qed.

(** A leak alert on a fresh service: one request for "critical". *)
Lemma updateFromStatus_request_witness :
  snd (updateFromStatus acknowledging noon freshService
         (Some {| Status.alerts := Some [storedAlert "Leak" "High"];
                  Status.recommendation := None |}))
  = ["http://192.168.1.100:80/set?state=critical"].
Proof.
  destruct (updateFromStatus_request acknowledging noon freshService
              {| Status.alerts := Some [storedAlert "Leak" "High"];
                 Status.recommendation := None |} eq_refl)
    as (_ & _ & H & _).
  destruct (H ltac:(discriminate)) as (Hreq & _).
  exact Hreq.
Defined.

(** * Routes of the server *)

(** The thresholds of the crop table lie within fixed bounds. *)
Lemma resolved_profile_bounds (cropType : string) (mn mx w d : R) :
  resolveConfig cropType = Config.make mn mx w d ->
  (30 <= mn <= 45)%R /\ (50 <= mx <= 70)%R.
Proof.
  intros Hcfg.
  destruct (resolveConfig_cases cropType) as [He|Hin].
  - rewrite He in Hcfg. discriminate.
  - rewrite Hcfg in Hin. simpl in Hin.
    repeat (destruct Hin as [Hin|Hin];
            [ injection Hin as <- <- <- <-; lra | ]).
    contradiction.
Qed.

Ltac decide_band :=
  repeat match goal with
         | |- context [Fin ?a >=? Fin ?b] =>
             let H := fresh "Hc" in
             destruct (Fin a >=? Fin b) eqn:H;
             [apply geb_Fin in H | apply leb_Fin_false in H]
         | |- context [Fin ?a <=? Fin ?b] =>
             let H := fresh "Hc" in
             destruct (Fin a <=? Fin b) eqn:H;
             [apply leb_Fin in H | apply leb_Fin_false in H]
         | |- context [Fin ?a <? Fin ?b] =>
             let H := fresh "Hc" in
             destruct (Fin a <? Fin b) eqn:H;
             [apply ltb_Fin in H | apply ltb_Fin_false in H]
         | |- context [Fin ?a >? Fin ?b] =>
             let H := fresh "Hc" in
             destruct (Fin a >? Fin b) eqn:H;
             [apply gtb_Fin in H | apply gtb_Fin_false in H]
         end.

Lemma statusState_bands (m : R) :
  (statusState (Some (Fin m)) = "normal" <-> (40 <= m <= 60)%R)
  /\ (statusState (Some (Fin m)) = "caution"
      <-> (30 <= m < 40)%R \/ (60 < m <= 75)%R)
  /\ (statusState (Some (Fin m)) = "critical" <-> (m < 30)%R \/ (75 < m)%R).
Proof.
  unfold statusState.
  decide_band; cbn [andb orb];
    (split; [|split]); split; intros H; try discriminate; try reflexivity;
    try lra.
Qed.

(** X18.  The state the status route alerts on depends on the moisture
    alone: "normal" within [40, 60], "caution" within [30, 40) and
    (60, 75], "critical" below 30 and above 75; a missing moisture gives
    "normal" and a moisture that is NaN gives "critical".  For every profile
    of the crop table a moisture below 30 is answered with "Irrigate" or
    "Delay" and one above 77 with "Stop"; in the latter case, without stored
    alerts and with anomalies of medium severity at most, the device is set
    to "normal" while this state is "critical". *)
Theorem status_state_by_moisture
    (clk clk' : Clock.t) (latestData : Reading.t) (crop : option Crop.t)
    (recentHistory : list Reading.t) (soil : Soil.t) (m mn mx w d : R) :
  Reading.soil latestData = Some soil ->
  Soil.moisture soil = Some (Fin m) ->
  resolveConfig (resolveCropType latestData crop) = Config.make mn mx w d ->
  let state := statusState (soilMoisture latestData) in
  let recommendation :=
    generateRecommendation clk (Some latestData) crop recentHistory in
  let anomalies := detectAnomalies clk' (Some recentHistory) (Some latestData) crop in
  (state = "normal" <-> (40 <= m <= 60)%R)
  /\ (state = "caution" <-> (30 <= m < 40)%R \/ (60 < m <= 75)%R)
  /\ (state = "critical" <-> (m < 30)%R \/ (75 < m)%R)
  /\ statusState None = "normal"
  /\ statusState (Some NaN) = "critical"
  /\ ((m < 30)%R ->
      Recommendation.action recommendation = "Irrigate"
      \/ Recommendation.action recommendation = "Delay")
  /\ ((77 < m)%R ->
      Recommendation.action recommendation = "Stop"
      /\ (Forall (fun a => Anomaly.severity a = "Medium") anomalies ->
          state = "critical"
          /\ determineStateFromAlerts (statusAlerts anomalies [])
               (Some recommendation) = "normal")).
Proof.
  intros Hsoil Hm Hcfg. cbv zeta.
  assert (Hstate : soilMoisture latestData = Some (Fin m)).
  { unfold soilMoisture. now rewrite Hsoil. }
  rewrite Hstate.
  destruct (statusState_bands m) as (Hn & Hc & Hk).
  destruct (resolved_profile_bounds _ _ _ _ _ Hcfg) as (Hmn & Hmx).
  pose proof (generateRecommendation_bands clk latestData crop recentHistory
                soil m mn mx w d Hsoil Hm Hcfg) as Hbands.
  cbv zeta in Hbands.
  split; [exact Hn|]. split; [exact Hc|]. split; [exact Hk|].
  split; [reflexivity|]. split; [reflexivity|].
  split.
  - intros Hlow.
    destruct Hbands as [(H & _)|[(_ & H & _)|[(_ & H)|[(H & _)|(H & _)]]]];
      auto; lra.
  - intros Hhigh.
    assert (Hstop : Recommendation.action
                      (generateRecommendation clk (Some latestData) crop recentHistory)
                    = "Stop").
    { destruct Hbands as [(_ & H & _)|[(H & _)|[(H & _)|[(H & _)|(H & _)]]]];
        auto; lra. }
    split; [exact Hstop|].
    intros Hmedium. split.
    + apply Hk. right. lra.
    + apply normal_without_stored_alerts. split; [|exact Hmedium].
      rewrite Hstop. discriminate.
Qed.

(** Wheat at moisture 80: the route alerts on "critical" and the device is
    set to "normal". *)
Lemma status_state_by_moisture_witness :
  statusState (soilMoisture (wheatReading 80)) = "critical"
  /\ determineStateFromAlerts
       (statusAlerts (detectAnomalies noon (Some []) (Some (wheatReading 80)) None) [])
       (Some (generateRecommendation noon (Some (wheatReading 80)) None []))
     = "normal".
Proof.
  destruct (status_state_by_moisture noon noon (wheatReading 80) None [] _ 80 30 50 35 30
              eq_refl eq_refl eq_refl)
    as (_ & _ & _ & _ & _ & _ & H).
  destruct (H ltac:(lra)) as (_ & H2).
  apply H2. constructor.
Defined.

(** ** The fields route *)

Lemma clamp_percent (x : num) :
  Math.max 0 (Math.min 100 (Math.round x)) = NaN
  \/ exists v : R,
       Math.max 0 (Math.min 100 (Math.round x)) = Fin v /\ (0 <= v <= 100)%R.
Proof.
  destruct x as [| | |a].
  - left. reflexivity.
  - right. exists 0%R. split; [|lra].
    change (Math.round NInf) with NInf.
    change (Math.min 100 NInf) with NInf. reflexivity.
  - right. exists 100%R. split; [|lra].
    change (Math.round PInf) with PInf.
    change (Math.min 100 PInf) with (Fin 100).
    rewrite max_Fin. f_equal. apply Rmax_right. lra.
  - right. rewrite round_Fin, min_Fin, max_Fin.
    eexists. split; [reflexivity|].
    split.
    + apply Rmax_l.
    + apply Rmax_lub; [lra|]. apply Rmin_l.
Qed.

(** The health score is NaN or a number within [0, 100], whatever the
    input. *)
Lemma predictYieldHealth_NaN_or_percent (data : option Reading.t)
    (crop : option Crop.t) :
  predictYieldHealth data crop = NaN
  \/ exists v : R, predictYieldHealth data crop = Fin v /\ (0 <= v <= 100)%R.
Proof.
  unfold predictYieldHealth.
  destruct data as [data|]; [|right; exists 0%R; split; [reflexivity|lra]].
  destruct (Reading.soil data) as [soil|];
    [|right; exists 0%R; split; [reflexivity|lra]].
  destruct (Reading.weather data) as [weather|];
    [|right; exists 0%R; split; [reflexivity|lra]].
  cbv zeta. apply clamp_percent.
Qed.

(** X19.  The status of a field in the fields route, for the
    recommendation and the health score of its latest reading: it is one of
    "Critical", "High" and "Low"; it is the priority of the recommendation
    whenever the action is "Irrigate" ("Critical" or "High"), "Delay",
    "Monitor" or "Maintain" (always "Low", however dry the soil and however
    low the score), so the moisture and the score decide only for "Stop" and
    "Pending"; a reading without soil block is "Critical".  The health
    score that is reported is a number within [0, 100], never NaN. *)
Theorem field_status (clk : Clock.t) (data : Reading.t) (crop : option Crop.t) :
  let recommendation := generateRecommendation clk (Some data) crop [] in
  let yieldHealth := predictYieldHealth (Some data) crop in
  let status := fieldStatus data recommendation yieldHealth in
  let action := Recommendation.action recommendation in
  In status ["Critical"; "High"; "Low"]
  /\ (action = "Irrigate" -> status = "Critical" \/ status = "High")
  /\ (action = "Delay" \/ action = "Monitor" \/ action = "Maintain" ->
      status = "Low")
  /\ (Reading.soil data = None -> action = "Pending" /\ status = "Critical")
  /\ exists v : R,
       fieldYieldHealth yieldHealth = Fin v /\ (0 <= v <= 100)%R.
Proof.
  cbv zeta.
  set (r := generateRecommendation clk (Some data) crop []).
  set (y := predictYieldHealth (Some data) crop).
  assert (Hfallback :
    In (if (Num.ofField (soilMoisture data) <? 25) || (y <? 50) then "Critical"
        else if (Num.ofField (soilMoisture data) <? 30) || (y <? 70) then "High"
        else "Low") ["Critical"; "High"; "Low"]).
  { destruct (_ || _); [simpl; auto|]. destruct (_ || _); simpl; auto. }
  pose proof (recommendation_priority clk (Some data) crop []) as Hprio.
  cbv zeta in Hprio. fold r in Hprio.
  unfold fieldStatus. cbv zeta.
  split; [|split; [|split; [|split]]].
  - destruct Hprio as [(_ & [Hp|Hp])|(_ & [Hp|Hp])]; rewrite Hp;
      cbn [strOr]; try exact Hfallback; simpl; auto.
  - intros Ha.
    destruct Hprio as [(_ & [Hp|Hp])|(Hn & _)]; [| |contradiction];
      rewrite Hp; simpl; auto.
  - intros Ha.
    assert (Hsoil : exists soil, Reading.soil data = Some soil).
    { destruct (Reading.soil data) as [soil|] eqn:Hsoil; [eauto|].
      exfalso. unfold r, generateRecommendation in Ha. rewrite Hsoil in Ha.
      simpl in Ha. destruct Ha as [Ha|[Ha|Ha]]; discriminate. }
    destruct Hsoil as (soil & Hsoil).
    assert (Hstop : Recommendation.action r <> "Stop").
    { destruct Ha as [Ha|[Ha|Ha]]; rewrite Ha; discriminate. }
    pose proof (priority_on_final_return clk data crop [] soil Hsoil Hstop) as Hp.
    cbv zeta in Hp. fold r in Hp. rewrite Hp.
    destruct Ha as [Ha|[Ha|Ha]]; rewrite Ha; reflexivity.
  - intros Hsoil.
    assert (Hr : r = pendingRecommendation).
    { unfold r, generateRecommendation. now rewrite Hsoil. }
    assert (Hy : y = Fin 0).
    { apply predictYieldHealth_absent. left. exact Hsoil. }
    rewrite Hr, Hy. split; [reflexivity|].
    unfold soilMoisture. rewrite Hsoil.
    cbn [pendingRecommendation Recommendation.priority strOr Num.ofField].
    rewrite ltb_NaN_l. cbn [orb].
    assert (H0 : (Fin 0 <? 50) = true) by (apply ltb_Fin; lra).
    rewrite H0. reflexivity.
  - unfold fieldYieldHealth.
    destruct (predictYieldHealth_NaN_or_percent (Some data) crop)
      as [Hy|(v & Hy & Hv)]; fold y in Hy; rewrite Hy.
    + exists 0%R. split; [reflexivity|lra].
    + cbn [Num.orElse].
      destruct (Num.truthy (Fin v)); [exists v; auto|].
      exists 0%R. split; [reflexivity|lra].
Qed.

(** * Weather service *)

Lemma simulatedWeather_fields (u1 u2 u3 : R) :
  simulatedWeather u1 u2 u3
  = finiteWeather 28 65 (8 + u2 * 10) (400 + u3 * 200) (Some (Fin (u1 * 40)))
      (Some {| Forecast.nextRainHours := None;
               Forecast.nextRainChance := Some (Fin 0) |}).
Proof.
  unfold simulatedWeather, finiteWeather. rewrite !mul_Fin, !add_Fin. reflexivity.
Qed.

(** The estimate for the simulated weather is a positive number. *)
Lemma simulatedWeather_ET (u2 u3 : R) :
  (0 <= u2)%R -> (0 <= u3)%R ->
  (0 < etcDaily 28 65 (8 + u2 * 10) (400 + u3 * 200))%R.
Proof.
  intros H2 H3. unfold etcDaily. cbv zeta.
  pose proof (exp_pos (17.27 * 28 / (237.3 + 28))) as He.
  set (e := exp (17.27 * 28 / (237.3 + 28))) in *.
  assert (Hv : (0 < (1 - 65 / 100) * 0.611 * e)%R).
  { apply Rmult_lt_0_compat; [lra|exact He]. }
  set (v := ((1 - 65 / 100) * 0.611 * e)%R) in *.
  assert (Hs : (0 < 0.408 * (400 + u3 * 200) * v)%R).
  { apply Rmult_lt_0_compat; [nra|exact Hv]. }
  assert (Hw : (0 < 0.063 * (8 + u2 * 10) * v)%R).
  { apply Rmult_lt_0_compat; [nra|exact Hv]. }
  assert (Hsum : (0 < 0.408 * (400 + u3 * 200) * v + 0.063 * (8 + u2 * 10) * v)%R)
    by lra.
  set (n := (0.408 * (400 + u3 * 200) * v + 0.063 * (8 + u2 * 10) * v)%R) in *.
  assert (Hq : (0 < n / (28 + 237.3))%R).
  { apply Rdiv_lt_0_compat; lra. }
  lra.
Qed.

(** X20.  Without an API key (absent, empty or "demo_key"), when a request
    fails, or when a body lacks [main] or the forecast list,
    [fetchWeatherData] returns the simulated weather: 28 degrees, 65 %
    humidity, a chance of rain within [0, 40], a wind within [8, 18], a
    solar radiation within [400, 600] and no rain forecast; the upper ends
    are reached when the program rounds the largest draws.  The
    evapotranspiration estimated from it is a positive number, the same for
    every crop. *)
Theorem fetchWeatherData_fallback
    (apiKey : option string) (u1 u2 u3 : R) (clk : Clock.t)
    (response : option OpenWeather.Current)
    (forecastResponse : option OpenWeather.Forecast) :
  (0 <= u1 < 1)%R -> (0 <= u2 < 1)%R -> (0 <= u3 < 1)%R ->
  apiKey = None \/ apiKey = Some EmptyString \/ apiKey = Some "demo_key"
  \/ response = None \/ forecastResponse = None
  \/ (exists current, response = Some current /\ OpenWeather.main current = None)
  \/ (exists forecastData,
        forecastResponse = Some forecastData
        /\ OpenWeather.entries forecastData = None) ->
  let weather := fetchWeatherData apiKey u1 u2 u3 clk response forecastResponse in
  weather = simulatedWeather u1 u2 u3
  /\ exists chance wind solar et : R,
       Weather.temperature weather = Some (Fin 28)
       /\ Weather.humidity weather = Some (Fin 65)
       /\ Weather.chanceOfRain weather = Some (Fin chance)
       /\ Weather.windSpeed weather = Some (Fin wind)
       /\ Weather.solarRadiation weather = Some (Fin solar)
       /\ Weather.forecast weather
          = Some {| Forecast.nextRainHours := None;
                    Forecast.nextRainChance := Some (Fin 0) |}
       /\ (0 <= chance <= 40)%R /\ (8 <= wind <= 18)%R /\ (400 <= solar <= 600)%R
       /\ (forall cropType, calculateET weather cropType = Fin et)
       /\ (0 < et)%R.
Proof.
  intros H1 H2 H3 Hcause. cbv zeta.
  assert (Heq : fetchWeatherData apiKey u1 u2 u3 clk response forecastResponse
                = simulatedWeather u1 u2 u3).
  { unfold fetchWeatherData.
    destruct (String.eqb (strOr apiKey "demo_key") "demo_key") eqn:Hkey;
      [reflexivity|].
    destruct Hcause as [->|[->|[->|Hcause]]]; try discriminate.
    destruct Hcause as [->|[->|[(c & -> & Hmain)|(f & -> & Hlist)]]].
    - reflexivity.
    - destruct response; reflexivity.
    - destruct forecastResponse as [fd|]; [|reflexivity].
      unfold parseWeather. rewrite Hmain.
      destruct (OpenWeather.entries fd); [|reflexivity].
      destruct (findRain _); reflexivity.
    - destruct response; [|reflexivity].
      unfold parseWeather. rewrite Hlist. reflexivity. }
  rewrite Heq. split; [reflexivity|].
  rewrite simulatedWeather_fields.
  exists (u1 * 40)%R, (8 + u2 * 10)%R, (400 + u3 * 200)%R,
         (etcDaily 28 65 (8 + u2 * 10) (400 + u3 * 200)).
  pose proof (simulatedWeather_ET u2 u3 (proj1 H2) (proj1 H3)) as Het.
  repeat (split; [reflexivity || lra|]).
  split; [|exact Het].
  intros cropType. rewrite calculateET_finite by lra.
  f_equal. apply Rmax_right. lra.
Qed.

(** No API key, draws of one half: chance 20, wind 13, solar radiation
    500. *)
Lemma fetchWeatherData_fallback_witness :
  fetchWeatherData None (1 / 2) (1 / 2) (1 / 2) noon None None
  = simulatedWeather (1 / 2) (1 / 2) (1 / 2).
Proof.
  destruct (fetchWeatherData_fallback None (1 / 2) (1 / 2) (1 / 2) noon None None
              ltac:(lra) ltac:(lra) ltac:(lra) (or_introl eq_refl))
    as (H & _).
  exact H.
Defined.

Lemma findRain_find (forecast : list OpenWeather.Entry) :
  Forall (fun f => OpenWeather.weather f <> []) forecast ->
  findRain forecast = Some (find rainy forecast).
Proof.
  induction 1 as [|f l Hf _ IH]; [reflexivity|].
  simpl. unfold rainy at 1.
  destruct (OpenWeather.weather f) as [|c cs]; [contradiction|].
  destruct (optionIs (OpenWeather.condition c) "Rain"); [reflexivity|exact IH].
Qed.

Lemma Zfloor_div_hour (a : Z) :
  Zfloor (IZR a / 3600000) = (a / 3600000)%Z.
Proof.
  apply Zfloor_eq.
  pose proof (Z.div_mod a 3600000 ltac:(lia)) as Hdm.
  pose proof (Z.mod_pos_bound a 3600000 ltac:(lia)) as Hb.
  set (q := (a / 3600000)%Z) in *. set (r := (a mod 3600000)%Z) in *.
  assert (Ha : IZR a = (3600000 * IZR q + IZR r)%R).
  { rewrite Hdm, plus_IZR, mult_IZR. reflexivity. }
  assert (Hr0 : (0 <= IZR r)%R) by (apply IZR_le; lia).
  assert (Hr1 : (IZR r < 3600000)%R) by (apply IZR_lt; lia).
  rewrite Ha. lra.
Qed.

Lemma round_zero : Math.round (Fin 0) = Fin 0.
Proof.
  rewrite round_Fin. f_equal. change 0%R with (IZR 0) at 2. f_equal.
  apply Zfloor_eq. simpl. lra.
Qed.

Lemma min_100_zero : Math.min 100 (Fin 0 * 100) = Fin 0.
Proof.
  rewrite mul_Fin.
  change (Math.min 100 (Fin (0 * 100))) with (Math.min (Fin 100) (Fin (0 * 100))).
  rewrite min_Fin. f_equal. rewrite Rmin_right by lra. lra.
Qed.

Lemma round_percent (p : R) :
  (0 <= p)%R ->
  exists k : Z,
    Math.round (Math.min 100 (Fin p * 100)) = Fin (IZR k) /\ (0 <= k <= 100)%Z.
Proof.
  intros Hp. rewrite mul_Fin.
  change (Math.min 100 (Fin (p * 100))) with (Math.min (Fin 100) (Fin (p * 100))).
  rewrite min_Fin, round_Fin.
  eexists. split; [reflexivity|].
  split.
  - apply Zfloor_lub. unfold Rmin. destruct (Rle_dec 100 (p * 100)); simpl; lra.
  - assert (H : (Zfloor (Rmin 100 (p * 100) + / 2) <= Zfloor (100 + / 2))%Z).
    { apply Zfloor_le. pose proof (Rmin_l 100 (p * 100)). lra. }
    assert (H100 : Zfloor (100 + / 2) = 100%Z).
    { apply Zfloor_eq. simpl. lra. }
    lia.
Qed.

(** X21.  With an API key and two bodies that hold [main] and the forecast
    list, each of the first four entries with a [weather[0]]: temperature
    and humidity are those of [main]; the chance of rain and the forecast
    are read from the first of the first four entries whose condition is
    "Rain"; entries after the fourth are not looked at.  Without such an
    entry the chance is 0 and no rain hour is given.  With one, the chance
    is a whole number within [0, 100] (0 when the entry has no [pop]) and
    equals the chance of the forecast, and the rain hour is the whole
    number of hours, rounded down, from now to the time of the entry.  The
    wind speed is 0 when the body has no wind, and the solar radiation 500
    when it has no clouds. *)
Theorem fetchWeatherData_parsed
    (apiKey : string) (u1 u2 u3 : R) (clk : Clock.t)
    (current : OpenWeather.Current) (main : OpenWeather.Main)
    (forecastData : OpenWeather.Forecast) (entries : list OpenWeather.Entry) :
  apiKey <> EmptyString -> apiKey <> "demo_key" ->
  OpenWeather.main current = Some main ->
  OpenWeather.entries forecastData = Some entries ->
  Forall (fun f => OpenWeather.weather f <> []) (firstn 4 entries) ->
  let weather :=
    fetchWeatherData (Some apiKey) u1 u2 u3 clk (Some current) (Some forecastData) in
  let rain := find rainy (firstn 4 entries) in
  exists forecast,
    Weather.forecast weather = Some forecast
    /\ Weather.temperature weather = OpenWeather.temp main
    /\ Weather.humidity weather = OpenWeather.humidity main
    /\ Forecast.nextRainChance forecast = Weather.chanceOfRain weather
    /\ (rain = None ->
        Weather.chanceOfRain weather = Some (Fin 0)
        /\ Forecast.nextRainHours forecast = None)
    /\ (forall f, rain = Some f -> OpenWeather.pop f = None ->
        Weather.chanceOfRain weather = Some (Fin 0))
    /\ (forall f p, rain = Some f -> OpenWeather.pop f = Some (Fin p) ->
        (0 <= p)%R ->
        exists k : Z,
          Weather.chanceOfRain weather = Some (Fin (IZR k)) /\ (0 <= k <= 100)%Z)
    /\ (forall f seconds, rain = Some f ->
        OpenWeather.dt f = Some (Num.ofZ seconds) ->
        (Z.abs (seconds * 1000) <= 8640000000000000)%Z ->
        Forecast.nextRainHours forecast
        = Some (Num.ofZ ((seconds * 1000 - Clock.now clk) / 3600000)))
    /\ (OpenWeather.wind current = None -> Weather.windSpeed weather = Some (Fin 0))
    /\ (OpenWeather.clouds current = None ->
        Weather.solarRadiation weather = Some (Fin 500)).
Proof.
  intros Hne Hdemo Hmain Hlist Hweather. cbv zeta.
  assert (Hkey : String.eqb (strOr (Some apiKey) "demo_key") "demo_key" = false).
  { unfold strOr. destruct (String.eqb_spec apiKey EmptyString); [contradiction|].
    now apply String.eqb_neq. }
  unfold fetchWeatherData. rewrite Hkey.
  unfold parseWeather. rewrite Hlist, (findRain_find _ Hweather), Hmain.
  cbv zeta.
  eexists. split; [reflexivity|].
  cbn [Weather.temperature Weather.humidity Weather.chanceOfRain Weather.windSpeed
       Weather.solarRadiation Forecast.nextRainChance Forecast.nextRainHours].
  split; [reflexivity|]. split; [reflexivity|]. split; [reflexivity|].
  split; [|split; [|split; [|split; [|split]]]].
  - intros ->. rewrite round_zero. split; reflexivity.
  - intros f -> Hpop. rewrite Hpop. cbn [Num.orElse].
    rewrite min_100_zero, round_zero. reflexivity.
  - intros f p -> Hpop Hp. rewrite Hpop.
    destruct (Req_dec_T p 0) as [->|Hnz].
    + exists 0%Z. split; [|lia].
      assert (Hz : Num.orElse (Some (Fin 0)) 0 = Fin 0).
      { unfold Num.orElse. destruct (Num.truthy (Fin 0)); reflexivity. }
      rewrite Hz, min_100_zero, round_zero. reflexivity.
    + rewrite orElse_nonzero by exact Hnz.
      destruct (round_percent p Hp) as (k & Hk & Hrange).
      exists k. split; [now rewrite Hk|exact Hrange].
  - intros f seconds -> Hdt Habs. rewrite Hdt.
    cbn [Num.ofField]. unfold Num.ofZ. rewrite mul_Fin.
    assert (Hms : (IZR seconds * 1000)%R = IZR (seconds * 1000)).
    { rewrite mult_IZR. reflexivity. }
    rewrite Hms.
    assert (Hdate : dateOfNumber (Fin (IZR (seconds * 1000)))
                    = Fin (IZR (seconds * 1000))).
    { unfold dateOfNumber.
      destruct (Rle_dec (Rabs (IZR (seconds * 1000))) 8640000000000000) as [_|Hbad].
      - destruct (Rlt_dec (IZR (seconds * 1000)) 0);
          [rewrite <- (Zceil_IZR (seconds * 1000)) at 2|rewrite ZfloorZ]; reflexivity.
      - exfalso. apply Hbad. rewrite <- abs_IZR. apply IZR_le. exact Habs. }
    rewrite Hdate, sub_Fin, <- minus_IZR.
    rewrite div_Fin by lra.
    unfold Math_floor. rewrite Zfloor_div_hour. reflexivity.
  - intros Hwind. rewrite Hwind.
    cbn [Num.ofField]. rewrite mul_NaN_l. reflexivity.
  - intros Hclouds. rewrite Hclouds. reflexivity.
Qed.

(** At noon, clouds in one hour and rain at 16:00 with a chance of 0.8:
    the rain hour is 4. *)
Lemma fetchWeatherData_parsed_witness :
  exists forecast,
    Weather.forecast
      (fetchWeatherData (Some "key") 0 0 0 noon (Some clearSky) (Some rainAtFour))
    = Some forecast
    /\ Forecast.nextRainHours forecast = Some (Num.ofZ 4).
Proof.
  assert (Hweather : Forall (fun f => OpenWeather.weather f <> [])
                       (firstn 4 [ forecastEntry "Clouds" 0.1 46800;
                                   forecastEntry "Rain" 0.8 57600 ])).
  { repeat constructor; discriminate. }
  destruct (fetchWeatherData_parsed "key" 0 0 0 noon clearSky _ rainAtFour _
              ltac:(discriminate) ltac:(discriminate) eq_refl eq_refl Hweather)
    as (forecast & Hf & _ & _ & _ & _ & _ & _ & Hhours & _).
  exists forecast. split; [exact Hf|].
  rewrite (Hhours (forecastEntry "Rain" 0.8 57600) 57600%Z eq_refl eq_refl
             ltac:(vm_compute; discriminate)).
  reflexivity.
Defined.

(** * Recommended time *)

(** X22.  The recommended time is decided by the local hour alone, the
    weather is not used: "06:00 AM" from 5 to 7, "07:00 PM" from 18 to 20,
    "06:00 AM (Tomorrow)" at every other hour.  A recommendation carries it
    for every action other than "Stop", which carries "N/A", and "Pending",
    which carries none. *)
Theorem recommended_time
    (clk : Clock.t) (currentData : option Reading.t) (crop : option Crop.t)
    (historicalData : list Reading.t) :
  let r := generateRecommendation clk currentData crop historicalData in
  let hour := Clock.getHours clk in
  let time :=
    if ((5 <=? hour) && (hour <? 7))%Z then "06:00 AM"
    else if ((18 <=? hour) && (hour <? 20))%Z then "07:00 PM"
    else "06:00 AM (Tomorrow)" in
  (0 <= hour < 24)%Z
  /\ (forall weather, getOptimalIrrigationTime clk weather = time)
  /\ (Recommendation.action r = "Pending" -> Recommendation.recommendedTime r = None)
  /\ (Recommendation.action r = "Stop" ->
      Recommendation.recommendedTime r = Some "N/A")
  /\ (Recommendation.action r <> "Pending" -> Recommendation.action r <> "Stop" ->
      Recommendation.recommendedTime r = Some time).
Proof.
  cbv zeta.
  assert (Htime : forall weather,
            getOptimalIrrigationTime clk weather
            = if ((5 <=? Clock.getHours clk) && (Clock.getHours clk <? 7))%Z
              then "06:00 AM"
              else if ((18 <=? Clock.getHours clk) && (Clock.getHours clk <? 20))%Z
                   then "07:00 PM"
                   else "06:00 AM (Tomorrow)").
  { intros weather. unfold getOptimalIrrigationTime. cbv zeta.
    destruct (_ && _)%Z; [reflexivity|].
    destruct (_ && _)%Z; [reflexivity|].
    destruct (_ || _)%Z; reflexivity. }
  split; [unfold Clock.getHours; apply Z.mod_pos_bound; lia|].
  split; [exact Htime|].
  unfold generateRecommendation.
  destruct currentData as [currentData|];
    [|repeat split; intros; try reflexivity; try discriminate; contradiction].
  destruct (Reading.soil currentData) as [soil|];
    [|repeat split; intros; try reflexivity; try discriminate; contradiction].
  cbv zeta.
  destruct (_ >? _).
  { cbn [Recommendation.action Recommendation.recommendedTime].
    repeat split; intros; try reflexivity; try discriminate; contradiction. }
  rewrite Htime.
  cbn [Recommendation.action Recommendation.recommendedTime].
  destruct (_ <? _).
  - destruct (_ && _ && _); cbn [d_action];
      repeat split; intros; try reflexivity; discriminate.
  - destruct (_ <? _); cbn [d_action];
      repeat split; intros; try reflexivity; discriminate.
Qed.

(** * The program's rounding at the limits *)

Module Binary64Facts.
Import PrimFloat Binary64.
Local Open Scope float_scope.

Set Warnings "-inexact-float".

(** C1, as stated, fails at the limit.  For Wheat the program computes
    [50 * 1.1] as the double next above 55.  A moisture equal to that
    double exceeds 1.1 times the maximum, is not above the computed
    threshold, and is answered with "Maintain"; the next double is answered
    with "Stop". *)
Lemma stop_threshold_counterexample :
  50 * 1.1 = 0x1.b800000000001p+5
  /\ (55 <? 0x1.b800000000001p+5) = true
  /\ isAboveThreshold 0x1.b800000000001p+5 50 = false
  /\ action 0x1.b800000000001p+5 30 50 None 0 = "Maintain"%string
  /\ action (next_up 0x1.b800000000001p+5) 30 50 None 0 = "Stop"%string.
Proof. repeat split; reflexivity. Qed.

(** The limits of the crop table as the program computes them: the products
    by 1.1 are the real products or the doubles next above them, those by
    1.15 the real products or the doubles next below them, those by 1.3 are
    exact. *)
Lemma limits_of_the_table :
  map (fun max => max * 1.1) [50; 55; 60; 65; 70]
  = [0x1.b800000000001p+5; 0x1.e400000000001p+5; 66; 71.5; 77]
  /\ map (fun max => max * 1.15) [50; 55; 60; 65; 70]
     = [0x1.cbfffffffffffp+5; 0x1.f9fffffffffffp+5; 69; 74.75; 80.5]
  /\ map (fun max => max * 1.3) [50; 55; 60; 65; 70] = [65; 71.5; 78; 84.5; 91].
Proof. repeat split; reflexivity. Qed.

(** Wheat at moisture 57.5 is over-irrigated for the program, whose limit is
    the double next below 57.5. *)
Lemma over_irrigation_at_the_limit :
  isOverIrrigated 57.5 50 = true /\ (50 * 1.15 <? 57.5) = true.
Proof. split; reflexivity. Qed.

(** The moistures 42 and 39.9 are no irrigation event for the program: it
    computes [42 * 0.95] as the double 39.9, which is below the real
    product. *)
Lemma irrigation_event_at_the_limit :
  isIrrigationEvent 39.9 42 = false /\ 42 * 0.95 = 39.9.
Proof. split; reflexivity. Qed.

(** A drop from 32.2 to 24.2 is above 8 and gives the confidence 86. *)
Lemma leak_confidence_at_the_limit :
  (24.2 - 32.2 <? -8) = true /\ leakConfidence 24.2 32.2 = 86.
Proof. split; reflexivity. Qed.

(** The largest draw below 1 gives the wind 18 and the solar radiation
    600. *)
Lemma simulated_weather_at_the_limit :
  simulatedWind 0x1.fffffffffffffp-1 = 18
  /\ simulatedSolar 0x1.fffffffffffffp-1 = 600.
Proof. split; reflexivity. Qed.

End Binary64Facts.
